(** * oFono packet-data core: a shallow embedding of [src/gprs.c] and of the
    AT dialect layer [drivers/atmodem/gprs.c], with the properties of the
    connection manager checked against the code.

    Conventions of the embedding.
    - C [int] and [unsigned int] values are [Z]; [ofono_bool_t] fields, which
      the code only ever assigns 0/1 expressions, are [bool].
    - Bit flags stay an integer and are tested with [Z.land]/[Z.lor].
    - A C string is a [string]; a [char *] that may be [NULL] is an
      [option string].
    - Driver operations and D-Bus traffic are not executed: every function
      returns the new state together with the list of calls it issued, in
      program order.  Driver callbacks are separate entry points. *)

From Stdlib Require Import ZArith Bool List String Ascii Lia.
From Stdlib Require Import DecimalString DecimalN.
From stdpp Require Import base option list gmap strings.

Local Open Scope string_scope.
Local Open Scope list_scope.
Local Open Scope Z_scope.

(** ** ell's [l_uintset]

    The identifier sets [used_pids] and [used_cids] are ell bitmaps over a
    closed range [umin..umax].  ell is an external library; the operations
    below follow its documented behaviour: bit [i] of the bitmap stands for
    the number [umin + i]. *)
Module Uintset.

Record t := mk { umin : Z; umax : Z; bits : list bool }.

Definition size (s : t) : nat := length (bits s).

Definition new_from_range (lo hi : Z) : t :=
  mk lo hi (replicate (Z.to_nat (hi - lo + 1)) false).

(* l_uintset_new(size) is l_uintset_new_from_range(1, size) *)
Definition new (n : Z) : t := new_from_range 1 n.

Definition get_max (s : t) : Z := umax s.
Definition get_min (s : t) : Z := umin s.

Definition in_range (s : t) (n : Z) : bool :=
  (umin s <=? n) && (n <=? umax s).

Definition contains (s : t) (n : Z) : bool :=
  in_range s n && default false (bits s !! Z.to_nat (n - umin s)).

(* l_uintset_put: out of range numbers are refused, the set is unchanged *)
Definition put (s : t) (n : Z) : t :=
  if in_range s n
  then mk (umin s) (umax s) (<[Z.to_nat (n - umin s) := true]> (bits s))
  else s.

(* l_uintset_take *)
Definition take (s : t) (n : Z) : t :=
  if in_range s n
  then mk (umin s) (umax s) (<[Z.to_nat (n - umin s) := false]> (bits s))
  else s.

(* find_first_zero_bit: index of the first clear bit, or the size *)
Fixpoint find_first_zero_bit (l : list bool) : nat :=
  match l with
  | [] => 0%nat
  | b :: l' => if b then S (find_first_zero_bit l') else 0%nat
  end.

(* find_next_zero_bit: first clear bit at index [start] or above *)
Definition find_next_zero_bit (l : list bool) (start : nat) : nat :=
  (start + find_first_zero_bit (drop start l))%nat.

Definition find_unused_min (s : t) : Z :=
  let bit := find_first_zero_bit (bits s) in
  if (size s <=? bit)%nat then umax s + 1 else Z.of_nat bit + umin s.

(* l_uintset_find_unused: first unused number starting at [start]; the
   search wraps around to the minimum; max + 1 when nothing is free or
   [start] is outside the range *)
Definition find_unused (s : t) (start : Z) : Z :=
  if (start <? umin s) || (umax s <? start) then umax s + 1
  else
    let bit := find_next_zero_bit (bits s) (Z.to_nat (start - umin s)) in
    let bit := if (size s <=? bit)%nat then find_first_zero_bit (bits s)
               else bit in
    if (size s <=? bit)%nat then umax s + 1 else Z.of_nat bit + umin s.

(* the bitmap covers the range exactly *)
Definition wf (s : t) : Prop :=
  umin s <= umax s /\ Z.of_nat (size s) = umax s - umin s + 1.

End Uintset.

(* l_uintset_new_from_range(min, max) on uint32_t arguments: the size is
   computed as an unsigned int, and the result is NULL when it is above
   USHRT_MAX *)
Definition l_uintset_new_from_range (lo hi : Z) : option Uintset.t :=
  let lo := lo mod 2 ^ 32 in
  let hi := hi mod 2 ^ 32 in
  let size := (hi - lo + 1) mod 2 ^ 32 in
  if 65535 <? size then None
  else Some (Uintset.mk lo hi (replicate (Z.to_nat size) false)).

(** ** Bit flags of [struct ofono_gprs] *)

Definition GPRS_FLAG_ATTACHING : Z := 1.
Definition GPRS_FLAG_RECHECK : Z := 2.
Definition GPRS_FLAG_ATTACHED_UPDATE : Z := 4.

Definition MAX_CONTEXT_NAME_LENGTH : Z := 127.
Definition MAX_MESSAGE_PROXY_LENGTH : Z := 255.
Definition MAX_MESSAGE_CENTER_LENGTH : Z := 255.
Definition MAX_CONTEXTS : Z := 256.
Definition SUSPEND_TIMEOUT : Z := 8.

(* flags & m *)
Definition flag_test (flags m : Z) : bool := negb (Z.land flags m =? 0).
(* flags |= m *)
Definition flag_set (flags m : Z) : Z := Z.lor flags m.
(* flags &= ~m *)
Definition flag_clear (flags m : Z) : Z := Z.land flags (Z.lnot m).

(** ** Constants of [common.h] and of the public headers

    Modelled from the spec: the numeric values of the registration status,
    access technology, bearer and suspend-cause constants live in headers
    that are not part of the verified sources.  The names are the ones the
    code uses; the values are the 3GPP 27.007 ones, which the dialect code
    relies on literally (status 0 is "not registered" in [cgreg_notify], the
    bearer numbers are spelled out in the comments of
    [huawei_mode_notify]). *)

Definition NETWORK_REGISTRATION_STATUS_NOT_REGISTERED : Z := 0.
Definition NETWORK_REGISTRATION_STATUS_REGISTERED : Z := 1.
Definition NETWORK_REGISTRATION_STATUS_SEARCHING : Z := 2.
Definition NETWORK_REGISTRATION_STATUS_DENIED : Z := 3.
Definition NETWORK_REGISTRATION_STATUS_UNKNOWN : Z := 4.
Definition NETWORK_REGISTRATION_STATUS_ROAMING : Z := 5.
Definition NETWORK_REGISTRATION_STATUS_REGISTERED_SMS_EUTRAN : Z := 6.
Definition NETWORK_REGISTRATION_STATUS_ROAMING_SMS_EUTRAN : Z := 7.

Definition ACCESS_TECHNOLOGY_EUTRAN : Z := 7.

Definition PACKET_BEARER_NONE : Z := 0.
Definition PACKET_BEARER_GPRS : Z := 1.
Definition PACKET_BEARER_EGPRS : Z := 2.
Definition PACKET_BEARER_UMTS : Z := 3.
Definition PACKET_BEARER_HSUPA : Z := 4.
Definition PACKET_BEARER_HSDPA : Z := 5.
Definition PACKET_BEARER_HSUPA_HSDPA : Z := 6.
Definition PACKET_BEARER_EPS : Z := 7.

Inductive gprs_suspend_cause :=
  | GPRS_SUSPENDED_DETACHED
  | GPRS_SUSPENDED_SIGNALLING
  | GPRS_SUSPENDED_CALL
  | GPRS_SUSPENDED_NO_COVERAGE
  | GPRS_SUSPENDED_UNKNOWN_CAUSE.

Definition OFONO_GPRS_MAX_APN_LENGTH : Z := 100.
Definition OFONO_GPRS_MAX_USERNAME_LENGTH : Z := 63.
Definition OFONO_GPRS_MAX_PASSWORD_LENGTH : Z := 63.

Inductive ofono_gprs_context_type :=
  | OFONO_GPRS_CONTEXT_TYPE_ANY
  | OFONO_GPRS_CONTEXT_TYPE_INTERNET
  | OFONO_GPRS_CONTEXT_TYPE_MMS
  | OFONO_GPRS_CONTEXT_TYPE_WAP
  | OFONO_GPRS_CONTEXT_TYPE_IMS
  | OFONO_GPRS_CONTEXT_TYPE_SUPL
  | OFONO_GPRS_CONTEXT_TYPE_IA.

Inductive ofono_gprs_proto :=
  | OFONO_GPRS_PROTO_IP
  | OFONO_GPRS_PROTO_IPV6
  | OFONO_GPRS_PROTO_IPV4V6.

Inductive ofono_gprs_auth_method :=
  | OFONO_GPRS_AUTH_METHOD_CHAP
  | OFONO_GPRS_AUTH_METHOD_PAP
  | OFONO_GPRS_AUTH_METHOD_NONE.

#[global] Instance ofono_gprs_context_type_eq_dec :
  EqDecision ofono_gprs_context_type.
Proof. solve_decision. Defined.

#[global] Instance ofono_gprs_proto_eq_dec : EqDecision ofono_gprs_proto.
Proof. solve_decision. Defined.

#[global] Instance ofono_gprs_auth_method_eq_dec :
  EqDecision ofono_gprs_auth_method.
Proof. solve_decision. Defined.

(* strlen *)
Definition strlen (s : string) : Z := Z.of_nat (String.length s).

(* g_str_equal / !strcmp *)
Definition g_str_equal (a b : string) : bool := String.eqb a b.

(* l_str_has_prefix(str, prefix) / g_str_has_prefix *)
Definition l_str_has_prefix (str pre : string) : bool := String.prefix pre str.

(** ** The AT dialect layer, [drivers/atmodem/gprs.c] *)
Module Atmodem.

(* the vendors the file distinguishes; every other vendor is GENERIC *)
Inductive ofono_vendor :=
  | OFONO_VENDOR_GENERIC
  | OFONO_VENDOR_GOBI
  | OFONO_VENDOR_NOVATEL
  | OFONO_VENDOR_TELIT
  | OFONO_VENDOR_HUAWEI
  | OFONO_VENDOR_UBLOX
  | OFONO_VENDOR_SIMCOM_A76XX
  | OFONO_VENDOR_QUECTEL_EC2X
  | OFONO_VENDOR_QUECTEL_EG91X
  | OFONO_VENDOR_QUECTEL_SERIAL
  | OFONO_VENDOR_MBM
  | OFONO_VENDOR_NOKIA
  | OFONO_VENDOR_IFX.

#[global] Instance ofono_vendor_eq_dec : EqDecision ofono_vendor.
Proof. solve_decision. Defined.

Record gprs_data := mk_gprs_data {
  vendor : ofono_vendor;
  last_auto_context_id : Z;
  telit_try_reattach : bool;
  attached : Z
}.

(* what a notification handler does to the outside: AT commands queued on
   the chat and calls into the core *)
Inductive action :=
  | g_at_chat_send (cmd : string)
  | ofono_gprs_status_notify (status : Z)
  | ofono_gprs_detached_notify
  | ofono_gprs_suspend_notify (cause : gprs_suspend_cause)
  | ofono_gprs_resume_notify
  | ofono_gprs_bearer_notify (bearer : Z).

(* a C truth value *)
Definition truth (x : Z) : bool := negb (x =? 0).

(** The [GAtResult] iterator belongs to gatchat, outside the verified
    sources.  Each handler takes the outcome of the iterator calls it makes,
    in call order: [false]/[None] when the call returns FALSE. *)

(* at_gprs_set_attached, with [sent] the outcome of g_at_chat_send(...) > 0 *)
Definition at_gprs_set_attached (attach : Z) (sent : bool) (gd : gprs_data)
  : gprs_data * list action :=
  let cmd := if truth attach then "AT+CGATT=1" else "AT+CGATT=0" in
  if sent
  then (mk_gprs_data (vendor gd) (last_auto_context_id gd)
          (telit_try_reattach gd) attach, [g_at_chat_send cmd])
  else (gd, []).

(* cgreg_notify; [parsed] is the status at_util_parse_reg_unsolicited read *)
Definition cgreg_notify (parsed : option Z) (gd : gprs_data)
  : gprs_data * list action :=
  match parsed with
  | None => (gd, [])
  | Some status =>
    if decide (vendor gd = OFONO_VENDOR_TELIT) then
      if truth (attached gd) && negb (truth status)
         && negb (telit_try_reattach gd)
      then (mk_gprs_data (vendor gd) (last_auto_context_id gd) true
              (attached gd), [g_at_chat_send "AT+CGATT=1"])
      else (mk_gprs_data (vendor gd) (last_auto_context_id gd) false
              (attached gd), [ofono_gprs_status_notify status])
    else (gd, [ofono_gprs_status_notify status])
  end.

(* [scanned] is the outcome of sscanf(event, "%*s %*s %*s %u", &x): the
   number read, if the conversion took place.  For "ME PDN ACT" the target
   is gd->last_auto_context_id, which keeps its value when nothing is
   converted.  For "ME PDN DEACT" the target is the local [context_id],
   which is not initialised: when nothing is converted the comparison reads
   whatever the stack slot held, the value [context_id_uninit]. *)
Definition cgev_notify (event : option string) (scanned : option Z)
    (context_id_uninit : Z) (gd : gprs_data) : gprs_data * list action :=
  match event with
  | None => (gd, [])
  | Some ev =>
    if g_str_equal ev "NW DETACH" || g_str_equal ev "ME DETACH" then
      if bool_decide (vendor gd = OFONO_VENDOR_TELIT)
         && telit_try_reattach gd
      then (gd, [])
      else (mk_gprs_data (vendor gd) (last_auto_context_id gd)
              (telit_try_reattach gd) 0, [ofono_gprs_detached_notify])
    else if l_str_has_prefix ev "ME PDN ACT" then
      (mk_gprs_data (vendor gd)
         (default (last_auto_context_id gd) scanned)
         (telit_try_reattach gd) (attached gd),
       [g_at_chat_send "AT+CGDCONT?"])
    else if l_str_has_prefix ev "ME PDN DEACT" then
      let context_id := default context_id_uninit scanned in
      if last_auto_context_id gd =? context_id
      then (mk_gprs_data (vendor gd) (-1) (telit_try_reattach gd)
              (attached gd), [])
      else (gd, [])
    else (gd, [])
  end.

(* xdatastat_notify.  [line] is g_at_result_iter_next(&iter, "+XDATASTAT:"),
   [number] is g_at_result_iter_next_number(&iter, &stat).  The [if] on the
   failed read guards only the DBG statement that follows it, so control
   reaches the switch either way; when the read failed [stat] still holds
   whatever the stack slot held, the value [stat_uninit]. *)
Definition xdatastat_notify (line : bool) (number : option Z)
    (stat_uninit : Z) : list action :=
  if negb line then []
  else
    let stat := default stat_uninit number in
    if stat =? 0 then [ofono_gprs_suspend_notify GPRS_SUSPENDED_UNKNOWN_CAUSE]
    else if stat =? 1 then [ofono_gprs_resume_notify]
    else [].

(* the switch of huawei_mode_notify *)
Definition huawei_submode_bearer (submode : Z) : Z :=
  if (submode =? 1) || (submode =? 2) then 1
  else if submode =? 3 then 2
  else if submode =? 4 then 3
  else if submode =? 5 then 5
  else if submode =? 6 then 4
  else if (submode =? 7) || (submode =? 9) then 6
  else 0.

Definition huawei_mode_notify (line : bool) (mode submode : option Z)
  : list action :=
  if negb line then []
  else match mode with
       | None => []
       | Some _ =>
         match submode with
         | None => []
         | Some sm => [ofono_gprs_bearer_notify (huawei_submode_bearer sm)]
         end
       end.

(* huawei_hcsq_notify *)
Definition huawei_hcsq_notify (line : bool) (mode : option string)
  : list action :=
  if negb line then []
  else match mode with
       | None => []
       | Some m => if g_str_equal "LTE" m then [ofono_gprs_bearer_notify 7]
                   else []
       end.

(* the switch of telit_mode_notify *)
Definition telit_nt_bearer (nt : Z) : Z :=
  if nt =? 0 then 1
  else if nt =? 1 then 2
  else if nt =? 2 then 3
  else if nt =? 3 then 5
  else if nt =? 4 then 7
  else 0.

Definition telit_mode_notify (line : bool) (nt : option Z) : list action :=
  if negb line then []
  else match nt with
       | None => []
       | Some n => [ofono_gprs_bearer_notify (telit_nt_bearer n)]
       end.

(* the switch of simcom_mode_notify *)
Definition simcom_stat_bearer (stat : Z) : Z :=
  if stat =? 0 then PACKET_BEARER_NONE
  else if (stat =? 1) || (stat =? 2) then PACKET_BEARER_GPRS
  else if stat =? 3 then PACKET_BEARER_EGPRS
  else if stat =? 4 then PACKET_BEARER_UMTS
  else if stat =? 5 then PACKET_BEARER_HSDPA
  else if stat =? 6 then PACKET_BEARER_HSUPA
  else if stat =? 7 then PACKET_BEARER_HSUPA_HSDPA
  else if stat =? 8 then PACKET_BEARER_EPS
  else PACKET_BEARER_NONE.

Definition simcom_mode_notify (line : bool) (stat : option Z) : list action :=
  if negb line then []
  else match stat with
       | None => []
       | Some n => [ofono_gprs_bearer_notify (simcom_stat_bearer n)]
       end.

(* the switch of ublox_ureg_notify: the default forwards the state *)
Definition ublox_state_bearer (state : Z) : Z :=
  if state =? 4 then 5
  else if state =? 5 then 4
  else if state =? 8 then 1
  else if state =? 9 then 2
  else state.

Definition ublox_ureg_notify (line : bool) (state : option Z) : list action :=
  if negb line then []
  else match state with
       | None => []
       | Some n => [ofono_gprs_bearer_notify (ublox_state_bearer n)]
       end.

(* cpsb_notify *)
Definition cpsb_notify (line : bool) (first bearer : option Z) : list action :=
  if negb line then []
  else match first with
       | None => []
       | Some _ =>
         match bearer with
         | None => []
         | Some b => [ofono_gprs_bearer_notify b]
         end
       end.

(* at_gprs_probe: g_try_new0 and the two assignments *)
Definition at_gprs_probe (v : ofono_vendor) : gprs_data :=
  mk_gprs_data v (-1) false 0.

(* the unsolicited lines the dialect reacts to, with the iterator outcomes *)
Inductive unsolicited :=
  | CGREG (parsed : option Z)
  | CGEV (event : option string) (scanned : option Z) (context_id_uninit : Z)
  | SET_ATTACHED (attach : Z) (sent : bool).

Definition handle (u : unsolicited) (gd : gprs_data)
  : gprs_data * list action :=
  match u with
  | CGREG p => cgreg_notify p gd
  | CGEV e s u => cgev_notify e s u gd
  | SET_ATTACHED a sent => at_gprs_set_attached a sent gd
  end.

(* a run of the dialect: every action issued, in order *)
Fixpoint run (us : list unsolicited) (gd : gprs_data)
  : gprs_data * list action :=
  match us with
  | [] => (gd, [])
  | u :: us' =>
    let '(gd1, a1) := handle u gd in
    let '(gd2, a2) := run us' gd1 in
    (gd2, a1 ++ a2)
  end.

Definition is_reattach (a : action) : bool :=
  match a with
  | g_at_chat_send cmd => g_str_equal cmd "AT+CGATT=1"
  | _ => false
  end.

Definition reattach_count (l : list action) : nat :=
  length (filter (fun a => is_reattach a = true) l).

End Atmodem.

(** ** The connection manager, [src/gprs.c] *)
Module Gprs.

(** *** Settings store

    [GKeyFile] is glib's; the store is taken at its contract: a dictionary
    of groups, each a dictionary from keys to string values. *)
Abbreviation keyfile := (gmap string (gmap string string)).

Definition g_key_file_set_string (kf : keyfile) (group k v : string)
  : keyfile :=
  <[group := <[k := v]> (default ∅ (kf !! group))]> kf.

Definition g_key_file_get_string (kf : keyfile) (group k : string)
  : option string :=
  match kf !! group with
  | Some grp => grp !! k
  | None => None
  end.

Definition g_key_file_remove_group (kf : keyfile) (group : string)
  : keyfile := delete group kf.

Definition g_key_file_set_boolean (kf : keyfile) (group k : string)
    (v : bool) : keyfile :=
  g_key_file_set_string kf group k (if v then "true" else "false").

Definition g_key_file_set_integer (kf : keyfile) (group k : string)
    (v : Z) : keyfile :=
  g_key_file_set_string kf group k
    (NilEmpty.string_of_uint (N.to_uint (Z.to_N v))).

Definition SETTINGS_GROUP : string := "Settings".

(** *** Data model *)

(* a D-Bus method call, identified by its serial *)
Definition DBusMessage := nat.

Record ipv4_settings := mk_ipv4_settings {
  static_ip : bool;
  ipv4_ip : option string;
  ipv4_netmask : option string;
  ipv4_gateway : option string;
  ipv4_dns : option (list string);
  ipv4_proxy : option string
}.

Record ipv6_settings := mk_ipv6_settings {
  ipv6_ip : option string;
  prefix_len : Z;
  ipv6_gateway : option string;
  ipv6_dns : option (list string)
}.

Record context_settings := mk_context_settings {
  ipv4 : option ipv4_settings;
  ipv6 : option ipv6_settings
}.

(* the operation table of a context driver: which entries are not NULL *)
Record ofono_gprs_context_driver := mk_context_driver {
  activate_primary : bool;
  deactivate_primary : bool;
  read_settings : bool;
  detach_shutdown : bool
}.

(* the operation table of the gprs driver: which entries are not NULL *)
Record ofono_gprs_driver := mk_gprs_driver {
  set_attached : bool;
  attached_status : bool;
  list_active_contexts : bool
}.

Record ofono_gprs_primary_context := mk_primary_context {
  cid : Z;
  apn : string;
  username : string;
  password : string;
  proto : ofono_gprs_proto;
  auth_method : ofono_gprs_auth_method
}.

Definition with_cid (v : Z) (x : ofono_gprs_primary_context) : ofono_gprs_primary_context :=
    mk_primary_context v (apn x) (username x) (password x) (proto x)
    (auth_method x).

Definition with_apn (v : string) (x : ofono_gprs_primary_context) : ofono_gprs_primary_context :=
    mk_primary_context (cid x) v (username x) (password x) (proto x)
    (auth_method x).

Definition with_username (v : string) (x : ofono_gprs_primary_context) : ofono_gprs_primary_context :=
    mk_primary_context (cid x) (apn x) v (password x) (proto x) (auth_method
    x).

Definition with_password (v : string) (x : ofono_gprs_primary_context) : ofono_gprs_primary_context :=
    mk_primary_context (cid x) (apn x) (username x) v (proto x) (auth_method
    x).

Definition with_proto (v : ofono_gprs_proto) (x : ofono_gprs_primary_context) : ofono_gprs_primary_context :=
    mk_primary_context (cid x) (apn x) (username x) (password x) v
    (auth_method x).

Definition with_auth_method (v : ofono_gprs_auth_method) (x : ofono_gprs_primary_context) : ofono_gprs_primary_context :=
    mk_primary_context (cid x) (apn x) (username x) (password x) (proto x) v.

Record ofono_gprs_context := mk_gprs_context {
  gc_type : ofono_gprs_context_type;
  inuse : bool;
  gc_driver : option ofono_gprs_context_driver;
  interface : option string;
  gc_settings : context_settings
}.

Definition with_gc_type (v : ofono_gprs_context_type) (x : ofono_gprs_context) : ofono_gprs_context :=
    mk_gprs_context v (inuse x) (gc_driver x) (interface x) (gc_settings x).

Definition with_inuse (v : bool) (x : ofono_gprs_context) : ofono_gprs_context :=
    mk_gprs_context (gc_type x) v (gc_driver x) (interface x) (gc_settings x).

Definition with_gc_driver (v : option ofono_gprs_context_driver) (x : ofono_gprs_context) : ofono_gprs_context :=
    mk_gprs_context (gc_type x) (inuse x) v (interface x) (gc_settings x).

Definition with_interface (v : option string) (x : ofono_gprs_context) : ofono_gprs_context :=
    mk_gprs_context (gc_type x) (inuse x) (gc_driver x) v (gc_settings x).

Definition with_gc_settings (v : context_settings) (x : ofono_gprs_context) : ofono_gprs_context :=
    mk_gprs_context (gc_type x) (inuse x) (gc_driver x) (interface x) v.

Record pri_context := mk_pri_context {
  active : bool;
  type : ofono_gprs_context_type;
  name : string;
  message_proxy : string;
  message_center : string;
  id : Z;
  path : string;
  key : string;
  proxy_host : option string;
  proxy_port : Z;
  ctx_pending : option DBusMessage;
  context : ofono_gprs_primary_context;
  context_driver : option nat
}.

Definition with_active (v : bool) (x : pri_context) : pri_context :=
    mk_pri_context v (type x) (name x) (message_proxy x) (message_center x)
    (id x) (path x) (key x) (proxy_host x) (proxy_port x) (ctx_pending x)
    (context x) (context_driver x).

Definition with_type (v : ofono_gprs_context_type) (x : pri_context) : pri_context :=
    mk_pri_context (active x) v (name x) (message_proxy x) (message_center x)
    (id x) (path x) (key x) (proxy_host x) (proxy_port x) (ctx_pending x)
    (context x) (context_driver x).

Definition with_name (v : string) (x : pri_context) : pri_context :=
    mk_pri_context (active x) (type x) v (message_proxy x) (message_center x)
    (id x) (path x) (key x) (proxy_host x) (proxy_port x) (ctx_pending x)
    (context x) (context_driver x).

Definition with_message_proxy (v : string) (x : pri_context) : pri_context :=
    mk_pri_context (active x) (type x) (name x) v (message_center x) (id x)
    (path x) (key x) (proxy_host x) (proxy_port x) (ctx_pending x) (context x)
    (context_driver x).

Definition with_message_center (v : string) (x : pri_context) : pri_context :=
    mk_pri_context (active x) (type x) (name x) (message_proxy x) v (id x)
    (path x) (key x) (proxy_host x) (proxy_port x) (ctx_pending x) (context x)
    (context_driver x).

Definition with_id (v : Z) (x : pri_context) : pri_context :=
    mk_pri_context (active x) (type x) (name x) (message_proxy x)
    (message_center x) v (path x) (key x) (proxy_host x) (proxy_port x)
    (ctx_pending x) (context x) (context_driver x).

Definition with_path (v : string) (x : pri_context) : pri_context :=
    mk_pri_context (active x) (type x) (name x) (message_proxy x)
    (message_center x) (id x) v (key x) (proxy_host x) (proxy_port x)
    (ctx_pending x) (context x) (context_driver x).

Definition with_key (v : string) (x : pri_context) : pri_context :=
    mk_pri_context (active x) (type x) (name x) (message_proxy x)
    (message_center x) (id x) (path x) v (proxy_host x) (proxy_port x)
    (ctx_pending x) (context x) (context_driver x).

Definition with_proxy_host (v : option string) (x : pri_context) : pri_context :=
    mk_pri_context (active x) (type x) (name x) (message_proxy x)
    (message_center x) (id x) (path x) (key x) v (proxy_port x) (ctx_pending
    x) (context x) (context_driver x).

Definition with_proxy_port (v : Z) (x : pri_context) : pri_context :=
    mk_pri_context (active x) (type x) (name x) (message_proxy x)
    (message_center x) (id x) (path x) (key x) (proxy_host x) v (ctx_pending
    x) (context x) (context_driver x).

Definition with_ctx_pending (v : option DBusMessage) (x : pri_context) : pri_context :=
    mk_pri_context (active x) (type x) (name x) (message_proxy x)
    (message_center x) (id x) (path x) (key x) (proxy_host x) (proxy_port x) v
    (context x) (context_driver x).

Definition with_context (v : ofono_gprs_primary_context) (x : pri_context) : pri_context :=
    mk_pri_context (active x) (type x) (name x) (message_proxy x)
    (message_center x) (id x) (path x) (key x) (proxy_host x) (proxy_port x)
    (ctx_pending x) v (context_driver x).

Definition with_context_driver (v : option nat) (x : pri_context) : pri_context :=
    mk_pri_context (active x) (type x) (name x) (message_proxy x)
    (message_center x) (id x) (path x) (key x) (proxy_host x) (proxy_port x)
    (ctx_pending x) (context x) v.

(* [netreg_technology] is what ofono_netreg_get_technology(gprs->netreg)
   answers, [atom_registered] and [atom_path] what the atom queries answer,
   and [dbus_register_ok] the outcome of g_dbus_register_interface.  A
   [struct pri_context *] is the position of the context in [contexts], a
   [struct ofono_gprs_context *] the position in [context_drivers]. *)
Record ofono_gprs := mk_gprs {
  contexts : list pri_context;
  attached : bool;
  driver_attached : bool;
  roaming_allowed : bool;
  powered : bool;
  suspended : bool;
  status : Z;
  flags : Z;
  bearer : Z;
  suspend_timeout : Z;
  used_pids : Uintset.t;
  last_context_id : Z;
  used_cids : option Uintset.t;
  netreg_status : Z;
  netreg_technology : Z;
  settings : option keyfile;
  imsi : option string;
  pending : option DBusMessage;
  context_drivers : list ofono_gprs_context;
  driver : ofono_gprs_driver;
  atom_registered : bool;
  atom_path : string;
  dbus_register_ok : bool
}.

Definition with_contexts (v : list pri_context) (x : ofono_gprs) : ofono_gprs :=
    mk_gprs v (attached x) (driver_attached x) (roaming_allowed x) (powered x)
    (suspended x) (status x) (flags x) (bearer x) (suspend_timeout x)
    (used_pids x) (last_context_id x) (used_cids x) (netreg_status x)
    (netreg_technology x) (settings x) (imsi x) (pending x) (context_drivers
    x) (driver x) (atom_registered x) (atom_path x) (dbus_register_ok x).

Definition with_attached (v : bool) (x : ofono_gprs) : ofono_gprs :=
    mk_gprs (contexts x) v (driver_attached x) (roaming_allowed x) (powered x)
    (suspended x) (status x) (flags x) (bearer x) (suspend_timeout x)
    (used_pids x) (last_context_id x) (used_cids x) (netreg_status x)
    (netreg_technology x) (settings x) (imsi x) (pending x) (context_drivers
    x) (driver x) (atom_registered x) (atom_path x) (dbus_register_ok x).

Definition with_driver_attached (v : bool) (x : ofono_gprs) : ofono_gprs :=
    mk_gprs (contexts x) (attached x) v (roaming_allowed x) (powered x)
    (suspended x) (status x) (flags x) (bearer x) (suspend_timeout x)
    (used_pids x) (last_context_id x) (used_cids x) (netreg_status x)
    (netreg_technology x) (settings x) (imsi x) (pending x) (context_drivers
    x) (driver x) (atom_registered x) (atom_path x) (dbus_register_ok x).

Definition with_roaming_allowed (v : bool) (x : ofono_gprs) : ofono_gprs :=
    mk_gprs (contexts x) (attached x) (driver_attached x) v (powered x)
    (suspended x) (status x) (flags x) (bearer x) (suspend_timeout x)
    (used_pids x) (last_context_id x) (used_cids x) (netreg_status x)
    (netreg_technology x) (settings x) (imsi x) (pending x) (context_drivers
    x) (driver x) (atom_registered x) (atom_path x) (dbus_register_ok x).

Definition with_powered (v : bool) (x : ofono_gprs) : ofono_gprs :=
    mk_gprs (contexts x) (attached x) (driver_attached x) (roaming_allowed x)
    v (suspended x) (status x) (flags x) (bearer x) (suspend_timeout x)
    (used_pids x) (last_context_id x) (used_cids x) (netreg_status x)
    (netreg_technology x) (settings x) (imsi x) (pending x) (context_drivers
    x) (driver x) (atom_registered x) (atom_path x) (dbus_register_ok x).

Definition with_suspended (v : bool) (x : ofono_gprs) : ofono_gprs :=
    mk_gprs (contexts x) (attached x) (driver_attached x) (roaming_allowed x)
    (powered x) v (status x) (flags x) (bearer x) (suspend_timeout x)
    (used_pids x) (last_context_id x) (used_cids x) (netreg_status x)
    (netreg_technology x) (settings x) (imsi x) (pending x) (context_drivers
    x) (driver x) (atom_registered x) (atom_path x) (dbus_register_ok x).

Definition with_status (v : Z) (x : ofono_gprs) : ofono_gprs :=
    mk_gprs (contexts x) (attached x) (driver_attached x) (roaming_allowed x)
    (powered x) (suspended x) v (flags x) (bearer x) (suspend_timeout x)
    (used_pids x) (last_context_id x) (used_cids x) (netreg_status x)
    (netreg_technology x) (settings x) (imsi x) (pending x) (context_drivers
    x) (driver x) (atom_registered x) (atom_path x) (dbus_register_ok x).

Definition with_flags (v : Z) (x : ofono_gprs) : ofono_gprs :=
    mk_gprs (contexts x) (attached x) (driver_attached x) (roaming_allowed x)
    (powered x) (suspended x) (status x) v (bearer x) (suspend_timeout x)
    (used_pids x) (last_context_id x) (used_cids x) (netreg_status x)
    (netreg_technology x) (settings x) (imsi x) (pending x) (context_drivers
    x) (driver x) (atom_registered x) (atom_path x) (dbus_register_ok x).

Definition with_bearer (v : Z) (x : ofono_gprs) : ofono_gprs :=
    mk_gprs (contexts x) (attached x) (driver_attached x) (roaming_allowed x)
    (powered x) (suspended x) (status x) (flags x) v (suspend_timeout x)
    (used_pids x) (last_context_id x) (used_cids x) (netreg_status x)
    (netreg_technology x) (settings x) (imsi x) (pending x) (context_drivers
    x) (driver x) (atom_registered x) (atom_path x) (dbus_register_ok x).

Definition with_suspend_timeout (v : Z) (x : ofono_gprs) : ofono_gprs :=
    mk_gprs (contexts x) (attached x) (driver_attached x) (roaming_allowed x)
    (powered x) (suspended x) (status x) (flags x) (bearer x) v (used_pids x)
    (last_context_id x) (used_cids x) (netreg_status x) (netreg_technology x)
    (settings x) (imsi x) (pending x) (context_drivers x) (driver x)
    (atom_registered x) (atom_path x) (dbus_register_ok x).

Definition with_used_pids (v : Uintset.t) (x : ofono_gprs) : ofono_gprs :=
    mk_gprs (contexts x) (attached x) (driver_attached x) (roaming_allowed x)
    (powered x) (suspended x) (status x) (flags x) (bearer x) (suspend_timeout
    x) v (last_context_id x) (used_cids x) (netreg_status x)
    (netreg_technology x) (settings x) (imsi x) (pending x) (context_drivers
    x) (driver x) (atom_registered x) (atom_path x) (dbus_register_ok x).

Definition with_last_context_id (v : Z) (x : ofono_gprs) : ofono_gprs :=
    mk_gprs (contexts x) (attached x) (driver_attached x) (roaming_allowed x)
    (powered x) (suspended x) (status x) (flags x) (bearer x) (suspend_timeout
    x) (used_pids x) v (used_cids x) (netreg_status x) (netreg_technology x)
    (settings x) (imsi x) (pending x) (context_drivers x) (driver x)
    (atom_registered x) (atom_path x) (dbus_register_ok x).

Definition with_used_cids (v : option Uintset.t) (x : ofono_gprs) : ofono_gprs :=
    mk_gprs (contexts x) (attached x) (driver_attached x) (roaming_allowed x)
    (powered x) (suspended x) (status x) (flags x) (bearer x) (suspend_timeout
    x) (used_pids x) (last_context_id x) v (netreg_status x)
    (netreg_technology x) (settings x) (imsi x) (pending x) (context_drivers
    x) (driver x) (atom_registered x) (atom_path x) (dbus_register_ok x).

Definition with_netreg_status (v : Z) (x : ofono_gprs) : ofono_gprs :=
    mk_gprs (contexts x) (attached x) (driver_attached x) (roaming_allowed x)
    (powered x) (suspended x) (status x) (flags x) (bearer x) (suspend_timeout
    x) (used_pids x) (last_context_id x) (used_cids x) v (netreg_technology x)
    (settings x) (imsi x) (pending x) (context_drivers x) (driver x)
    (atom_registered x) (atom_path x) (dbus_register_ok x).

Definition with_netreg_technology (v : Z) (x : ofono_gprs) : ofono_gprs :=
    mk_gprs (contexts x) (attached x) (driver_attached x) (roaming_allowed x)
    (powered x) (suspended x) (status x) (flags x) (bearer x) (suspend_timeout
    x) (used_pids x) (last_context_id x) (used_cids x) (netreg_status x) v
    (settings x) (imsi x) (pending x) (context_drivers x) (driver x)
    (atom_registered x) (atom_path x) (dbus_register_ok x).

Definition with_settings (v : option keyfile) (x : ofono_gprs) : ofono_gprs :=
    mk_gprs (contexts x) (attached x) (driver_attached x) (roaming_allowed x)
    (powered x) (suspended x) (status x) (flags x) (bearer x) (suspend_timeout
    x) (used_pids x) (last_context_id x) (used_cids x) (netreg_status x)
    (netreg_technology x) v (imsi x) (pending x) (context_drivers x) (driver
    x) (atom_registered x) (atom_path x) (dbus_register_ok x).

Definition with_imsi (v : option string) (x : ofono_gprs) : ofono_gprs :=
    mk_gprs (contexts x) (attached x) (driver_attached x) (roaming_allowed x)
    (powered x) (suspended x) (status x) (flags x) (bearer x) (suspend_timeout
    x) (used_pids x) (last_context_id x) (used_cids x) (netreg_status x)
    (netreg_technology x) (settings x) v (pending x) (context_drivers x)
    (driver x) (atom_registered x) (atom_path x) (dbus_register_ok x).

Definition with_pending (v : option DBusMessage) (x : ofono_gprs) : ofono_gprs :=
    mk_gprs (contexts x) (attached x) (driver_attached x) (roaming_allowed x)
    (powered x) (suspended x) (status x) (flags x) (bearer x) (suspend_timeout
    x) (used_pids x) (last_context_id x) (used_cids x) (netreg_status x)
    (netreg_technology x) (settings x) (imsi x) v (context_drivers x) (driver
    x) (atom_registered x) (atom_path x) (dbus_register_ok x).

Definition with_context_drivers (v : list ofono_gprs_context) (x : ofono_gprs) : ofono_gprs :=
    mk_gprs (contexts x) (attached x) (driver_attached x) (roaming_allowed x)
    (powered x) (suspended x) (status x) (flags x) (bearer x) (suspend_timeout
    x) (used_pids x) (last_context_id x) (used_cids x) (netreg_status x)
    (netreg_technology x) (settings x) (imsi x) (pending x) v (driver x)
    (atom_registered x) (atom_path x) (dbus_register_ok x).

Definition with_driver (v : ofono_gprs_driver) (x : ofono_gprs) : ofono_gprs :=
    mk_gprs (contexts x) (attached x) (driver_attached x) (roaming_allowed x)
    (powered x) (suspended x) (status x) (flags x) (bearer x) (suspend_timeout
    x) (used_pids x) (last_context_id x) (used_cids x) (netreg_status x)
    (netreg_technology x) (settings x) (imsi x) (pending x) (context_drivers
    x) v (atom_registered x) (atom_path x) (dbus_register_ok x).

Definition with_atom_registered (v : bool) (x : ofono_gprs) : ofono_gprs :=
    mk_gprs (contexts x) (attached x) (driver_attached x) (roaming_allowed x)
    (powered x) (suspended x) (status x) (flags x) (bearer x) (suspend_timeout
    x) (used_pids x) (last_context_id x) (used_cids x) (netreg_status x)
    (netreg_technology x) (settings x) (imsi x) (pending x) (context_drivers
    x) (driver x) v (atom_path x) (dbus_register_ok x).

Definition with_atom_path (v : string) (x : ofono_gprs) : ofono_gprs :=
    mk_gprs (contexts x) (attached x) (driver_attached x) (roaming_allowed x)
    (powered x) (suspended x) (status x) (flags x) (bearer x) (suspend_timeout
    x) (used_pids x) (last_context_id x) (used_cids x) (netreg_status x)
    (netreg_technology x) (settings x) (imsi x) (pending x) (context_drivers
    x) (driver x) (atom_registered x) v (dbus_register_ok x).

Definition with_dbus_register_ok (v : bool) (x : ofono_gprs) : ofono_gprs :=
    mk_gprs (contexts x) (attached x) (driver_attached x) (roaming_allowed x)
    (powered x) (suspended x) (status x) (flags x) (bearer x) (suspend_timeout
    x) (used_pids x) (last_context_id x) (used_cids x) (netreg_status x)
    (netreg_technology x) (settings x) (imsi x) (pending x) (context_drivers
    x) (driver x) (atom_registered x) (atom_path x) v.

(** *** Calls issued to the outside *)

Inductive dbus_value :=
  | DBUS_TYPE_BOOLEAN (b : bool)
  | DBUS_TYPE_STRING (s : string)
  | DBUS_TYPE_OBJECT_PATH (s : string)
  | DBUS_TYPE_OTHER.

Inductive dbus_reply :=
  | method_return
  | ofono_error_invalid_args
  | ofono_error_invalid_format
  | ofono_error_busy
  | ofono_error_not_found
  | ofono_error_not_attached
  | ofono_error_attach_in_progress
  | ofono_error_not_implemented
  | ofono_error_in_use
  | ofono_error_not_allowed
  | ofono_error_failed.

Inductive dbus_interface :=
  | OFONO_CONNECTION_MANAGER_INTERFACE
  | OFONO_CONNECTION_CONTEXT_INTERFACE.

(* the completion callback registered with a deactivate_primary call *)
Inductive deactivate_cb :=
  | cb_pri_deactivate_callback
  | cb_gprs_deactivate_for_remove
  | cb_gprs_deactivate_for_all.

Inductive effect :=
  (* gprs->driver->set_attached(gprs, attach, gprs_attach_callback, gprs) *)
  | call_set_attached (attach : bool)
  (* gprs->driver->attached_status(gprs, registration_status_cb, gprs) *)
  | call_attached_status
  (* gc->driver->... on the binding at position [gc], for context [ctx] *)
  | call_activate_primary (gc : nat) (ctx : nat)
  | call_deactivate_primary (gc : nat) (c : Z) (cb : deactivate_cb)
      (ctx : nat)
  | call_read_settings (gc : nat) (c : Z) (ctx : nat)
  | call_detach_shutdown (gc : nat) (c : Z)
  | ofono_dbus_signal_property_changed (p : string) (i : dbus_interface)
      (prop : string) (v : dbus_value)
  (* signal_settings: PropertyChanged carrying the settings dictionary *)
  | signal_settings (p : string) (prop : string)
      (s : option context_settings) (ifname : option string)
  | g_dbus_send_reply (msg : DBusMessage) (arg : option string)
  | ofono_dbus_pending_reply (msg : DBusMessage) (r : dbus_reply)
  | g_dbus_emit_signal (sig : string) (p : string)
  | storage_sync
  | pri_ifupdown (ifname : option string) (up : bool)
  | pri_set_ipv4_addr (ifname : option string) (address : option string)
  | pri_setproxy (ifname : option string) (host : string)
  | g_timeout_add_seconds (secs : Z)
  | g_source_remove (tag : Z)
  | ofono_warn (text : string)
  | ofono_error (text : string).

(** *** State passing

    A C function that mutates [struct ofono_gprs] is a computation over the
    manager state that also logs the calls it issues. *)

Definition M (A : Type) : Type := ofono_gprs -> A * ofono_gprs * list effect.

Definition ret {A} (x : A) : M A := fun g => (x, g, []).

Definition bind {A B} (m : M A) (f : A -> M B) : M B :=
  fun g =>
    let '(a, g1, e1) := m g in
    let '(b, g2, e2) := f a g1 in
    (b, g2, e1 ++ e2).

Definition get : M ofono_gprs := fun g => (g, g, []).
Definition modify (f : ofono_gprs -> ofono_gprs) : M unit :=
  fun g => (tt, f g, []).
Definition emit (e : effect) : M unit := fun g => (tt, g, [e]).
Definition when (b : bool) (m : M unit) : M unit := if b then m else ret tt.

Declare Scope gprs_scope.
Delimit Scope gprs_scope with gprs.
Notation "'let*' x ':=' c1 'in' c2" := (bind c1 (fun x => c2))
  (at level 10, x name, c1 at level 100, c2 at level 200) : gprs_scope.
Notation "c1 ;; c2" := (bind c1 (fun _ => c2))
  (at level 100, c2 at level 200, right associativity) : gprs_scope.
Local Open Scope gprs_scope.

(* a loop over the positions of a GSList *)
Fixpoint for_each (l : list nat) (body : nat -> M unit) : M unit :=
  match l with
  | [] => ret tt
  | i :: l' => body i ;; for_each l' body
  end.

Definition exec {A} (m : M A) (g : ofono_gprs) : ofono_gprs := snd (fst (m g)).
Definition result {A} (m : M A) (g : ofono_gprs) : A := fst (fst (m g)).
Definition trace {A} (m : M A) (g : ofono_gprs) : list effect := snd (m g).

(* ctx->field = v, for the context at position [i] *)
Definition ctx_update (i : nat) (f : pri_context -> pri_context) : M unit :=
  modify (fun g => with_contexts (alter f i (contexts g)) g).

(* gc->field = v, for the binding at position [j] *)
Definition gc_update (j : nat)
    (f : ofono_gprs_context -> ofono_gprs_context) : M unit :=
  modify (fun g => with_context_drivers (alter f j (context_drivers g)) g).

Definition set_flag (m : Z) : M unit :=
  modify (fun g => with_flags (flag_set (flags g) m) g).
Definition clear_flag (m : Z) : M unit :=
  modify (fun g => with_flags (flag_clear (flags g) m) g).

(** *** Enumerations and their strings *)

Definition packet_bearer_to_string (b : Z) : string :=
  if b =? PACKET_BEARER_NONE then "none"
  else if b =? PACKET_BEARER_GPRS then "gprs"
  else if b =? PACKET_BEARER_EGPRS then "edge"
  else if b =? PACKET_BEARER_UMTS then "umts"
  else if b =? PACKET_BEARER_HSUPA then "hsupa"
  else if b =? PACKET_BEARER_HSDPA then "hsdpa"
  else if b =? PACKET_BEARER_HSUPA_HSDPA then "hspa"
  else if b =? PACKET_BEARER_EPS then "lte"
  else "".

Definition gprs_context_default_name (t : ofono_gprs_context_type)
  : option string :=
  match t with
  | OFONO_GPRS_CONTEXT_TYPE_ANY => None
  | OFONO_GPRS_CONTEXT_TYPE_INTERNET => Some "Internet"
  | OFONO_GPRS_CONTEXT_TYPE_MMS => Some "MMS"
  | OFONO_GPRS_CONTEXT_TYPE_WAP => Some "WAP"
  | OFONO_GPRS_CONTEXT_TYPE_IMS => Some "IMS"
  | OFONO_GPRS_CONTEXT_TYPE_SUPL => Some "SUPL"
  | OFONO_GPRS_CONTEXT_TYPE_IA => Some "Initial Attach"
  end.

Definition gprs_context_type_to_string (t : ofono_gprs_context_type)
  : option string :=
  match t with
  | OFONO_GPRS_CONTEXT_TYPE_ANY => None
  | OFONO_GPRS_CONTEXT_TYPE_INTERNET => Some "internet"
  | OFONO_GPRS_CONTEXT_TYPE_MMS => Some "mms"
  | OFONO_GPRS_CONTEXT_TYPE_WAP => Some "wap"
  | OFONO_GPRS_CONTEXT_TYPE_IMS => Some "ims"
  | OFONO_GPRS_CONTEXT_TYPE_SUPL => Some "supl"
  | OFONO_GPRS_CONTEXT_TYPE_IA => Some "ia"
  end.

(* returns the type written through [out] when the result is TRUE *)
Definition gprs_context_string_to_type (str : string)
  : option ofono_gprs_context_type :=
  if g_str_equal str "internet" then Some OFONO_GPRS_CONTEXT_TYPE_INTERNET
  else if g_str_equal str "wap" then Some OFONO_GPRS_CONTEXT_TYPE_WAP
  else if g_str_equal str "mms" then Some OFONO_GPRS_CONTEXT_TYPE_MMS
  else if g_str_equal str "ims" then Some OFONO_GPRS_CONTEXT_TYPE_IMS
  else if g_str_equal str "supl" then Some OFONO_GPRS_CONTEXT_TYPE_SUPL
  else None.

(** *** Binding a context to a driver *)

(* the test of the loop body of find_avail_gprs_context *)
Definition gc_available (ctx : pri_context) (gc : ofono_gprs_context)
  : bool :=
  negb (inuse gc)
  && match gc_driver gc with
     | None => false
     | Some d => activate_primary d && deactivate_primary d
     end
  && (bool_decide (gc_type gc = OFONO_GPRS_CONTEXT_TYPE_ANY)
      || bool_decide (gc_type gc = type ctx)).

Definition find_avail_gprs_context (g : ofono_gprs) (ctx : pri_context)
  : option nat :=
  fst <$> list_find (fun gc => gc_available ctx gc = true)
            (context_drivers g).

Definition alloc_settings (p : ofono_gprs_proto) (s : context_settings)
  : context_settings :=
  let s1 :=
    if bool_decide (p = OFONO_GPRS_PROTO_IPV4V6)
       || bool_decide (p = OFONO_GPRS_PROTO_IP)
    then mk_context_settings
           (Some (mk_ipv4_settings false None None None None None)) (ipv6 s)
    else s in
  if bool_decide (p = OFONO_GPRS_PROTO_IPV4V6)
     || bool_decide (p = OFONO_GPRS_PROTO_IPV6)
  then mk_context_settings (ipv4 s1)
         (Some (mk_ipv6_settings None 0 None None))
  else s1.

Definition assign_context (i : nat) (use_cid : Z) : M bool :=
  let* g := get in
  match contexts g !! i, used_cids g with
  | Some ctx, Some used =>
    let use_cid :=
      if use_cid =? 0 then Uintset.find_unused_min used else use_cid in
    if Uintset.get_max used <? use_cid then ret false
    else
      match find_avail_gprs_context g ctx with
      | None => ret false
      | Some gc =>
        modify (with_used_cids (Some (Uintset.put used use_cid))) ;;
        ctx_update i (fun c => with_context (with_cid use_cid (context c)) c) ;;
        ctx_update i (with_context_driver (Some gc)) ;;
        gc_update gc (with_inuse true) ;;
        gc_update gc (fun d =>
          with_gc_settings
            (alloc_settings (proto (context ctx)) (gc_settings d)) d) ;;
        ret true
      end
  | _, _ => ret false
  end.

Definition release_context (i : nat) : M unit :=
  let* g := get in
  match contexts g !! i with
  | None => ret tt
  | Some ctx =>
    match context_driver ctx with
    | None => ret tt
    | Some gc =>
      modify (fun g =>
        with_used_cids
          ((fun u => Uintset.take u (cid (context ctx))) <$> used_cids g) g) ;;
      ctx_update i (fun c => with_context (with_cid 0 (context c)) c) ;;
      gc_update gc (with_inuse false) ;;
      ctx_update i (with_context_driver None) ;;
      ctx_update i (with_active false)
    end
  end.

Definition gprs_context_by_path (g : ofono_gprs) (ctx_path : string)
  : option nat :=
  fst <$> list_find (fun c => g_str_equal ctx_path (path c) = true)
            (contexts g).

Definition context_settings_free (gc : nat) : M unit :=
  gc_update gc (with_gc_settings (mk_context_settings None None)).

(* signal_settings: the dictionary is read from the binding at call time *)
Definition do_signal_settings (i : nat) (prop : string) : M unit :=
  let* g := get in
  match contexts g !! i with
  | None => ret tt
  | Some ctx =>
    match context_driver ctx ≫= (fun gc => context_drivers g !! gc) with
    | Some d =>
      emit (signal_settings (path ctx) prop (Some (gc_settings d))
              (interface d))
    | None => emit (signal_settings (path ctx) prop None None)
    end
  end.

Definition pri_context_signal_settings (i : nat) (v4 v6 : bool) : M unit :=
  when v4 (do_signal_settings i "Settings") ;;
  when v6 (do_signal_settings i "IPv6.Settings").

Definition pri_reset_context_settings (i : nat) : M unit :=
  let* g := get in
  match contexts g !! i with
  | None => ret tt
  | Some ctx =>
    match context_driver ctx with
    | None => ret tt
    | Some gc =>
      match context_drivers g !! gc with
      | None => ret tt
      | Some d =>
        let ifname := interface d in
        let signal_ipv4 := bool_decide (ipv4 (gc_settings d) <> None) in
        let signal_ipv6 := bool_decide (ipv6 (gc_settings d) <> None) in
        context_settings_free gc ;;
        pri_context_signal_settings i signal_ipv4 signal_ipv6 ;;
        when (bool_decide (type ctx = OFONO_GPRS_CONTEXT_TYPE_MMS))
          (emit (pri_set_ipv4_addr ifname None) ;;
           ctx_update i (with_proxy_host None) ;;
           ctx_update i (with_proxy_port 0)) ;;
        emit (pri_ifupdown ifname false)
      end
    end
  end.

(** *** The attach state machine *)

Definition gprs_set_attached_property (v : bool) : M unit :=
  let* g := get in
  if Bool.eqb (attached g) v then ret tt
  else
    modify (with_attached v) ;;
    emit (ofono_dbus_signal_property_changed (atom_path g)
            OFONO_CONNECTION_MANAGER_INTERFACE "Attached"
            (DBUS_TYPE_BOOLEAN v)).

Definition update_suspended_property (v : bool) : M unit :=
  let* g := get in
  when (negb (suspend_timeout g =? 0))
    (emit (g_source_remove (suspend_timeout g)) ;;
     modify (with_suspend_timeout 0)) ;;
  if Bool.eqb (suspended g) v then ret tt
  else
    modify (with_suspended v) ;;
    when (attached g)
      (emit (ofono_dbus_signal_property_changed (atom_path g)
               OFONO_CONNECTION_MANAGER_INTERFACE "Suspended"
               (DBUS_TYPE_BOOLEAN v))).

(* the timer callback suspend_timeout() *)
Definition suspend_timeout_cb : M unit :=
  modify (with_suspend_timeout 0) ;;
  update_suspended_property true.

(* g_timeout_add_seconds returns a fresh non-zero source tag; the code only
   ever compares the tag with 0, so the tag is taken to be 1 *)
Definition ofono_gprs_suspend_notify (cause : gprs_suspend_cause) : M unit :=
  match cause with
  | GPRS_SUSPENDED_DETACHED
  | GPRS_SUSPENDED_CALL
  | GPRS_SUSPENDED_NO_COVERAGE => update_suspended_property true
  | GPRS_SUSPENDED_SIGNALLING
  | GPRS_SUSPENDED_UNKNOWN_CAUSE =>
    let* g := get in
    when (negb (suspend_timeout g =? 0))
      (emit (g_source_remove (suspend_timeout g))) ;;
    emit (g_timeout_add_seconds SUSPEND_TIMEOUT) ;;
    modify (with_suspend_timeout 1)
  end.

Definition ofono_gprs_resume_notify : M unit :=
  update_suspended_property false.

Definition have_active_contexts (g : ofono_gprs) : bool :=
  existsb active (contexts g).

(* a bound context always has a driver table: assign_context only binds
   entries that find_avail_gprs_context accepted *)
Definition ctx_detachable (g : ofono_gprs) (ctx : pri_context) : bool :=
  match context_driver ctx ≫= (fun gc => context_drivers g !! gc) with
  | Some d =>
    match gc_driver d with
    | Some drv => detach_shutdown drv && active ctx
    | None => false
    end
  | None => false
  end.

Definition have_detachable_active_contexts (g : ofono_gprs) : bool :=
  existsb (ctx_detachable g) (contexts g).

Definition have_read_settings (g : ofono_gprs) : bool :=
  existsb (fun gc => match gc_driver gc with
                     | Some d => read_settings d
                     | None => false
                     end) (context_drivers g).

Definition pri_context_signal_active (i : nat) : M unit :=
  let* g := get in
  match contexts g !! i with
  | None => ret tt
  | Some ctx =>
    emit (ofono_dbus_signal_property_changed (path ctx)
            OFONO_CONNECTION_CONTEXT_INTERFACE "Active"
            (DBUS_TYPE_BOOLEAN (active ctx)))
  end.

Definition detach_active_context (i : nat) : M unit :=
  let* g := get in
  match contexts g !! i with
  | None => ret tt
  | Some ctx =>
    if negb (active ctx) then ret tt
    else if bool_decide (ctx_pending ctx <> None) then ret tt
    else
      match context_driver ctx with
      | None => ret tt
      | Some gc =>
        when (match context_drivers g !! gc ≫= gc_driver with
              | Some drv => detach_shutdown drv
              | None => false
              end)
          (emit (call_detach_shutdown gc (cid (context ctx)))) ;;
        pri_reset_context_settings i ;;
        release_context i ;;
        pri_context_signal_active i
      end
  end.

Definition detach_active_contexts : M unit :=
  let* g := get in
  for_each (seq 0 (length (contexts g))) detach_active_context.

Definition on_lte (g : ofono_gprs) : bool :=
  (netreg_technology g =? ACCESS_TECHNOLOGY_EUTRAN) && have_read_settings g.

(* L_IN_SET(status, REGISTERED, REGISTERED_SMS_EUTRAN, ROAMING,
   ROAMING_SMS_EUTRAN) *)
Definition status_registered (s : Z) : bool :=
  (s =? NETWORK_REGISTRATION_STATUS_REGISTERED)
  || (s =? NETWORK_REGISTRATION_STATUS_REGISTERED_SMS_EUTRAN)
  || (s =? NETWORK_REGISTRATION_STATUS_ROAMING)
  || (s =? NETWORK_REGISTRATION_STATUS_ROAMING_SMS_EUTRAN).

Definition gprs_attached_update : M unit :=
  let* g := get in
  let att :=
    if on_lte g then have_active_contexts g
    else driver_attached g && status_registered (status g) in
  if Bool.eqb att (attached g) then ret tt
  else
    let finish : M unit :=
      when (negb att) (modify (with_bearer (-1))) ;;
      gprs_set_attached_property att in
    if have_detachable_active_contexts g && negb (on_lte g) then
      detach_active_contexts ;;
      if att then set_flag GPRS_FLAG_ATTACHED_UPDATE else finish
    else finish.

Definition ofono_gprs_detached_notify : M unit :=
  let* g := get in
  if flag_test (flags g) GPRS_FLAG_ATTACHING then ret tt
  else
    modify (with_driver_attached false) ;;
    gprs_attached_update.

Definition ofono_gprs_status_notify (st : Z) : M unit :=
  modify (with_status st) ;;
  let* g := get in
  if flag_test (flags g) GPRS_FLAG_ATTACHING then ret tt
  else if negb (status_registered st) then ofono_gprs_detached_notify
  else if negb (powered g)
          || (negb (roaming_allowed g)
              && (st =? NETWORK_REGISTRATION_STATUS_ROAMING))
  then
    set_flag GPRS_FLAG_ATTACHING ;;
    emit (call_set_attached false)
  else
    modify (with_driver_attached true) ;;
    gprs_attached_update.

(* the value of [attach] computed by gprs_netreg_update *)
Definition want_attach (g : ofono_gprs) : bool :=
  (((netreg_status g =? NETWORK_REGISTRATION_STATUS_REGISTERED)
    || (netreg_status g =? NETWORK_REGISTRATION_STATUS_REGISTERED_SMS_EUTRAN))
   || (roaming_allowed g
       && ((netreg_status g =? NETWORK_REGISTRATION_STATUS_ROAMING)
           || (netreg_status g
               =? NETWORK_REGISTRATION_STATUS_ROAMING_SMS_EUTRAN))))
  && powered g.

Definition gprs_netreg_update : M unit :=
  let* g := get in
  if netreg_status g <? 0 then ret tt
  else
    let attach := want_attach g in
    if on_lte g then gprs_attached_update
    else if Bool.eqb (driver_attached g) attach then ret tt
    else if flag_test (flags g) GPRS_FLAG_ATTACHING then
      set_flag GPRS_FLAG_RECHECK
    else
      set_flag GPRS_FLAG_ATTACHING ;;
      modify (with_driver_attached attach) ;;
      emit (call_set_attached attach).

(* [ok] is error->type == OFONO_ERROR_TYPE_NO_ERROR *)
Definition registration_status_cb (ok : bool) (st : Z) : M unit :=
  clear_flag GPRS_FLAG_ATTACHING ;;
  (if ok then ofono_gprs_status_notify st else gprs_attached_update) ;;
  let* g := get in
  if flag_test (flags g) GPRS_FLAG_RECHECK then
    clear_flag GPRS_FLAG_RECHECK ;;
    gprs_netreg_update
  else ret tt.

Definition gprs_attach_callback (ok : bool) : M unit :=
  when (negb ok) (modify (fun g =>
                            with_driver_attached (negb (driver_attached g)) g)) ;;
  let* g := get in
  if negb (attached_status (driver g)) then registration_status_cb false (-1)
  else emit call_attached_status.

Definition gprs_netreg_removed : M unit :=
  clear_flag (Z.lor GPRS_FLAG_RECHECK GPRS_FLAG_ATTACHING) ;;
  modify (with_netreg_status NETWORK_REGISTRATION_STATUS_NOT_REGISTERED) ;;
  modify (with_driver_attached false) ;;
  gprs_attached_update.

Definition netreg_status_changed (st : Z) : M unit :=
  modify (with_netreg_status st) ;;
  gprs_netreg_update.

Definition ofono_gprs_bearer_notify (b : Z) : M unit :=
  let* g := get in
  if bearer g =? b then ret tt
  else
    modify (with_bearer b) ;;
    emit (ofono_dbus_signal_property_changed (atom_path g)
            OFONO_CONNECTION_MANAGER_INTERFACE "Bearer"
            (DBUS_TYPE_STRING (packet_bearer_to_string b))).

(* the dictionary built by gprs_get_properties *)
Definition gprs_get_properties (g : ofono_gprs)
  : list (string * dbus_value) :=
  [("Attached", DBUS_TYPE_BOOLEAN (attached g))]
  ++ (if bearer g =? -1 then []
      else [("Bearer", DBUS_TYPE_STRING (packet_bearer_to_string (bearer g)))])
  ++ [("RoamingAllowed", DBUS_TYPE_BOOLEAN (roaming_allowed g));
      ("Powered", DBUS_TYPE_BOOLEAN (powered g))]
  ++ (if attached g then [("Suspended", DBUS_TYPE_BOOLEAN (suspended g))]
      else []).

(** *** Helpers of [common.c]

    [is_valid_apn] and the protocol and authentication-method string
    conversions are defined in [common.c], outside the verified sources; the
    functions below take them as the table [common]. *)
Record common := mk_common {
  is_valid_apn : string -> bool;
  gprs_proto_to_string : ofono_gprs_proto -> option string;
  gprs_proto_from_string : string -> option ofono_gprs_proto;
  gprs_auth_method_to_string : ofono_gprs_auth_method -> option string;
  gprs_auth_method_from_string : string -> option ofono_gprs_auth_method
}.

(** *** D-Bus messages *)

Inductive dbus_arg :=
  | arg_string (s : string)
  | arg_object_path (s : string)
  | arg_variant (v : dbus_value)
  | arg_other.

Record dbus_message := mk_message { serial : DBusMessage; body : list dbus_arg }.

(* __ofono_dbus_pending_reply(&ctx->pending, reply) *)
Definition ctx_pending_reply (i : nat) (r : dbus_reply) : M unit :=
  let* g := get in
  match contexts g !! i ≫= ctx_pending with
  | Some msg =>
    emit (ofono_dbus_pending_reply msg r) ;;
    ctx_update i (with_ctx_pending None)
  | None => ret tt
  end.

(* __ofono_dbus_pending_reply(&gprs->pending, reply) *)
Definition gprs_pending_reply (r : dbus_reply) : M unit :=
  let* g := get in
  match pending g with
  | Some msg =>
    emit (ofono_dbus_pending_reply msg r) ;;
    modify (with_pending None)
  | None => ret tt
  end.

(* if (settings) { g_key_file_set_string(settings, ctx->key, k, v);
                   storage_sync(...); } *)
Definition store_context_key (i : nat) (k v : string) : M unit :=
  let* g := get in
  match settings g, contexts g !! i with
  | Some kf, Some ctx =>
    modify (with_settings (Some (g_key_file_set_string kf (key ctx) k v))) ;;
    emit storage_sync
  | _, _ => ret tt
  end.

(* snprintf(..., "%u", id) *)
Definition print_uint (n : Z) : string :=
  NilEmpty.string_of_uint (N.to_uint (Z.to_N n)).

Definition is_digit (c : ascii) : bool :=
  (48 <=? N_of_ascii c)%N && (N_of_ascii c <=? 57)%N.

Definition is_space (c : ascii) : bool :=
  let n := N_of_ascii c in
  (n =? 32)%N || ((9 <=? n)%N && (n <=? 13)%N).

(* the value of the longest run of decimal digits at the head of [s] *)
Fixpoint scan_digits (s : string) (acc : option Z) : option Z :=
  match s with
  | EmptyString => acc
  | String c r =>
    if is_digit c
    then scan_digits r
           (Some (10 * default 0 acc + Z.of_N (N_of_ascii c) - 48))
    else acc
  end.

Fixpoint skip_space (s : string) : string :=
  match s with
  | EmptyString => s
  | String c r => if is_space c then skip_space r else s
  end.

Fixpoint strip_prefix (lit s : string) : option string :=
  match lit with
  | EmptyString => Some s
  | String a lit' =>
    match s with
    | EmptyString => None
    | String b s' => if Ascii.eqb a b then strip_prefix lit' s' else None
    end
  end.

(* glibc converts with strtol, which clamps at LONG_MAX and LONG_MIN, and
   stores the low 32 bits *)
Definition store_int (n : Z) : Z :=
  if n <? 2 ^ 63 then n mod 2 ^ 32 else 2 ^ 32 - 1.

(* sscanf(s, "<lit>%d", &id) == 1, with [id] an unsigned int *)
Definition sscanf_d (lit s : string) : option Z :=
  match strip_prefix lit s with
  | None => None
  | Some rest =>
    match skip_space rest with
    | String "-" r =>
      (fun n => if n <? 2 ^ 63 then (- n) mod 2 ^ 32 else 0)
      <$> scan_digits r None
    | String "+" r => store_int <$> scan_digits r None
    | r => store_int <$> scan_digits r None
    end
  end.

Section WithCommon.

Variable C : common.

(** *** Property setters of a context *)

Definition pri_set_apn (i : nat) (msg : option DBusMessage) (v : string)
  : M (option dbus_reply) :=
  let* g := get in
  match contexts g !! i with
  | None => ret None
  | Some ctx =>
    if g_str_equal v (apn (context ctx)) then ret (Some method_return)
    else if negb (is_valid_apn C v) then ret (Some ofono_error_invalid_format)
    else
      ctx_update i (fun c => with_context (with_apn v (context c)) c) ;;
      store_context_key i "AccessPointName" v ;;
      match msg with
      | Some m => emit (g_dbus_send_reply m None)
      | None => ret tt
      end ;;
      emit (ofono_dbus_signal_property_changed (path ctx)
              OFONO_CONNECTION_CONTEXT_INTERFACE "AccessPointName"
              (DBUS_TYPE_STRING v)) ;;
      ret None
  end.

(* the shape shared by the string setters: a length check, an equality
   check, the assignment, the store and the signal *)
Definition pri_set_string (i : nat) (msg : DBusMessage) (v : string)
    (limit : Z) (current : pri_context -> string)
    (assign : string -> pri_context -> pri_context) (prop : string)
  : M (option dbus_reply) :=
  let* g := get in
  match contexts g !! i with
  | None => ret None
  | Some ctx =>
    if limit <? strlen v then ret (Some ofono_error_invalid_format)
    else if g_str_equal v (current ctx) then ret (Some method_return)
    else
      ctx_update i (assign v) ;;
      store_context_key i prop v ;;
      emit (g_dbus_send_reply msg None) ;;
      emit (ofono_dbus_signal_property_changed (path ctx)
              OFONO_CONNECTION_CONTEXT_INTERFACE prop (DBUS_TYPE_STRING v)) ;;
      ret None
  end.

Definition pri_set_username (i : nat) (msg : DBusMessage) (v : string) :=
  pri_set_string i msg v OFONO_GPRS_MAX_USERNAME_LENGTH
    (fun c => username (context c))
    (fun v c => with_context (with_username v (context c)) c) "Username".

Definition pri_set_password (i : nat) (msg : DBusMessage) (v : string) :=
  pri_set_string i msg v OFONO_GPRS_MAX_PASSWORD_LENGTH
    (fun c => password (context c))
    (fun v c => with_context (with_password v (context c)) c) "Password".

Definition pri_set_name (i : nat) (msg : DBusMessage) (v : string) :=
  pri_set_string i msg v MAX_CONTEXT_NAME_LENGTH name with_name "Name".

Definition pri_set_message_proxy (i : nat) (msg : DBusMessage) (v : string) :=
  pri_set_string i msg v MAX_MESSAGE_PROXY_LENGTH message_proxy
    with_message_proxy "MessageProxy".

Definition pri_set_message_center (i : nat) (msg : DBusMessage)
    (v : string) :=
  pri_set_string i msg v MAX_MESSAGE_CENTER_LENGTH message_center
    with_message_center "MessageCenter".

(* the shape shared by the enumeration setters: parse, compare, assign *)
Definition pri_set_enum {E : Type} `{EqDecision E} (i : nat)
    (msg : DBusMessage) (v : string) (parse : string -> option E)
    (current : pri_context -> E) (assign : E -> pri_context -> pri_context)
    (prop : string) : M (option dbus_reply) :=
  let* g := get in
  match contexts g !! i with
  | None => ret None
  | Some ctx =>
    match parse v with
    | None => ret (Some ofono_error_invalid_format)
    | Some e =>
      if bool_decide (current ctx = e) then ret (Some method_return)
      else
        ctx_update i (assign e) ;;
        store_context_key i prop v ;;
        emit (g_dbus_send_reply msg None) ;;
        emit (ofono_dbus_signal_property_changed (path ctx)
                OFONO_CONNECTION_CONTEXT_INTERFACE prop
                (DBUS_TYPE_STRING v)) ;;
        ret None
    end
  end.

Definition pri_set_type (i : nat) (msg : DBusMessage) (v : string) :=
  pri_set_enum i msg v gprs_context_string_to_type type with_type "Type".

Definition pri_set_proto (i : nat) (msg : DBusMessage) (v : string) :=
  pri_set_enum i msg v (gprs_proto_from_string C)
    (fun c => proto (context c))
    (fun p c => with_context (with_proto p (context c)) c) "Protocol".

Definition pri_set_auth_method (i : nat) (msg : DBusMessage) (v : string) :=
  pri_set_enum i msg v (gprs_auth_method_from_string C)
    (fun c => auth_method (context c))
    (fun a c => with_context (with_auth_method a (context c)) c)
    "AuthenticationMethod".

(* the "Active" branch of pri_set_property *)
Definition pri_set_active (i : nat) (msg : DBusMessage) (var : dbus_value)
  : M (option dbus_reply) :=
  let* g := get in
  match contexts g !! i with
  | None => ret None
  | Some ctx =>
    if bool_decide (pending g <> None) then ret (Some ofono_error_busy)
    else if bool_decide (ctx_pending ctx <> None)
    then ret (Some ofono_error_busy)
    else
      match var with
      | DBUS_TYPE_BOOLEAN value =>
        if Bool.eqb (active ctx) value then ret (Some method_return)
        else if value && negb (attached g)
        then ret (Some ofono_error_not_attached)
        else if flag_test (flags g) GPRS_FLAG_ATTACHING
        then ret (Some ofono_error_attach_in_progress)
        else
          let* assigned :=
            if value then assign_context i 0 else ret true in
          if negb assigned then ret (Some ofono_error_not_implemented)
          else
            let* g1 := get in
            ctx_update i (with_ctx_pending (Some msg)) ;;
            match contexts g1 !! i ≫= context_driver with
            | Some gc =>
              if value then emit (call_activate_primary gc i)
              else emit (call_deactivate_primary gc (cid (context ctx))
                           cb_pri_deactivate_callback i)
            | None => ret tt
            end ;;
            ret None
      | _ => ret (Some ofono_error_invalid_args)
      end
  end.

Definition string_arg (var : dbus_value)
    (k : string -> M (option dbus_reply)) : M (option dbus_reply) :=
  match var with
  | DBUS_TYPE_STRING s => k s
  | _ => ret (Some ofono_error_invalid_args)
  end.

Definition pri_set_property (i : nat) (msg : dbus_message)
  : M (option dbus_reply) :=
  match body msg with
  | arg_string property :: arg_variant var :: _ =>
    if g_str_equal property "Active" then pri_set_active i (serial msg) var
    else
      let* g := get in
      match contexts g !! i with
      | None => ret None
      | Some ctx =>
        if active ctx then ret (Some ofono_error_in_use)
        else if g_str_equal property "AccessPointName" then
          string_arg var (pri_set_apn i (Some (serial msg)))
        else if g_str_equal property "Type" then
          string_arg var (pri_set_type i (serial msg))
        else if g_str_equal property "Protocol" then
          string_arg var (pri_set_proto i (serial msg))
        else if g_str_equal property "Username" then
          string_arg var (pri_set_username i (serial msg))
        else if g_str_equal property "Password" then
          string_arg var (pri_set_password i (serial msg))
        else if g_str_equal property "Name" then
          string_arg var (pri_set_name i (serial msg))
        else if g_str_equal property "AuthenticationMethod" then
          string_arg var (pri_set_auth_method i (serial msg))
        else if negb (bool_decide (type ctx = OFONO_GPRS_CONTEXT_TYPE_MMS))
        then ret (Some ofono_error_invalid_args)
        else if g_str_equal property "MessageProxy" then
          string_arg var (pri_set_message_proxy i (serial msg))
        else if g_str_equal property "MessageCenter" then
          string_arg var (pri_set_message_center i (serial msg))
        else ret (Some ofono_error_invalid_args)
      end
  | _ => ret (Some ofono_error_invalid_args)
  end.

(* [ok] is error->type == OFONO_ERROR_TYPE_NO_ERROR *)
Definition pri_deactivate_callback (i : nat) (ok : bool) : M unit :=
  if negb ok then ctx_pending_reply i ofono_error_failed
  else
    ctx_pending_reply i method_return ;;
    pri_reset_context_settings i ;;
    release_context i ;;
    pri_context_signal_active i ;;
    let* g := get in
    if flag_test (flags g) GPRS_FLAG_ATTACHED_UPDATE then
      clear_flag GPRS_FLAG_ATTACHED_UPDATE ;;
      gprs_attached_update
    else ret tt.

Definition pri_read_settings_callback (i : nat) (ok : bool) : M unit :=
  let* g := get in
  match contexts g !! i with
  | None => ret tt
  | Some ctx =>
    match context_driver ctx with
    | None => ret tt
    | Some gc =>
      if negb ok then
        context_settings_free gc ;;
        release_context i
      else
        ctx_update i (with_active true) ;;
        match context_drivers g !! gc with
        | Some d =>
          when (bool_decide (interface d <> None))
            (emit (pri_ifupdown (interface d) true) ;;
             pri_context_signal_settings i
               (bool_decide (ipv4 (gc_settings d) <> None))
               (bool_decide (ipv6 (gc_settings d) <> None)))
        | None => ret tt
        end ;;
        gprs_set_attached_property true ;;
        emit (ofono_dbus_signal_property_changed (path ctx)
                OFONO_CONNECTION_CONTEXT_INTERFACE "Active"
                (DBUS_TYPE_BOOLEAN true))
    end
  end.

(** *** Creating, storing and removing contexts *)

(* g_try_new0 zeroes the structure; in the public header the zero protocol
   is IP and the zero authentication method is CHAP *)
Definition pri_context_create (nm : option string)
    (t : ofono_gprs_context_type) : option pri_context :=
  match (match nm with
         | Some n => Some n
         | None => gprs_context_default_name t
         end) with
  | None => None
  | Some n =>
    Some (mk_pri_context false t n "" "" 0 "" "" None 0 None
            (mk_primary_context 0 "" "" "" OFONO_GPRS_PROTO_IP
               OFONO_GPRS_AUTH_METHOD_CHAP)
            None)
  end.

(* ctx->key = ctx->path + strlen(basepath) + 1 *)
Definition context_key (n : Z) : string := String.append "context" (print_uint n).

Definition context_path (basepath : string) (n : Z) : string :=
  String.append basepath (String.append "/" (context_key n)).

Definition context_dbus_register (ctx : pri_context)
  : M (option pri_context) :=
  let* g := get in
  if negb (dbus_register_ok g) then
    emit (ofono_error "Could not register PrimaryContext") ;;
    modify (fun g => with_used_pids (Uintset.take (used_pids g) (id ctx)) g) ;;
    ret None
  else
    ret (Some (with_key (context_key (id ctx))
                 (with_path (context_path (atom_path g) (id ctx)) ctx))).

(* g_key_file_set_string with a NULL value is refused by glib *)
Definition set_string_opt (kf : keyfile) (group k : string)
    (v : option string) : keyfile :=
  match v with
  | Some s => g_key_file_set_string kf group k s
  | None => kf
  end.

Definition write_context_settings (kf : keyfile) (ctx : pri_context)
  : keyfile :=
  let kf := g_key_file_set_string kf (key ctx) "Name" (name ctx) in
  let kf := g_key_file_set_string kf (key ctx) "AccessPointName"
              (apn (context ctx)) in
  let kf := g_key_file_set_string kf (key ctx) "Username"
              (username (context ctx)) in
  let kf := g_key_file_set_string kf (key ctx) "Password"
              (password (context ctx)) in
  let kf := set_string_opt kf (key ctx) "AuthenticationMethod"
              (gprs_auth_method_to_string C (auth_method (context ctx))) in
  let kf := set_string_opt kf (key ctx) "Type"
              (gprs_context_type_to_string (type ctx)) in
  let kf := set_string_opt kf (key ctx) "Protocol"
              (gprs_proto_to_string C (proto (context ctx))) in
  if bool_decide (type ctx = OFONO_GPRS_CONTEXT_TYPE_MMS) then
    let kf := g_key_file_set_string kf (key ctx) "MessageProxy"
                (message_proxy ctx) in
    g_key_file_set_string kf (key ctx) "MessageCenter" (message_center ctx)
  else kf.

Definition find_usable_context (g : ofono_gprs) (v : string) : option nat :=
  match list_find (fun c => l_str_has_prefix v (apn (context c)) = true)
          (contexts g) with
  | Some (i, _) => Some i
  | None =>
    fst <$> list_find (fun c => apn (context c) = "") (contexts g)
  end.

(* the id both add_context and provision_context pick *)
Definition next_context_id (g : ofono_gprs) : Z :=
  if negb (last_context_id g =? 0)
  then Uintset.find_unused (used_pids g) (last_context_id g)
  else Uintset.find_unused_min (used_pids g).

(* if (gprs->settings) { write_context_settings(); storage_sync(); } *)
Definition store_context (ctx : pri_context) : M unit :=
  let* g := get in
  match settings g with
  | Some kf =>
    modify (with_settings (Some (write_context_settings kf ctx))) ;;
    emit storage_sync
  | None => ret tt
  end.

(* returns the position of the new context, NULL being [None] *)
Definition add_context (nm : option string) (t : ofono_gprs_context_type)
  : M (option nat) :=
  let* g := get in
  let new_id := next_context_id g in
  if Uintset.get_max (used_pids g) <? new_id then ret None
  else
    match pri_context_create nm t with
    | None =>
      emit (ofono_error "Unable to allocate context struct") ;;
      ret None
    | Some ctx =>
      modify (fun g => with_used_pids (Uintset.put (used_pids g) new_id) g) ;;
      let* reg := context_dbus_register (with_id new_id ctx) in
      match reg with
      | None =>
        emit (ofono_error "Unable to register primary context") ;;
        ret None
      | Some ctx =>
        modify (with_last_context_id new_id) ;;
        store_context ctx ;;
        let* g1 := get in
        modify (with_contexts (contexts g1 ++ [ctx])) ;;
        ret (Some (length (contexts g1)))
      end
    end.

Definition ofono_gprs_cid_activated (c : Z) (v : string) : M unit :=
  let* g := get in
  if negb (atom_registered g) then ret tt
  else if match used_cids g with
          | Some u => Uintset.contains u c
          | None => false
          end
  then ret tt
  else if (OFONO_GPRS_MAX_APN_LENGTH <? strlen v) || negb (is_valid_apn C v)
  then emit (ofono_error "Context activated with an invalid APN")
  else
    let* found :=
      match find_usable_context g v with
      | Some i => ret (Some i)
      | None => add_context (Some v) OFONO_GPRS_CONTEXT_TYPE_INTERNET
      end in
    match found with
    | None => emit (ofono_error "Can't find/create automatic context")
    | Some i =>
      let* assigned := assign_context i c in
      if negb assigned
      then emit (ofono_warn "Can't assign context to driver for APN.")
      else
        let* g1 := get in
        match contexts g1 !! i with
        | None => ret tt
        | Some ctx =>
          match context_driver ctx with
          | None => ret tt
          | Some gc =>
            if negb (match context_drivers g1 !! gc ≫= gc_driver with
                     | Some drv => read_settings drv
                     | None => false
                     end)
            then
              emit (ofono_warn "Context activated for driver that doesn't support automatic context activation.") ;;
              release_context i
            else
              when (strlen (apn (context ctx)) =? 0)
                (ctx_update i
                   (fun x => with_context (with_apn v (context x)) x) ;;
                 emit (ofono_dbus_signal_property_changed (path ctx)
                         OFONO_CONNECTION_CONTEXT_INTERFACE "AccessPointName"
                         (DBUS_TYPE_STRING v))) ;;
              emit (call_read_settings gc c i)
          end
        end
    end.

Definition gprs_add_context (msg : dbus_message) : M (option dbus_reply) :=
  match body msg with
  | [arg_string typestr] =>
    match gprs_context_string_to_type typestr with
    | None => ret (Some ofono_error_invalid_format)
    | Some t =>
      let nm := match gprs_context_default_name t with
                | Some n => n
                | None => typestr
                end in
      let* added := add_context (Some nm) t in
      match added with
      | None => ret (Some ofono_error_failed)
      | Some i =>
        let* g := get in
        match contexts g !! i with
        | None => ret None
        | Some ctx =>
          emit (g_dbus_send_reply (serial msg) (Some (path ctx))) ;;
          emit (g_dbus_emit_signal "ContextAdded" (path ctx)) ;;
          ret None
        end
      end
    end
  | _ => ret (Some ofono_error_invalid_args)
  end.

Definition context_dbus_unregister (i : nat) : M unit :=
  let* g := get in
  match contexts g !! i with
  | None => ret tt
  | Some ctx =>
    when (active ctx)
      (let ifname :=
         match context_driver ctx ≫= (fun gc => context_drivers g !! gc) with
         | Some d => interface d
         | None => None
         end in
       when (bool_decide (type ctx = OFONO_GPRS_CONTEXT_TYPE_MMS))
         (emit (pri_set_ipv4_addr ifname None)) ;;
       emit (pri_ifupdown ifname false)) ;;
    modify (fun g => with_used_pids (Uintset.take (used_pids g) (id ctx)) g)
  end.

(* if (settings) { g_key_file_remove_group(...); storage_sync(...); } *)
Definition remove_context_group (ctx : pri_context) : M unit :=
  let* g := get in
  match settings g with
  | Some kf =>
    modify (with_settings (Some (g_key_file_remove_group kf (key ctx)))) ;;
    emit storage_sync
  | None => ret tt
  end.

(* g_slist_remove(gprs->contexts, ctx) *)
Definition contexts_remove (i : nat) : M unit :=
  modify (fun g => with_contexts (delete i (contexts g)) g).

Definition gprs_remove_context (msg : dbus_message)
  : M (option dbus_reply) :=
  let* g := get in
  if bool_decide (pending g <> None) then ret (Some ofono_error_busy)
  else
    match body msg with
    | [arg_object_path p] =>
      if g_str_equal p "" then ret (Some ofono_error_invalid_format)
      else
        match gprs_context_by_path g p with
        | None => ret (Some ofono_error_not_found)
        | Some i =>
          match contexts g !! i with
          | None => ret (Some ofono_error_not_found)
          | Some ctx =>
            if bool_decide (ctx_pending ctx <> None)
            then ret (Some ofono_error_busy)
            else if active ctx then
              modify (with_pending (Some (serial msg))) ;;
              match context_driver ctx with
              | Some gc =>
                emit (call_deactivate_primary gc (cid (context ctx))
                        cb_gprs_deactivate_for_remove i)
              | None => ret tt
              end ;;
              ret None
            else
              remove_context_group ctx ;;
              context_dbus_unregister i ;;
              contexts_remove i ;;
              emit (g_dbus_send_reply (serial msg) None) ;;
              emit (g_dbus_emit_signal "ContextRemoved" p) ;;
              ret None
          end
        end
    | _ => ret (Some ofono_error_invalid_args)
    end.

(** *** Provisioning and the settings file *)

Record provision_db_entry := mk_provision_db_entry {
  ap_type : Z;
  ap_proto : ofono_gprs_proto;
  ap_name : option string;
  ap_apn : string;
  ap_username : option string;
  ap_password : option string;
  ap_auth_method : ofono_gprs_auth_method;
  ap_message_proxy : option string;
  ap_message_center : option string
}.

(* 1 << (__builtin_ffs(mask) - 1), read back as an enumerator; the
   enumerators are the bits 0x01 .. 0x20 of the public header.  A mask
   without any of these bits names no enumerator. *)
Definition lowest_type (mask : Z) : ofono_gprs_context_type :=
  if Z.testbit mask 0 then OFONO_GPRS_CONTEXT_TYPE_INTERNET
  else if Z.testbit mask 1 then OFONO_GPRS_CONTEXT_TYPE_MMS
  else if Z.testbit mask 2 then OFONO_GPRS_CONTEXT_TYPE_WAP
  else if Z.testbit mask 3 then OFONO_GPRS_CONTEXT_TYPE_IMS
  else if Z.testbit mask 4 then OFONO_GPRS_CONTEXT_TYPE_SUPL
  else if Z.testbit mask 5 then OFONO_GPRS_CONTEXT_TYPE_IA
  else OFONO_GPRS_CONTEXT_TYPE_ANY.

Definition too_long (v : option string) (limit : Z) : bool :=
  match v with
  | Some s => limit <? strlen s
  | None => false
  end.

Definition provision_context (ap : provision_db_entry) : M unit :=
  if too_long (ap_name ap) MAX_CONTEXT_NAME_LENGTH then ret tt
  else if negb (is_valid_apn C (ap_apn ap)) then ret tt
  else if too_long (ap_username ap) OFONO_GPRS_MAX_USERNAME_LENGTH
  then ret tt
  else if too_long (ap_password ap) OFONO_GPRS_MAX_PASSWORD_LENGTH
  then ret tt
  else if too_long (ap_message_proxy ap) MAX_MESSAGE_PROXY_LENGTH then ret tt
  else if too_long (ap_message_center ap) MAX_MESSAGE_CENTER_LENGTH
  then ret tt
  else
    let* g := get in
    let new_id := next_context_id g in
    if Uintset.get_max (used_pids g) <? new_id then ret tt
    else
      let t := lowest_type (ap_type ap) in
      match pri_context_create (ap_name ap) t with
      | None => ret tt
      | Some ctx =>
        modify (fun g => with_used_pids (Uintset.put (used_pids g) new_id) g) ;;
        let pc :=
          mk_primary_context 0 (ap_apn ap)
            (default (username (context ctx)) (ap_username ap))
            (default (password (context ctx)) (ap_password ap))
            (ap_proto ap) (ap_auth_method ap) in
        let ctx := with_context pc (with_id new_id ctx) in
        let ctx :=
          if bool_decide (t = OFONO_GPRS_CONTEXT_TYPE_MMS) then
            with_message_center
              (default (message_center ctx) (ap_message_center ap))
              (with_message_proxy
                 (default (message_proxy ctx) (ap_message_proxy ap)) ctx)
          else ctx in
        let* reg := context_dbus_register ctx in
        match reg with
        | None => ret tt
        | Some ctx =>
          modify (with_last_context_id new_id) ;;
          store_context ctx ;;
          modify (fun g => with_contexts (contexts g ++ [ctx]) g)
        end
      end.

(* the fields load_context reads from a group, or its [goto error].  The
   values of Name, MessageProxy and MessageCenter are taken to fit
   name[MAX_CONTEXT_NAME_LENGTH + 1], message_proxy[MAX_MESSAGE_PROXY_LENGTH
   + 1] and message_center[MAX_MESSAGE_CENTER_LENGTH + 1]: the code copies
   them with strcpy and no check, so that a longer value overruns the buffer
   and has no defined outcome. *)
Definition load_context_fields (kf : keyfile) (group : string)
  : option (Z * bool * pri_context) :=
  match (match sscanf_d "context" group with
         | Some n => Some (n, false)
         | None => (fun n => (n, true)) <$> sscanf_d "primarycontext" group
         end) with
  | None => None
  | Some (n, legacy) =>
    if (n <? 1) || (MAX_CONTEXTS <? n) then None
    else
      nm ← g_key_file_get_string kf group "Name";
      typestr ← g_key_file_get_string kf group "Type";
      t ← gprs_context_string_to_type typestr;
      p ← gprs_proto_from_string C
            (default "ip" (g_key_file_get_string kf group "Protocol"));
      user ← g_key_file_get_string kf group "Username";
      if OFONO_GPRS_MAX_USERNAME_LENGTH <? strlen user then None
      else
        pass ← g_key_file_get_string kf group "Password";
        a ← gprs_auth_method_from_string C
              (default "chap"
                 (g_key_file_get_string kf group "AuthenticationMethod"));
        if OFONO_GPRS_MAX_PASSWORD_LENGTH <? strlen pass then None
        else
          v ← g_key_file_get_string kf group "AccessPointName";
          let msgproxy :=
            if bool_decide (t = OFONO_GPRS_CONTEXT_TYPE_MMS)
            then g_key_file_get_string kf group "MessageProxy" else None in
          let msgcenter :=
            if bool_decide (t = OFONO_GPRS_CONTEXT_TYPE_MMS)
            then g_key_file_get_string kf group "MessageCenter" else None in
          if negb (g_str_equal v "") && negb (is_valid_apn C v) then None
          else
            ctx ← pri_context_create (Some nm) t;
            Some (n, legacy,
                  with_message_center
                    (default (message_center ctx) msgcenter)
                    (with_message_proxy
                       (default (message_proxy ctx) msgproxy)
                       (with_context
                          (mk_primary_context 0 v user pass p a)
                          (with_id n ctx))))
  end.

(* load_context is only called with the settings file open *)
Definition load_context (group : string) : M bool :=
  let* g := get in
  match settings g with
  | None => ret false
  | Some kf =>
    match load_context_fields kf group with
    | None => ret false
    | Some (n, legacy, ctx) =>
      modify (fun g => with_used_pids (Uintset.put (used_pids g) n) g) ;;
      let* reg := context_dbus_register ctx in
      match reg with
      | None => ret false
      | Some ctx =>
        modify (with_last_context_id n) ;;
        modify (fun g => with_contexts (contexts g ++ [ctx]) g) ;;
        when legacy
          (modify (fun g =>
             with_settings
               ((fun kf => g_key_file_remove_group
                             (write_context_settings kf ctx) group)
                <$> settings g) g)) ;;
        ret true
      end
    end
  end.

End WithCommon.

(** *** The atom and its entry points *)

(* OFONO_DEFINE_ATOM_CREATE(gprs, ...): a zeroed structure with the four
   assignments of the macro body *)
Definition ofono_gprs_create (drv : ofono_gprs_driver) (basepath : string)
  : ofono_gprs :=
  mk_gprs [] false false false false false
    NETWORK_REGISTRATION_STATUS_UNKNOWN 0 0 0
    (Uintset.new MAX_CONTEXTS) 0
    (Some (Uintset.new_from_range 1 (MAX_CONTEXTS - 1)))
    (-1) (-1) None None None [] drv false basepath true.

(* ofono_gprs_set_cid_range: the old set is freed and the outcome of
   l_uintset_new_from_range stored, NULL included *)
Definition ofono_gprs_set_cid_range (lo hi : Z) : M unit :=
  modify (with_used_cids (l_uintset_new_from_range lo hi)).

(* ofono_gprs_add_context, for a binding whose driver is set *)
Definition ofono_gprs_add_context (gc : ofono_gprs_context) : M unit :=
  match gc_driver gc with
  | None => ret tt
  | Some _ =>
    modify (fun g =>
      with_context_drivers
        (context_drivers g
         ++ [with_gc_settings (mk_context_settings None None) gc]) g)
  end.

(* what can happen to a registered manager *)
Inductive event :=
  | ev_netreg_status_changed (st : Z)
  | ev_netreg_technology (tech : Z)
  | ev_status_notify (st : Z)
  | ev_detached_notify
  | ev_attach_callback (ok : bool)
  | ev_registration_status_cb (ok : bool) (st : Z)
  | ev_suspend_notify (cause : gprs_suspend_cause)
  | ev_suspend_timeout
  | ev_resume_notify
  | ev_bearer_notify (b : Z)
  | ev_cid_activated (c : Z) (v : string)
  | ev_read_settings_callback (i : nat) (ok : bool)
  | ev_deactivate_callback (i : nat) (ok : bool)
  | ev_add_context (msg : dbus_message)
  | ev_remove_context (msg : dbus_message)
  | ev_pri_set_property (i : nat) (msg : dbus_message)
  | ev_add_driver (gc : ofono_gprs_context)
  | ev_atom_registered.

Definition step (C : common) (e : event) : M unit :=
  match e with
  | ev_netreg_status_changed st => netreg_status_changed st
  | ev_netreg_technology tech => modify (with_netreg_technology tech)
  | ev_status_notify st => ofono_gprs_status_notify st
  | ev_detached_notify => ofono_gprs_detached_notify
  | ev_attach_callback ok => gprs_attach_callback ok
  | ev_registration_status_cb ok st => registration_status_cb ok st
  | ev_suspend_notify cause => ofono_gprs_suspend_notify cause
  | ev_suspend_timeout =>
    let* g := get in
    if suspend_timeout g =? 0 then ret tt else suspend_timeout_cb
  | ev_resume_notify => ofono_gprs_resume_notify
  | ev_bearer_notify b => ofono_gprs_bearer_notify b
  | ev_cid_activated c v => ofono_gprs_cid_activated C c v
  | ev_read_settings_callback i ok => pri_read_settings_callback i ok
  | ev_deactivate_callback i ok => pri_deactivate_callback i ok
  | ev_add_context msg => gprs_add_context C msg ;; ret tt
  | ev_remove_context msg => gprs_remove_context msg ;; ret tt
  | ev_pri_set_property i msg => pri_set_property C i msg ;; ret tt
  | ev_add_driver gc => ofono_gprs_add_context gc
  | ev_atom_registered => modify (with_atom_registered true)
  end.

(* the states a manager can be in: the created atom, then any sequence of
   events *)
Inductive reachable (C : common) (drv : ofono_gprs_driver)
    (basepath : string) : ofono_gprs -> Prop :=
  | reachable_create : reachable C drv basepath (ofono_gprs_create drv basepath)
  | reachable_step g e :
      reachable C drv basepath g ->
      reachable C drv basepath (exec (step C e) g).


(** *** libc string helpers used by the proxy parser

    [strstr], [strchr] and [strrchr] return a pointer into the string; the
    code then cuts the string at that pointer.  The functions below return
    the two pieces: the text before the match and the text after it. *)

Fixpoint strstr (s sub : string) : option (string * string) :=
  match strip_prefix sub s with
  | Some rest => Some ("", rest)
  | None =>
    match s with
    | EmptyString => None
    | String c r =>
      match strstr r sub with
      | Some (a, b) => Some (String c a, b)
      | None => None
      end
    end
  end.

Fixpoint strchr (s : string) (c : ascii) : option (string * string) :=
  match s with
  | EmptyString => None
  | String a r =>
    if Ascii.eqb a c then Some ("", r)
    else match strchr r c with
         | Some (b, e) => Some (String a b, e)
         | None => None
         end
  end.

(* the last occurrence *)
Fixpoint strrchr (s : string) (c : ascii) : option (string * string) :=
  match s with
  | EmptyString => None
  | String a r =>
    match strrchr r c with
    | Some (b, e) => Some (String a b, e)
    | None => if Ascii.eqb a c then Some ("", r) else None
    end
  end.

(* tolower, C locale *)
Definition tolower (c : ascii) : ascii :=
  let n := N_of_ascii c in
  if (65 <=? n)%N && (n <=? 90)%N then ascii_of_N (n + 32) else c.

(* strcasecmp(a, b) == 0 *)
Fixpoint strcasecmp (a b : string) : bool :=
  match a, b with
  | EmptyString, EmptyString => true
  | String x a', String y b' =>
    Ascii.eqb (tolower x) (tolower y) && strcasecmp a' b'
  | _, _ => false
  end.

Fixpoint skip_digits (s : string) : string :=
  match s with
  | EmptyString => s
  | String c r => if is_digit c then skip_digits r else s
  end.

(* strtol(s, &end, 10) with a 64-bit long: the value and the text [end]
   points to.  Without any digit nothing is converted and [end] is [s]. *)
Definition strtol (s : string) : Z * string :=
  let t := skip_space s in
  let '(neg, d) :=
    match t with
    | String "-" r => (true, r)
    | String "+" r => (false, r)
    | _ => (false, t)
    end in
  match scan_digits d None with
  | None => (0, s)
  | Some n =>
    (if neg then Z.max (- 2 ^ 63) (- n) else Z.min (2 ^ 63 - 1) n,
     skip_digits d)
  end.

(* pri_parse_proxy; [proxy_port] is a uint16_t, the assignment of the int
   [tmp] keeps the low 16 bits *)
Definition pri_parse_proxy (proxy : string) (ctx : pri_context)
  : pri_context :=
  match (match strstr proxy "://" with
         | Some (scheme, host) =>
           if strcasecmp scheme "https" then Some (host, 443)
           else if strcasecmp scheme "http" then Some (host, 80)
           else None
         | None => Some (proxy, 80)
         end) with
  | None => ctx
  | Some (host, port0) =>
    let host := match strchr host "/" with
                | Some (h, _) => h
                | None => host
                end in
    let '(host, port) :=
      match strrchr host ":" with
      | Some (h, p) =>
        let '(tmp, e) := strtol p in
        if g_str_equal e "" then (h, tmp mod 2 ^ 16) else (host, port0)
      | None => (host, port0)
      end in
    with_proxy_host (Some host) (with_proxy_port port ctx)
  end.

(** *** Settings reported by the context driver *)

Definition ipv4_update (gc : nat) (f : ipv4_settings -> ipv4_settings)
  : M unit :=
  gc_update gc (fun d =>
    with_gc_settings
      (mk_context_settings (f <$> ipv4 (gc_settings d)) (ipv6 (gc_settings d)))
      d).

Definition ipv6_update (gc : nat) (f : ipv6_settings -> ipv6_settings)
  : M unit :=
  gc_update gc (fun d =>
    with_gc_settings
      (mk_context_settings (ipv4 (gc_settings d)) (f <$> ipv6 (gc_settings d)))
      d).

Definition ofono_gprs_context_set_type (gc : nat)
    (t : ofono_gprs_context_type) : M unit :=
  gc_update gc (with_gc_type t).

Definition ofono_gprs_context_set_interface (gc : nat)
    (ifname : option string) : M unit :=
  gc_update gc (with_interface ifname).

Definition ofono_gprs_context_set_ipv4_address (gc : nat)
    (address : option string) (static : bool) : M unit :=
  ipv4_update gc (fun s =>
    mk_ipv4_settings static address (ipv4_netmask s) (ipv4_gateway s)
      (ipv4_dns s) (ipv4_proxy s)).

Definition with_ipv4_netmask (v : option string) (s : ipv4_settings)
  : ipv4_settings :=
  mk_ipv4_settings (static_ip s) (ipv4_ip s) v (ipv4_gateway s) (ipv4_dns s)
    (ipv4_proxy s).

Definition ofono_gprs_context_set_ipv4_netmask (gc : nat)
    (netmask : option string) : M unit :=
  ipv4_update gc (with_ipv4_netmask netmask).

(* the four bytes of htonl(x) in memory order *)
Definition htonl (x : Z) : list Z :=
  [Z.shiftr x 24 mod 256; Z.shiftr x 16 mod 256; Z.shiftr x 8 mod 256;
   x mod 256].

(* inet_ntop(AF_INET, ...): dotted decimal, first byte first *)
Definition inet_ntop (addr : list Z) : string :=
  match addr with
  | [a; b; c; d] =>
    String.append (print_uint a)
      (String.append "."
         (String.append (print_uint b)
            (String.append "."
               (String.append (print_uint c)
                  (String.append "." (print_uint d))))))
  | _ => ""
  end.

(* ~((1 << (32 - length)) - 1) as a 32-bit pattern.  [length] is unsigned,
   so is the difference; a shift count outside 0..31 is undefined in C, and
   [shifted_undef] is the value the shift then yields.  Two's complement
   wrap-around is taken for the arithmetic on [int]. *)
Definition prefix_length_mask (length : Z) (shifted_undef : Z) : Z :=
  if length =? 0 then 0
  else
    let count := (32 - length) mod 2 ^ 32 in
    let shifted := if count <? 32 then Z.shiftl 1 count else shifted_undef in
    Z.lnot (shifted - 1) mod 2 ^ 32.

(* the old netmask is freed and the new one stored whatever the length *)
Definition ofono_gprs_context_set_ipv4_prefix_length (gc : nat) (length : Z)
    (shifted_undef : Z) : M unit :=
  ipv4_update gc
    (with_ipv4_netmask
       (Some (inet_ntop (htonl (prefix_length_mask length shifted_undef))))).

Definition ofono_gprs_context_set_ipv4_gateway (gc : nat)
    (gateway : option string) : M unit :=
  ipv4_update gc (fun s =>
    mk_ipv4_settings (static_ip s) (ipv4_ip s) (ipv4_netmask s) gateway
      (ipv4_dns s) (ipv4_proxy s)).

Definition ofono_gprs_context_set_ipv4_dns_servers (gc : nat)
    (dns : option (list string)) : M unit :=
  ipv4_update gc (fun s =>
    mk_ipv4_settings (static_ip s) (ipv4_ip s) (ipv4_netmask s)
      (ipv4_gateway s) dns (ipv4_proxy s)).

Definition ofono_gprs_context_set_ipv6_address (gc : nat)
    (address : option string) : M unit :=
  ipv6_update gc (fun s =>
    mk_ipv6_settings address (prefix_len s) (ipv6_gateway s) (ipv6_dns s)).

(* [length] is an unsigned char *)
Definition ofono_gprs_context_set_ipv6_prefix_length (gc : nat) (length : Z)
  : M unit :=
  ipv6_update gc (fun s =>
    mk_ipv6_settings (ipv6_ip s) length (ipv6_gateway s) (ipv6_dns s)).

Definition ofono_gprs_context_set_ipv6_gateway (gc : nat)
    (gateway : option string) : M unit :=
  ipv6_update gc (fun s =>
    mk_ipv6_settings (ipv6_ip s) (prefix_len s) gateway (ipv6_dns s)).

Definition ofono_gprs_context_set_ipv6_dns_servers (gc : nat)
    (dns : option (list string)) : M unit :=
  ipv6_update gc (fun s =>
    mk_ipv6_settings (ipv6_ip s) (prefix_len s) (ipv6_gateway s) dns).

(** *** Property dictionaries *)

Inductive setting_value :=
  (* a string handed to libdbus; [None] is a NULL pointer *)
  | sv_string (s : option string)
  | sv_byte (n : Z)
  | sv_array (l : list string).

Inductive property_value :=
  | pv_basic (v : dbus_value)
  | pv_string (s : option string)
  | pv_settings (d : list (string * setting_value)).

Definition opt_entry {A} (k : string) (f : A -> setting_value)
    (v : option A) : list (string * setting_value) :=
  match v with
  | Some x => [(k, f x)]
  | None => []
  end.

Definition context_settings_append_ipv4 (s : option context_settings)
    (ifname : option string) : list (string * setting_value) :=
  match s ≫= ipv4 with
  | None => []
  | Some v4 =>
    [("Interface", sv_string ifname)]
    ++ match ipv4_proxy v4 with
       | Some p => [("Proxy", sv_string (Some p))]
       | None =>
         [("Method",
           sv_string (Some (if static_ip v4 then "static" else "dhcp")))]
         ++ opt_entry "Address" (fun x => sv_string (Some x)) (ipv4_ip v4)
         ++ opt_entry "Netmask" (fun x => sv_string (Some x))
              (ipv4_netmask v4)
         ++ opt_entry "Gateway" (fun x => sv_string (Some x))
              (ipv4_gateway v4)
         ++ opt_entry "DomainNameServers" sv_array (ipv4_dns v4)
       end
  end.

Definition context_settings_append_ipv6 (s : option context_settings)
    (ifname : option string) : list (string * setting_value) :=
  match s ≫= ipv6 with
  | None => []
  | Some v6 =>
    [("Interface", sv_string ifname)]
    ++ opt_entry "Address" (fun x => sv_string (Some x)) (ipv6_ip v6)
    ++ (if prefix_len v6 =? 0 then []
        else [("PrefixLength", sv_byte (prefix_len v6))])
    ++ opt_entry "Gateway" (fun x => sv_string (Some x)) (ipv6_gateway v6)
    ++ opt_entry "DomainNameServers" sv_array (ipv6_dns v6)
  end.

Section Requests.

Variable C : common.

Definition append_context_properties (g : ofono_gprs) (ctx : pri_context)
  : list (string * property_value) :=
  let d := context_driver ctx ≫= (fun gc => context_drivers g !! gc) in
  [("Name", pv_string (Some (name ctx)));
   ("Active", pv_basic (DBUS_TYPE_BOOLEAN (active ctx)));
   ("Type", pv_string (gprs_context_type_to_string (type ctx)));
   ("Protocol", pv_string (gprs_proto_to_string C (proto (context ctx))));
   ("AccessPointName", pv_string (Some (apn (context ctx))));
   ("Username", pv_string (Some (username (context ctx))));
   ("Password", pv_string (Some (password (context ctx))));
   ("AuthenticationMethod",
    pv_string (gprs_auth_method_to_string C (auth_method (context ctx))))]
  ++ (if bool_decide (type ctx = OFONO_GPRS_CONTEXT_TYPE_MMS)
      then [("MessageProxy", pv_string (Some (message_proxy ctx)));
            ("MessageCenter", pv_string (Some (message_center ctx)))]
      else [])
  ++ [("Settings",
       pv_settings (context_settings_append_ipv4 (gc_settings <$> d)
                      (d ≫= interface)));
      ("IPv6.Settings",
       pv_settings (context_settings_append_ipv6 (gc_settings <$> d)
                      (d ≫= interface)))].

(* the dictionary of the reply *)
Definition pri_get_properties (g : ofono_gprs) (i : nat)
  : option (list (string * property_value)) :=
  append_context_properties g <$> contexts g !! i.

Definition gprs_get_contexts (g : ofono_gprs)
  : list (string * list (string * property_value)) :=
  (fun ctx => (path ctx, append_context_properties g ctx)) <$> contexts g.

(** *** Activation *)

Definition pri_update_mms_context_settings (i : nat) : M unit :=
  let* g := get in
  match contexts g !! i with
  | None => ret tt
  | Some ctx =>
    match context_driver ctx with
    | None => ret tt
    | Some gc =>
      match context_drivers g !! gc with
      | None => ret tt
      | Some d =>
        ipv4_update gc (fun s =>
          mk_ipv4_settings (static_ip s) (ipv4_ip s) (ipv4_netmask s)
            (ipv4_gateway s) (ipv4_dns s) (Some (message_proxy ctx))) ;;
        ctx_update i (pri_parse_proxy (message_proxy ctx)) ;;
        emit (pri_set_ipv4_addr (interface d)
                (ipv4 (gc_settings d) ≫= ipv4_ip)) ;;
        match proxy_host (pri_parse_proxy (message_proxy ctx) ctx) with
        | Some h => emit (pri_setproxy (interface d) h)
        | None => ret tt
        end
      end
    end
  end.

(* [ok] is error->type == OFONO_ERROR_TYPE_NO_ERROR *)
Definition pri_activate_callback (i : nat) (ok : bool) : M unit :=
  let* g := get in
  match contexts g !! i with
  | None => ret tt
  | Some ctx =>
    match context_driver ctx with
    | None => ret tt
    | Some gc =>
      if negb ok then
        ctx_pending_reply i ofono_error_failed ;;
        context_settings_free gc ;;
        release_context i
      else
        ctx_update i (with_active true) ;;
        ctx_pending_reply i method_return ;;
        match context_drivers g !! gc with
        | Some d =>
          when (bool_decide (interface d <> None))
            (emit (pri_ifupdown (interface d) true) ;;
             when (bool_decide (type ctx = OFONO_GPRS_CONTEXT_TYPE_MMS)
                   && bool_decide (ipv4 (gc_settings d) <> None))
               (pri_update_mms_context_settings i) ;;
             pri_context_signal_settings i
               (bool_decide (ipv4 (gc_settings d) <> None))
               (bool_decide (ipv6 (gc_settings d) <> None)))
        | None => ret tt
        end ;;
        emit (ofono_dbus_signal_property_changed (path ctx)
                OFONO_CONNECTION_CONTEXT_INTERFACE "Active"
                (DBUS_TYPE_BOOLEAN true))
    end
  end.

(** *** Manager properties *)

(* if (gprs->settings) { g_key_file_set_...(settings, SETTINGS_GROUP, k, v);
                         storage_sync(...); } *)
Definition store_setting (write : keyfile -> keyfile) : M unit :=
  let* g := get in
  match settings g with
  | Some kf => modify (with_settings (Some (write kf))) ;; emit storage_sync
  | None => ret tt
  end.

Definition gprs_set_property (msg : dbus_message) : M (option dbus_reply) :=
  let* g := get in
  if bool_decide (pending g <> None) then ret (Some ofono_error_busy)
  else
    match body msg with
    | arg_string property :: arg_variant var :: _ =>
      if g_str_equal property "RoamingAllowed" then
        match var with
        | DBUS_TYPE_BOOLEAN value =>
          if Bool.eqb (roaming_allowed g) value then ret (Some method_return)
          else
            modify (with_roaming_allowed value) ;;
            store_setting (fun kf =>
              g_key_file_set_boolean kf SETTINGS_GROUP "RoamingAllowed"
                value) ;;
            gprs_netreg_update ;;
            emit (ofono_dbus_signal_property_changed (atom_path g)
                    OFONO_CONNECTION_MANAGER_INTERFACE property
                    (DBUS_TYPE_BOOLEAN value)) ;;
            ret (Some method_return)
        | _ => ret (Some ofono_error_invalid_args)
        end
      else if g_str_equal property "Powered" then
        if negb (set_attached (driver g))
        then ret (Some ofono_error_not_implemented)
        else
          match var with
          | DBUS_TYPE_BOOLEAN value =>
            if Bool.eqb (powered g) value then ret (Some method_return)
            else
              modify (with_powered value) ;;
              store_setting (fun kf =>
                g_key_file_set_integer kf SETTINGS_GROUP "Powered"
                  (if value then 1 else 0)) ;;
              gprs_netreg_update ;;
              emit (ofono_dbus_signal_property_changed (atom_path g)
                      OFONO_CONNECTION_MANAGER_INTERFACE property
                      (DBUS_TYPE_BOOLEAN value)) ;;
              ret (Some method_return)
          | _ => ret (Some ofono_error_invalid_args)
          end
      else ret (Some ofono_error_invalid_args)
    | _ => ret (Some ofono_error_invalid_args)
    end.

(** *** Removing and deactivating contexts *)

(* [ok] is error->type == OFONO_ERROR_TYPE_NO_ERROR *)
Definition gprs_deactivate_for_remove (i : nat) (ok : bool) : M unit :=
  if negb ok then gprs_pending_reply ofono_error_failed
  else
    let* g := get in
    match contexts g !! i with
    | None => ret tt
    | Some ctx =>
      pri_reset_context_settings i ;;
      release_context i ;;
      emit (ofono_dbus_signal_property_changed (path ctx)
              OFONO_CONNECTION_CONTEXT_INTERFACE "Active"
              (DBUS_TYPE_BOOLEAN false)) ;;
      remove_context_group ctx ;;
      context_dbus_unregister i ;;
      contexts_remove i ;;
      gprs_pending_reply method_return ;;
      emit (g_dbus_emit_signal "ContextRemoved" (path ctx))
    end.

Definition gprs_deactivate_next : M unit :=
  let* g := get in
  match list_find (fun c => active c = true) (contexts g) with
  | Some (i, ctx) =>
    match context_driver ctx with
    | Some gc =>
      emit (call_deactivate_primary gc (cid (context ctx))
              cb_gprs_deactivate_for_all i)
    | None => ret tt
    end
  | None => gprs_pending_reply method_return
  end.

Definition gprs_deactivate_for_all (i : nat) (ok : bool) : M unit :=
  if negb ok then gprs_pending_reply ofono_error_failed
  else
    pri_reset_context_settings i ;;
    release_context i ;;
    pri_context_signal_active i ;;
    gprs_deactivate_next.

Definition gprs_deactivate_all (msg : dbus_message)
  : M (option dbus_reply) :=
  let* g := get in
  if bool_decide (pending g <> None) then ret (Some ofono_error_busy)
  else
    match body msg with
    | [] =>
      if existsb (fun c => bool_decide (ctx_pending c <> None)) (contexts g)
      then ret (Some ofono_error_busy)
      else
        modify (with_pending (Some (serial msg))) ;;
        gprs_deactivate_next ;;
        ret None
    | _ => ret (Some ofono_error_invalid_args)
    end.

(** *** Resetting the context list *)

Fixpoint provision_all (l : list provision_db_entry) : M unit :=
  match l with
  | [] => ret tt
  | ap :: l' => provision_context C ap ;; provision_all l'
  end.

(* [db] is what __ofono_provision_get_settings returned for the SIM's
   mcc, mnc and spn; [None] when it failed *)
Definition provision_contexts (db : option (list provision_db_entry))
  : M unit :=
  match db with
  | None => emit (ofono_warn "Provisioning failed")
  | Some l => provision_all l
  end.

Definition remove_non_active_context (i : nat) : M unit :=
  let* g := get in
  match contexts g !! i with
  | None => ret tt
  | Some ctx =>
    remove_context_group ctx ;;
    context_dbus_unregister i ;;
    contexts_remove i ;;
    emit (g_dbus_emit_signal "ContextRemoved" (path ctx))
  end.

(* while (gprs->contexts != NULL) remove_non_active_context(head): every
   round removes the head, so the loop runs once per context *)
Fixpoint remove_all_contexts (n : nat) : M unit :=
  match n with
  | O => ret tt
  | S n' => remove_non_active_context 0 ;; remove_all_contexts n'
  end.

Definition send_context_added_signal (i : nat) : M unit :=
  let* g := get in
  match contexts g !! i with
  | None => ret tt
  | Some ctx => emit (g_dbus_emit_signal "ContextAdded" (path ctx))
  end.

Definition gprs_reset_contexts (msg : dbus_message)
    (db : option (list provision_db_entry)) : M (option dbus_reply) :=
  let* g := get in
  if bool_decide (pending g <> None) then ret (Some ofono_error_busy)
  else if existsb (fun c => bool_decide (ctx_pending c <> None)) (contexts g)
  then ret (Some ofono_error_busy)
  else
    match body msg with
    | [] =>
      if powered g then ret (Some ofono_error_not_allowed)
      else if existsb active (contexts g)
      then ret (Some ofono_error_not_allowed)
      else
        remove_all_contexts (length (contexts g)) ;;
        modify (with_last_context_id 0) ;;
        provision_contexts db ;;
        let* g1 := get in
        when (bool_decide (contexts g1 = []))
          (add_context C None OFONO_GPRS_CONTEXT_TYPE_INTERNET ;; ret tt) ;;
        let* g2 := get in
        for_each (seq 0 (length (contexts g2))) send_context_added_signal ;;
        ret (Some method_return)
    | _ => ret (Some ofono_error_invalid_args)
    end.

(** *** Deactivation reported by the driver *)

(* the loop of ofono_gprs_context_deactivated over the positions [l] *)
Fixpoint context_deactivated_loop (l : list nat) (c : Z) : M unit :=
  match l with
  | [] => ret tt
  | i :: l' =>
    let* g := get in
    match contexts g !! i with
    | None => ret tt
    | Some ctx =>
      if negb (cid (context ctx) =? c) then context_deactivated_loop l' c
      else if negb (active ctx) then ret tt
      else
        pri_reset_context_settings i ;;
        release_context i ;;
        emit (ofono_dbus_signal_property_changed (path ctx)
                OFONO_CONNECTION_CONTEXT_INTERFACE "Active"
                (DBUS_TYPE_BOOLEAN false)) ;;
        context_deactivated_loop l' c
    end
  end.

(* [gc] is a binding of this manager, so gc->gprs is not NULL *)
Definition ofono_gprs_context_deactivated (gc : nat) (c : Z) : M unit :=
  let* g := get in
  context_deactivated_loop (seq 0 (length (contexts g))) c ;;
  let* g1 := get in
  if on_lte g1 || flag_test (flags g1) GPRS_FLAG_ATTACHED_UPDATE then
    clear_flag GPRS_FLAG_ATTACHED_UPDATE ;;
    gprs_attached_update
  else ret tt.

(** *** The network registration atom *)

(* netreg_watch: [registered] is cond != UNREGISTERED, [st] the status
   ofono_netreg_get_status returned *)
Definition netreg_watch (registered : bool) (st : Z) : M unit :=
  if negb registered then gprs_netreg_removed
  else
    when (negb (st =? NETWORK_REGISTRATION_STATUS_UNKNOWN))
      (modify (with_netreg_status st)) ;;
    gprs_netreg_update.

(** *** Loading the settings file *)

(* g_ascii_isspace *)
Definition g_ascii_isspace (c : ascii) : bool :=
  let n := N_of_ascii c in
  (n =? 32)%N || (n =? 9)%N || (n =? 10)%N || (n =? 12)%N || (n =? 13)%N.

(* the value without its trailing white space *)
Fixpoint rtrim (s : string) : string :=
  match s with
  | EmptyString => EmptyString
  | String c r =>
    match rtrim r with
    | EmptyString => if g_ascii_isspace c then EmptyString
                     else String c EmptyString
    | r' => String c r'
    end
  end.

(* g_key_file_get_boolean: [None] when glib sets the error, which it does
   for a missing group or key and for a value that is none of true, false,
   1 and 0 *)
Definition g_key_file_get_boolean (kf : keyfile) (group k : string)
  : option bool :=
  match g_key_file_get_string kf group k with
  | None => None
  | Some v =>
    let v := rtrim v in
    if g_str_equal v "true" || g_str_equal v "1" then Some true
    else if g_str_equal v "false" || g_str_equal v "0" then Some false
    else None
  end.

Definition settings_update (f : keyfile -> keyfile) : M unit :=
  modify (fun g => with_settings (f <$> settings g) g).

(* the loop of gprs_load_settings over the group names; the result is the
   flag [legacy] *)
Fixpoint load_groups (groups : list string) (legacy : bool) : M bool :=
  match groups with
  | [] => ret legacy
  | grp :: rest =>
    if g_str_equal grp SETTINGS_GROUP then load_groups rest legacy
    else if negb (l_str_has_prefix grp "context")
            && negb (l_str_has_prefix grp "primarycontext")
    then
      settings_update (fun kf => g_key_file_remove_group kf grp) ;;
      load_groups rest legacy
    else
      let legacy := legacy || negb (l_str_has_prefix grp "context") in
      let* loaded := load_context C grp in
      if loaded then load_groups rest legacy
      else
        settings_update (fun kf => g_key_file_remove_group kf grp) ;;
        load_groups rest legacy
  end.

(* gprs_load_settings.  [opened] is what storage_open returned.  The store
   is a dictionary and records no order; [get_groups] stands for
   g_key_file_get_groups, which lists the groups in the order of the file. *)
Definition gprs_load_settings (get_groups : keyfile -> list string)
    (imsi_ : string) (opened : option keyfile) : M unit :=
  modify (with_settings opened) ;;
  match opened with
  | None => ret tt
  | Some kf =>
    modify (with_imsi (Some imsi_)) ;;
    match g_key_file_get_boolean kf SETTINGS_GROUP "Powered" with
    | Some b => modify (with_powered b)
    | None =>
      modify (with_powered true) ;;
      settings_update (fun kf =>
        g_key_file_set_boolean kf SETTINGS_GROUP "Powered" true)
    end ;;
    let* g := get in
    match settings g ≫= (fun kf =>
            g_key_file_get_boolean kf SETTINGS_GROUP "RoamingAllowed") with
    | Some b => modify (with_roaming_allowed b)
    | None =>
      modify (with_roaming_allowed false) ;;
      settings_update (fun kf =>
        g_key_file_set_boolean kf SETTINGS_GROUP "RoamingAllowed" false)
    end ;;
    let* g1 := get in
    let* legacy :=
      load_groups (default [] (get_groups <$> settings g1)) false in
    when legacy (emit storage_sync)
  end.

End Requests.

End Gprs.

(** ** The AT dialect layer: probing and context listing

    The rest of [drivers/atmodem/gprs.c]: the replies to the commands sent
    while the driver probes the modem, and the listing of the contexts the
    modem activated by itself.  As before a handler takes the outcomes of
    the [GAtResult] iterator calls it makes. *)
Module AtmodemSetup.

Definition MAX_CONTEXTS : Z := 255.

Inductive call :=
  | g_at_chat_send (cmd : string)
  (* g_at_chat_register(chat, prefix, handler, ...) *)
  | g_at_chat_register (prefix : string)
  | ofono_gprs_cid_activated (cid : Z) (apn : string)
  | ofono_gprs_set_cid_range (lo hi : Z)
  | ofono_gprs_register
  | ofono_gprs_remove
  | ofono_warn (text : string)
  | ofono_error (text : string)
  | ofono_info (text : string)
  (* the completion callback of the request: cb(&error, data), with [ok]
     for error.type == OFONO_ERROR_TYPE_NO_ERROR *)
  | cb (ok : bool)
  (* the status callback cb(&error, status, data) *)
  | cb_status (ok : bool) (status : Z).

(* l_uintset_contains(set, n): false on a NULL set *)
Definition l_uintset_contains (s : option Uintset.t) (n : Z) : bool :=
  match s with
  | Some u => Uintset.contains u n
  | None => false
  end.

(* a "+CGDCONT:" line of the reply: the cid g_at_result_iter_next_number
   read and the APN g_at_result_iter_next_string read, if they did *)
Definition cgdcont_line : Type := option Z * option string.

Fixpoint at_cgdcont_parse (lines : list cgdcont_line)
    (cids : option Uintset.t) : list call :=
  match lines with
  | [] => []
  | (None, _) :: _ => []
  | (Some read_cid, v) :: rest =>
    if negb (l_uintset_contains cids read_cid) then at_cgdcont_parse rest cids
    else
      match v with
      | Some a => ofono_gprs_cid_activated read_cid a
      | None => ofono_warn "cid %d: Activated but no apn present"
      end :: at_cgdcont_parse rest cids
  end.

(* the reply to the AT+CGDCONT? sent on "ME PDN ACT" *)
Definition at_cgdcont_read_cb (ok : bool) (lines : list cgdcont_line)
    (gd : Atmodem.gprs_data) : list call :=
  let activated_cid := Atmodem.last_auto_context_id gd in
  if negb ok then [ofono_warn "Can't read CGDCONT contexts."]
  else if activated_cid =? -1 then []
  else
    at_cgdcont_parse lines
      ((fun s => Uintset.put s activated_cid)
       <$> l_uintset_new_from_range 0 activated_cid).

(* the state of a listing: struct list_contexts_data *)
Definition list_contexts_data : Type := option Uintset.t.

Definition at_cgdcont_act_read_cb (ok : bool) (lines : list cgdcont_line)
    (ld : list_contexts_data) : list call :=
  (if negb ok then [ofono_warn "Can't read CGDCONT context."]
   else at_cgdcont_parse lines ld)
  ++ [cb ok].

(* the loop of at_cgact_cb over the "+CGACT:" lines, each with the cid and
   the status read, if they were *)
Fixpoint cgact_lines (lines : list (option Z * option Z)) (last_auto : Z)
    (active_cids : list_contexts_data) : Z * list_contexts_data :=
  match lines with
  | (Some read_cid, Some read_status) :: rest =>
    if negb (read_status =? 1) then cgact_lines rest last_auto active_cids
    else
      cgact_lines rest
        (if last_auto =? -1 then read_cid else last_auto)
        (Some (Uintset.put (default (Uintset.new MAX_CONTEXTS) active_cids)
                 read_cid))
  | _ => (last_auto, active_cids)
  end.

(* at_cgact_cb; [sent] is the outcome of the g_at_chat_send for
   AT+CGDCONT? *)
Definition at_cgact_cb (ok : bool) (lines : list (option Z * option Z))
    (sent : bool) (gd : Atmodem.gprs_data)
  : Atmodem.gprs_data * list_contexts_data * list call :=
  if negb ok then (gd, None, [ofono_warn "Can't read CGACT contexts."; cb false])
  else
    let '(last_auto, active_cids) :=
      cgact_lines lines (Atmodem.last_auto_context_id gd) None in
    let gd' := Atmodem.mk_gprs_data (Atmodem.vendor gd) last_auto
                 (Atmodem.telit_try_reattach gd) (Atmodem.attached gd) in
    match active_cids with
    | Some _ =>
      if sent then (gd', active_cids, [g_at_chat_send "AT+CGDCONT?"])
      else (gd', active_cids, [cb false])
    | None => (gd', active_cids, [cb true])
    end.

Definition at_gprs_list_active_contexts (sent : bool) : list call :=
  if sent then [g_at_chat_send "AT+CGACT?"] else [cb false].

(** *** Probing *)

(* a "+CGDCONT:" line of the test reply, as the iterator calls of
   at_cgdcont_test_cb see it, in call order *)
Record cgdcont_test_line := mk_cgdcont_test_line {
  tl_open_list : bool;
  tl_range : option (Z * Z);
  tl_skip_next : bool;
  tl_open_list2 : bool;
  tl_pdp_type : option string;
  tl_close_list : bool
}.

(* the loop of at_cgdcont_test_cb: the values of [found] and of [min] and
   [max] when it ends; [range] is [None] while [min] and [max] are not
   assigned *)
Fixpoint cgdcont_test_lines (lines : list cgdcont_test_line)
    (range : option (Z * Z)) : bool * option (Z * Z) :=
  match lines with
  | [] => (false, range)
  | l :: rest =>
    if negb (tl_open_list l) then cgdcont_test_lines rest range
    else
      match tl_range l with
      | None => cgdcont_test_lines rest range
      | Some r =>
        if negb (tl_skip_next l) then cgdcont_test_lines rest (Some r)
        else
          match tl_pdp_type l with
          | None => cgdcont_test_lines rest (Some r)
          | Some pdp_type =>
            if tl_open_list2 l && negb (tl_close_list l)
            then cgdcont_test_lines rest (Some r)
            else if g_str_equal pdp_type "IP" then (true, Some r)
            else cgdcont_test_lines rest (Some r)
          end
      end
  end.

Definition at_cgdcont_test_cb (ok : bool) (lines : list cgdcont_test_line)
  : list call :=
  let unsupported :=
    [ofono_info "GPRS not supported on this device"; ofono_gprs_remove] in
  if negb ok then unsupported
  else
    match cgdcont_test_lines lines None with
    | (true, Some (lo, hi)) =>
      [ofono_gprs_set_cid_range lo hi; g_at_chat_send "AT+CGREG=?"]
    | _ => unsupported
    end.

(* the loop over g_at_result_iter_next_range of at_cgreg_test_cb *)
Fixpoint cgreg_ranges (ranges : list (Z * Z)) (cgreg1 cgreg2 : bool)
  : bool * bool :=
  match ranges with
  | [] => (cgreg1, cgreg2)
  | (lo, hi) :: rest =>
    cgreg_ranges rest
      (if (lo <=? 1) && (1 <=? hi) then true else cgreg1)
      (if (lo <=? 2) && (2 <=? hi) then true else cgreg2)
  end.

(* the [retry] loop: "+CGREG:" lines are skipped until one opens a list;
   a line is the ranges of its list, [None] when
   g_at_result_iter_open_list fails on it *)
Fixpoint cgreg_first_list (lines : list (option (list (Z * Z))))
  : option (list (Z * Z)) :=
  match lines with
  | [] => None
  | Some ranges :: _ => Some ranges
  | None :: rest => cgreg_first_list rest
  end.

Definition at_cgreg_test_cb (ok : bool)
    (lines : list (option (list (Z * Z)))) (gd : Atmodem.gprs_data)
  : list call :=
  let unsupported :=
    [ofono_info "GPRS not supported on this device"; ofono_gprs_remove] in
  if negb ok then unsupported
  else
    match cgreg_first_list lines with
    | None => unsupported
    | Some ranges =>
      let '(cgreg1, cgreg2) := cgreg_ranges ranges false false in
      if negb cgreg2 && negb cgreg1 then unsupported
      else
        [g_at_chat_send (if cgreg2 then "AT+CGREG=2" else "AT+CGREG=1")]
        ++ (if decide (Atmodem.vendor gd = Atmodem.OFONO_VENDOR_SIMCOM_A76XX)
            then [] else [g_at_chat_send "AT+CGAUTO=0"])
        ++ [g_at_chat_send
              (if decide (Atmodem.vendor gd = Atmodem.OFONO_VENDOR_MBM)
               then "AT+CGEREP=1,0"
               else if decide (Atmodem.vendor gd = Atmodem.OFONO_VENDOR_NOKIA)
               then "AT+CGEREP=1"
               else "AT+CGEREP=?")]
    end.

(* the first loop of at_cgerep_test_cb *)
Fixpoint cgerep_arg1 (ranges : list (Z * Z)) (arg1 : Z) : Z :=
  match ranges with
  | [] => arg1
  | (lo, hi) :: rest =>
    let arg1 := if (lo <=? 1) && (1 <=? hi) then 1 else arg1 in
    let arg1 := if (lo <=? 2) && (2 <=? hi) then 2 else arg1 in
    cgerep_arg1 rest arg1
  end.

(* the second loop *)
Fixpoint cgerep_arg2 (ranges : list (Z * Z)) (arg2 : Z) : Z :=
  match ranges with
  | [] => arg2
  | (lo, hi) :: rest =>
    cgerep_arg2 rest (if (lo <=? 1) && (1 <=? hi) then 1 else arg2)
  end.

(* at_cgerep_test_cb.  [open1], [close1] and [open2] are the outcomes of the
   list calls, [ranges1] and [ranges2] what g_at_result_iter_next_range
   yields inside the two lists. *)
Definition at_cgerep_test_cb (ok : bool) (open1 : bool)
    (ranges1 : list (Z * Z)) (close1 : bool) (open2 : bool)
    (ranges2 : list (Z * Z)) : list call :=
  if negb ok then
    [ofono_error "Error querying AT+CGEREP=? Failing..."; ofono_gprs_remove]
  else if negb open1 then
    [ofono_error "Malformed reply from AT+CGEREP=? Failing...";
     ofono_gprs_remove]
  else
    let arg1 := cgerep_arg1 ranges1 0 in
    let two_arguments := negb close1 || open2 in
    let arg2 := if close1 && open2 then cgerep_arg2 ranges2 0 else 0 in
    [g_at_chat_send
       (if two_arguments
        then String.append "AT+CGEREP="
               (String.append (Gprs.print_uint arg1)
                  (String.append "," (Gprs.print_uint arg2)))
        else String.append "AT+CGEREP=" (Gprs.print_uint arg1))].

(* gprs_initialized: the handlers registered and the commands sent *)
Definition gprs_initialized (gd : Atmodem.gprs_data) : list call :=
  [g_at_chat_register "+CGEV:"; g_at_chat_register "+CGREG:"]
  ++ match Atmodem.vendor gd with
     | Atmodem.OFONO_VENDOR_HUAWEI =>
       [g_at_chat_register "^MODE:"; g_at_chat_register "^HCSQ:"]
     | Atmodem.OFONO_VENDOR_UBLOX =>
       [g_at_chat_register "+UREG:"; g_at_chat_send "AT+UREG=1"]
     | Atmodem.OFONO_VENDOR_TELIT =>
       [g_at_chat_register "#PSNT:"; g_at_chat_send "AT#PSNT=1"]
     | Atmodem.OFONO_VENDOR_SIMCOM_A76XX =>
       [g_at_chat_register "+CNSMOD:"; g_at_chat_send "AT+CNSMOD=1"]
     | Atmodem.OFONO_VENDOR_QUECTEL_EC2X
     | Atmodem.OFONO_VENDOR_QUECTEL_EG91X
     | Atmodem.OFONO_VENDOR_QUECTEL_SERIAL => []
     | _ => [g_at_chat_register "+CPSB:"; g_at_chat_send "AT+CPSB=1"]
     end
  ++ match Atmodem.vendor gd with
     | Atmodem.OFONO_VENDOR_IFX =>
       [g_at_chat_register "+XDATASTAT:"; g_at_chat_send "AT+XDATASTAT=1"]
     | _ => []
     end
  ++ [ofono_gprs_register].

(* at_cgreg_cb: [parsed] is the status at_util_parse_reg read *)
Definition at_cgreg_cb (ok : bool) (parsed : option Z) : list call :=
  if negb ok then [cb_status false (-1)]
  else
    match parsed with
    | None => [cb_status false (-1)]
    | Some status => [cb_status true status]
    end.

(* at_gprs_registration_status; [sent] is the outcome of the send of
   AT+CGREG? *)
Definition at_gprs_registration_status (sent : bool)
    (gd : Atmodem.gprs_data) : list call :=
  match Atmodem.vendor gd with
  | Atmodem.OFONO_VENDOR_GOBI => [g_at_chat_send "AT*CNTI=0"]
  | Atmodem.OFONO_VENDOR_NOVATEL => [g_at_chat_send "AT$CNTI=0"]
  | _ => []
  end
  ++ (if sent then [g_at_chat_send "AT+CGREG?"] else [cb_status false (-1)]).

(** *** The event text of "+CGEV:" *)

Fixpoint skip_token (s : string) : string :=
  match s with
  | EmptyString => s
  | String c r => if Gprs.is_space c then s else skip_token r
  end.

(* the directive %*s: white space, then a run of other characters, which
   must not be empty *)
Definition scan_skip_string (s : string) : option string :=
  match Gprs.skip_space s with
  | EmptyString => None
  | t => Some (skip_token t)
  end.

(* the directive %u: white space, an optional sign and digits, converted as
   by strtoul with a 64-bit long *)
Definition scan_unsigned (s : string) : option Z :=
  match Gprs.skip_space s with
  | String "-" r =>
    (fun n => if 2 ^ 64 <=? n then 2 ^ 64 - 1 else - n)
    <$> Gprs.scan_digits r None
  | String "+" r => (fun n => Z.min n (2 ^ 64 - 1)) <$> Gprs.scan_digits r None
  | r => (fun n => Z.min n (2 ^ 64 - 1)) <$> Gprs.scan_digits r None
  end.

(* sscanf(event, "%*s %*s %*s %u", &x) with [x] an int: the value stored,
   if the conversion took place.  The low 32 bits of the number are read
   back as an int. *)
Definition sscanf_event (event : string) : option Z :=
  (fun n => let u := n mod 2 ^ 32 in if u <? 2 ^ 31 then u else u - 2 ^ 32)
  <$> (t1 ← scan_skip_string event;
       t2 ← scan_skip_string t1;
       t3 ← scan_skip_string t2;
       scan_unsigned t3).

(* cgev_notify on the event text the iterator returned *)
Definition cgev_notify (event : string) (context_id_uninit : Z)
    (gd : Atmodem.gprs_data) : Atmodem.gprs_data * list Atmodem.action :=
  Atmodem.cgev_notify (Some event) (sscanf_event event) context_id_uninit gd.

End AtmodemSetup.

(** ** Statements under test

    The definitions of this part do not model code: they fix the helper
    table and the states used in examples, and spell out, as propositions
    over the embedding, the readings of the specification that the theorems
    below settle. *)
Module Statements.

Import Gprs.
Local Open Scope gprs_scope.

Definition is_apn_char (c : ascii) : bool :=
  let n := N_of_ascii c in
  ((48 <=? n)%N && (n <=? 57)%N)
  || ((65 <=? n)%N && (n <=? 90)%N)
  || ((97 <=? n)%N && (n <=? 122)%N)
  || (n =? 45)%N || (n =? 46)%N.

Fixpoint all_chars (p : ascii -> bool) (s : string) : bool :=
  match s with
  | EmptyString => true
  | String c r => p c && all_chars p r
  end.

(** Modelled from the spec: [is_valid_apn] and the string conversions of
    [common.c] are missing from the sources.  The spec asks for an APN that
    is "printable, length-bounded, conforms to the standard APN character
    class" and names [ip] and [chap] as the stored defaults; the other
    strings are oFono's. This table only instantiates examples. *)
Definition common_model : common :=
  mk_common
    (fun s => negb (g_str_equal s "")
              && (strlen s <=? OFONO_GPRS_MAX_APN_LENGTH)
              && all_chars is_apn_char s)
    (fun p => Some match p with
                   | OFONO_GPRS_PROTO_IP => "ip"
                   | OFONO_GPRS_PROTO_IPV6 => "ipv6"
                   | OFONO_GPRS_PROTO_IPV4V6 => "dual"
                   end)
    (fun s => if g_str_equal s "ip" then Some OFONO_GPRS_PROTO_IP
              else if g_str_equal s "ipv6" then Some OFONO_GPRS_PROTO_IPV6
              else if g_str_equal s "dual" then Some OFONO_GPRS_PROTO_IPV4V6
              else None)
    (fun a => Some match a with
                   | OFONO_GPRS_AUTH_METHOD_CHAP => "chap"
                   | OFONO_GPRS_AUTH_METHOD_PAP => "pap"
                   | OFONO_GPRS_AUTH_METHOD_NONE => "none"
                   end)
    (fun s => if g_str_equal s "chap" then Some OFONO_GPRS_AUTH_METHOD_CHAP
              else if g_str_equal s "pap" then Some OFONO_GPRS_AUTH_METHOD_PAP
              else if g_str_equal s "none"
              then Some OFONO_GPRS_AUTH_METHOD_NONE
              else None).

(* the conversions of [common.c] undo each other *)
Definition common_inverse (C : common) : Prop :=
  (forall p, gprs_proto_to_string C p ≫= gprs_proto_from_string C = Some p)
  /\ (forall a, gprs_auth_method_to_string C a
                ≫= gprs_auth_method_from_string C = Some a).

(* a driver with every operation, and the manager created on it *)
Definition full_driver : ofono_gprs_driver := mk_gprs_driver true true true.
Definition created : ofono_gprs := ofono_gprs_create full_driver "/modem".

(* a context driver table with or without read_settings *)
Definition any_binding (rs : bool) : ofono_gprs_context :=
  mk_gprs_context OFONO_GPRS_CONTEXT_TYPE_ANY false
    (Some (mk_context_driver true true rs false)) (Some "wwan0")
    (mk_context_settings None None).

Fixpoint run_events (C : common) (l : list event) : M unit :=
  match l with
  | [] => ret tt
  | e :: l' => step C e ;; run_events C l'
  end.

Definition add_msg (n : nat) (t : string) : dbus_message :=
  mk_message n [arg_string t].
Definition remove_msg (n : nat) (p : string) : dbus_message :=
  mk_message n [arg_object_path p].
Definition set_active_msg (n : nat) (v : bool) : dbus_message :=
  mk_message n [arg_string "Active"; arg_variant (DBUS_TYPE_BOOLEAN v)].
Definition set_apn_msg (n : nat) (v : string) : dbus_message :=
  mk_message n
    [arg_string "AccessPointName"; arg_variant (DBUS_TYPE_STRING v)].

(** *** C2, the four clauses in the order the sentence lists them: each
    clause applies when no earlier one does. *)
Definition set_active_as_listed (C : common) (g : ofono_gprs) (i : nat)
    (n : nat) (v : bool) : Prop :=
  forall ctx, contexts g !! i = Some ctx ->
  let busy := bool_decide (pending g <> None)
              || bool_decide (ctx_pending ctx <> None) in
  let attaching := flag_test (flags g) GPRS_FLAG_ATTACHING in
  let unattached := negb (attached g) && v in
  let r := pri_set_property C i (set_active_msg n v) g in
  (busy = true -> fst (fst r) = Some ofono_error_busy)
  /\ (busy = false -> attaching = true ->
      fst (fst r) = Some ofono_error_attach_in_progress)
  /\ (busy = false -> attaching = false -> unattached = true ->
      fst (fst r) = Some ofono_error_not_attached)
  /\ (busy = false -> attaching = false -> unattached = false ->
      active ctx = v -> r = (Some method_return, g, [])).

(* a detached manager in the middle of an attach, with one idle context *)
Definition attaching_state : ofono_gprs :=
  with_flags GPRS_FLAG_ATTACHING
    (exec (add_context common_model None OFONO_GPRS_CONTEXT_TYPE_INTERNET)
       created).

(** *** C3, the invariant as the sentence states it *)
Definition suspended_implies_attached (g : ofono_gprs) : Prop :=
  suspended g = true -> attached g = true.

Definition is_suspended_signal (e : effect) : bool :=
  match e with
  | ofono_dbus_signal_property_changed _ _ prop _ =>
    g_str_equal prop "Suspended"
  | _ => false
  end.

Definition lists_property (k : string) (d : list (string * dbus_value))
  : bool :=
  existsb (fun kv => g_str_equal (fst kv) k) d.

(** *** C4: the report binds a context and reads its settings from the
    driver, or releases it when the bound driver cannot. *)
Definition is_read_settings (e : effect) : bool :=
  match e with
  | call_read_settings _ _ _ => true
  | _ => false
  end.

Definition read_settings_calls (l : list effect) : list effect :=
  filter (fun e => is_read_settings e = true) l.

Definition bound_to (g : ofono_gprs) (i : nat) (gc : nat) (c : Z) : Prop :=
  exists ctx d,
    contexts g !! i = Some ctx /\ context_driver ctx = Some gc
    /\ cid (context ctx) = c
    /\ context_drivers g !! gc = Some d /\ inuse d = true.

Definition released (g : ofono_gprs) (i : nat) (gc : nat) : Prop :=
  exists ctx d,
    contexts g !! i = Some ctx /\ context_driver ctx = None
    /\ cid (context ctx) = 0 /\ active ctx = false
    /\ context_drivers g !! gc = Some d /\ inuse d = false.

(* the matching rule as the sentence gives it: a context whose APN, not
   empty, is a prefix of the reported one; else a context with an empty
   APN; in list order *)
Definition find_usable_context_as_stated (g : ofono_gprs) (v : string)
  : option nat :=
  match list_find (fun c => apn (context c) <> ""
                            /\ l_str_has_prefix v (apn (context c)) = true)
          (contexts g) with
  | Some (i, _) => Some i
  | None => fst <$> list_find (fun c => apn (context c) = "") (contexts g)
  end.

(* no context matches the reported APN by a prefix that is not empty *)
Definition no_prefix_match (g : ofono_gprs) (v : string) : Prop :=
  forall j ctx, contexts g !! j = Some ctx -> apn (context ctx) <> "" ->
                l_str_has_prefix v (apn (context ctx)) = false.

Definition cid_activated_as_stated (C : common) (g : ofono_gprs) (c : Z)
    (v : string) : Prop :=
  atom_registered g = true ->
  (forall u, used_cids g = Some u -> Uintset.contains u c = false) ->
  is_valid_apn C v = true -> strlen v <= OFONO_GPRS_MAX_APN_LENGTH ->
  let r := ofono_gprs_cid_activated C c v g in
  exists i gc d drv,
    context_drivers g !! gc = Some d /\ gc_driver d = Some drv
    /\ (read_settings drv = true ->
        bound_to (snd (fst r)) i gc c
        /\ read_settings_calls (snd r) = [call_read_settings gc c i])
    /\ (read_settings drv = false ->
        released (snd (fst r)) i gc /\ read_settings_calls (snd r) = []).

(* a registered manager on which no context driver was ever registered *)
Definition no_binding_state : ofono_gprs := with_atom_registered true created.

(* a powered, attached manager whose only binding is taken: the user's
   "internet" context is being activated on it *)
Definition busy_binding_state : ofono_gprs :=
  exec (run_events common_model
          [ev_add_driver (any_binding true); ev_atom_registered;
           ev_add_context (add_msg 1 "internet");
           ev_pri_set_property 0 (set_apn_msg 2 "internet");
           ev_netreg_status_changed NETWORK_REGISTRATION_STATUS_REGISTERED;
           ev_attach_callback true;
           ev_registration_status_cb true
             NETWORK_REGISTRATION_STATUS_REGISTERED;
           ev_pri_set_property 0 (set_active_msg 3 true)])
    (with_powered true created).

(** *** C6: one spurious detach, then a second one without any
    set_attached in between *)
Definition telit_attached : Atmodem.gprs_data :=
  Atmodem.mk_gprs_data Atmodem.OFONO_VENDOR_TELIT (-1) false 1.

(* the second detach is dropped: no re-attach, nothing reported, no state
   change, whether it comes before or after the delayed re-registration *)
Definition second_detach_ignored (gd : Atmodem.gprs_data) : Prop :=
  let r1 := Atmodem.cgreg_notify (Some 0) gd in
  Atmodem.reattach_count (snd r1) = 1%nat
  /\ Atmodem.cgreg_notify (Some 0) (fst r1) = (fst r1, [])
  /\ Atmodem.reattach_count
       (snd (Atmodem.run [Atmodem.CGREG (Some 0); Atmodem.CGREG (Some 1);
                          Atmodem.CGREG (Some 0)] gd)) = 1%nat.

(** *** C7: the id a new context gets is the least one not in use *)
Definition takes_min_unused_pid (C : common) (g : ofono_gprs)
    (nm : option string) (t : ofono_gprs_context_type) : Prop :=
  forall i ctx,
    fst (fst (add_context C nm t g)) = Some i ->
    contexts (snd (fst (add_context C nm t g))) !! i = Some ctx ->
    id ctx = Uintset.find_unused_min (used_pids g).

Definition min_unused (s : Uintset.t) (n : Z) : Prop :=
  Uintset.contains s n = false
  /\ Uintset.umin s <= n <= Uintset.umax s
  /\ forall m, Uintset.umin s <= m < n -> Uintset.contains s m = true.

(* the first free number at or after [start], else the least free number *)
Definition first_unused_from (s : Uintset.t) (start n : Z) : Prop :=
  Uintset.contains s n = false
  /\ Uintset.umin s <= n <= Uintset.umax s
  /\ ((start <= n
       /\ forall m, start <= m < n -> Uintset.contains s m = true)
      \/ (n < start
          /\ (forall m, start <= m <= Uintset.umax s ->
                        Uintset.contains s m = true)
          /\ forall m, Uintset.umin s <= m < n ->
                       Uintset.contains s m = true)).

(* three contexts added over the bus, the first one removed again *)
Definition pids_after_removal : ofono_gprs :=
  exec (run_events common_model
          [ev_add_context (add_msg 1 "internet");
           ev_add_context (add_msg 2 "mms");
           ev_add_context (add_msg 3 "wap");
           ev_remove_context (remove_msg 4 "/modem/context1")]) created.

(** *** C8: a bearer table sends every code outside [known] to zero *)
Definition unknown_to_zero (f : Z -> Z) (known : list Z) : Prop :=
  forall x, ~ In x known -> f x = 0.

Definition huawei_known : list Z := [1; 2; 3; 4; 5; 6; 7; 9].
Definition telit_known : list Z := [0; 1; 2; 3; 4].
Definition simcom_known : list Z := [0; 1; 2; 3; 4; 5; 6; 7; 8].
Definition ublox_known : list Z := [0; 1; 2; 3; 4; 5; 6; 7; 8; 9].

Definition is_bearer (b : Z) : Prop :=
  PACKET_BEARER_NONE <= b <= PACKET_BEARER_EPS.

Definition is_ia (c : pri_context) : bool :=
  bool_decide (type c = OFONO_GPRS_CONTEXT_TYPE_IA).

Definition count_ia (g : ofono_gprs) : nat :=
  length (filter (fun c => is_ia c = true) (contexts g)).

(* an initial-attach entry of the provisioning database *)
Definition ia_entry : provision_db_entry :=
  mk_provision_db_entry 32 OFONO_GPRS_PROTO_IP (Some "Attach") "ia.operator"
    None None OFONO_GPRS_AUTH_METHOD_NONE None None.

(* the bus methods that add contexts or change the type of one *)
Inductive bus_call :=
  | bus_AddContext (msg : dbus_message)
  | bus_SetProperty (i : nat) (msg : dbus_message)
  | bus_ResetContexts (msg : dbus_message)
      (db : option (list provision_db_entry)).

Definition bus_call_run (C : common) (b : bus_call) : M unit :=
  match b with
  | bus_AddContext msg => gprs_add_context C msg ;; ret tt
  | bus_SetProperty i msg => pri_set_property C i msg ;; ret tt
  | bus_ResetContexts msg db => gprs_reset_contexts C msg db ;; ret tt
  end.

(* the last clause of the sentence on context types, as it is written: no
   bus method brings an IA-typed context into the list *)
Definition no_ia_over_bus_as_stated (C : common) : Prop :=
  forall b g,
    (count_ia (exec (bus_call_run C b) g) <= count_ia g)%nat.

(* the manager of a SIM with an empty settings file *)
Definition with_store : ofono_gprs :=
  with_settings (Some ∅) (with_imsi (Some "001010123456789") created).

End Statements.

(** ** Scenarios

    States, inputs and predicates used in the statements of the further
    properties of the two files. *)
Module Scenarios.

Import Gprs Statements.
Local Open Scope gprs_scope.

(* the text does not start with a decimal digit *)
Definition no_leading_digit (s : string) : bool :=
  match s with
  | EmptyString => true
  | String c _ => negb (is_digit c)
  end.

(* the character does not occur in the text *)
Fixpoint without (c : ascii) (s : string) : bool :=
  match s with
  | EmptyString => true
  | String a r => negb (Ascii.eqb a c) && without c r
  end.

(* a proxy text: an optional scheme, the host, an optional port and an
   optional path *)
Definition proxy_text (scheme : option string) (host : string)
    (port : option Z) (urlpath : option string) : string :=
  match scheme with
  | Some s => s +:+ "://"
  | None => ""
  end
  +:+ host
  +:+ match port with
      | Some n => ":" +:+ print_uint n
      | None => ""
      end
  +:+ match urlpath with
      | Some p => "/" +:+ p
      | None => ""
      end.

(* the scheme is http or https up to case, with default port [p0]; a text
   without scheme has the http default and no colon in its path *)
Definition proxy_scheme (scheme : option string) (urlpath : option string)
    (p0 : Z) : Prop :=
  match scheme with
  | Some s =>
    without ":" s = true
    /\ ((strcasecmp s "https" = true /\ p0 = 443)
        \/ (strcasecmp s "https" = false /\ strcasecmp s "http" = true
            /\ p0 = 80))
  | None =>
    p0 = 80
    /\ match urlpath with
       | Some p => without ":" p = true
       | None => True
       end
  end.

(* an MMS context with a proxy configured *)
Definition mms_context : pri_context :=
  mk_pri_context false OFONO_GPRS_CONTEXT_TYPE_MMS "MMS"
    "http://10.11.12.13:8080/mms" "http://mmsc.example.net" 2
    "/modem/context2" "context2" None 0 None
    (mk_primary_context 0 "mms.example.net" "" "" OFONO_GPRS_PROTO_IP
       OFONO_GPRS_AUTH_METHOD_CHAP)
    None.

Definition set_powered_msg (n : nat) (v : bool) : dbus_message :=
  mk_message n [arg_string "Powered"; arg_variant (DBUS_TYPE_BOOLEAN v)].
Definition set_roaming_msg (n : nat) (v : bool) : dbus_message :=
  mk_message n
    [arg_string "RoamingAllowed"; arg_variant (DBUS_TYPE_BOOLEAN v)].

(* a powered manager attached to the home network, with one binding and an
   idle "internet" context *)
Definition attached_idle_state : ofono_gprs :=
  exec (run_events common_model
          [ev_add_driver (any_binding true); ev_atom_registered;
           ev_add_context (add_msg 1 "internet");
           ev_pri_set_property 0 (set_apn_msg 2 "internet");
           ev_netreg_status_changed NETWORK_REGISTRATION_STATUS_REGISTERED;
           ev_attach_callback true;
           ev_registration_status_cb true
             NETWORK_REGISTRATION_STATUS_REGISTERED])
    (with_powered true created).

(* the context driver fills in the settings of the binding of context [i]
   while it activates it *)
Definition driver_reports (i : nat)
    (f : context_settings -> context_settings) : M unit :=
  let* g := get in
  match contexts g !! i ≫= context_driver with
  | Some gc => gc_update gc (fun d => with_gc_settings (f (gc_settings d)) d)
  | None => ret tt
  end.

(* the manager [g] with context [i] replaced by [c], binding [gc] replaced
   by [d] and the set of cids by [u] *)
Definition with_binding (g : ofono_gprs) (i : nat) (c : pri_context)
    (gc : nat) (d : ofono_gprs_context) (u : option Uintset.t)
  : ofono_gprs :=
  with_used_cids u
    (with_context_drivers (<[gc := d]> (context_drivers g))
       (with_contexts (<[i := c]> (contexts g)) g)).

(** *** The AT driver *)

(* the range holds the number *)
Definition covers (k : Z) (r : Z * Z) : bool := (r.1 <=? k) && (k <=? r.2).

(* the ranges are not empty and listed in ascending order above [prev] *)
Fixpoint ascending (prev : Z) (ranges : list (Z * Z)) : bool :=
  match ranges with
  | [] => true
  | (lo, hi) :: rest => (prev <? lo) && (lo <=? hi) && ascending hi rest
  end.

(* the set of at_cgact_cb while it reads the lines: NULL or a set of the
   numbers from 1 to 255 *)
Definition cgact_set (acc : AtmodemSetup.list_contexts_data) : Prop :=
  forall u, acc = Some u ->
    Uintset.wf u /\ Uintset.umin u = 1 /\ Uintset.umax u = 255.

Definition is_cb (c : AtmodemSetup.call) : bool :=
  match c with
  | AtmodemSetup.cb _ => true
  | _ => false
  end.

(* the listing of the contexts the modem activated by itself, from the
   request to the callback: at_gprs_list_active_contexts, then at_cgact_cb
   on the reply to AT+CGACT? and, when that one sent AT+CGDCONT?,
   at_cgdcont_act_read_cb on its reply.  [sent1] and [sent2] are the
   outcomes of the two g_at_chat_send calls. *)
Definition list_active_contexts (sent1 ok1 : bool)
    (lines1 : list (option Z * option Z)) (sent2 ok2 : bool)
    (lines2 : list AtmodemSetup.cgdcont_line) (gd : Atmodem.gprs_data)
  : Atmodem.gprs_data * list AtmodemSetup.call :=
  if negb sent1 then (gd, AtmodemSetup.at_gprs_list_active_contexts false)
  else
    let '(gd', ld, calls) := AtmodemSetup.at_cgact_cb ok1 lines1 sent2 gd in
    (gd',
     AtmodemSetup.at_gprs_list_active_contexts true ++ calls
     ++ match calls with
        | [AtmodemSetup.g_at_chat_send _] =>
          AtmodemSetup.at_cgdcont_act_read_cb ok2 lines2 ld
        | _ => []
        end).

(* the command is among the calls *)
Definition sends (cmd : string) (calls : list AtmodemSetup.call) : bool :=
  existsb (fun c => match c with
                    | AtmodemSetup.g_at_chat_send s => String.eqb s cmd
                    | _ => false
                    end) calls.

Definition is_register (c : AtmodemSetup.call) : bool :=
  match c with
  | AtmodemSetup.ofono_gprs_register => true
  | _ => false
  end.

Definition is_remove (c : AtmodemSetup.call) : bool :=
  match c with
  | AtmodemSetup.ofono_gprs_remove => true
  | _ => false
  end.

(* the probing of a modem of the given vendor, from at_gprs_probe to the
   end, when every command sent is answered: the reply to AT+CGDCONT=? goes
   to at_cgdcont_test_cb, the one to AT+CGREG=? to at_cgreg_test_cb, the
   one to AT+CGEREP=? to at_cgerep_test_cb and the one to the AT+CGEREP
   command that sets the mode to gprs_initialized *)
Definition probe (vendor : Atmodem.ofono_vendor)
    (ok1 : bool) (lines1 : list AtmodemSetup.cgdcont_test_line)
    (ok2 : bool) (lines2 : list (option (list (Z * Z))))
    (ok3 open1 : bool) (ranges1 : list (Z * Z)) (close1 open2 : bool)
    (ranges2 : list (Z * Z)) : list AtmodemSetup.call :=
  let gd := Atmodem.mk_gprs_data vendor (-1) false 0 in
  let c1 := AtmodemSetup.at_cgdcont_test_cb ok1 lines1 in
  let c2 := AtmodemSetup.at_cgreg_test_cb ok2 lines2 gd in
  let c3 := AtmodemSetup.at_cgerep_test_cb ok3 open1 ranges1 close1 open2
              ranges2 in
  [AtmodemSetup.g_at_chat_send "AT+CGDCONT=?"]
  ++ c1
  ++ (if sends "AT+CGREG=?" c1 then
        c2
        ++ (if sends "AT+CGEREP=?" c2 then
              c3
              ++ match c3 with
                 | [AtmodemSetup.g_at_chat_send _] =>
                   AtmodemSetup.gprs_initialized gd
                 | _ => []
                 end
            else if sends "AT+CGEREP=1,0" c2 || sends "AT+CGEREP=1" c2
            then AtmodemSetup.gprs_initialized gd
            else [])
      else []).

(* a word of an event text: not empty and without white space *)
Fixpoint no_space (s : string) : bool :=
  match s with
  | EmptyString => true
  | String c r => negb (is_space c) && no_space r
  end.

Definition word (s : string) : bool :=
  negb (String.eqb s "") && no_space s.

(* the driver data with another last_auto_context_id *)
Definition with_last_auto (n : Z) (gd : Atmodem.gprs_data)
  : Atmodem.gprs_data :=
  Atmodem.mk_gprs_data (Atmodem.vendor gd) n (Atmodem.telit_try_reattach gd)
    (Atmodem.attached gd).

(** *** The manager *)

(* what the manager keeps in the settings file, and the file *)
Definition stored (g : ofono_gprs) : bool * bool * option keyfile :=
  (powered g, roaming_allowed g, settings g).

Definition switches (g : ofono_gprs) : bool * bool :=
  (powered g, roaming_allowed g).

(* the driver answers the deactivation requests of DeactivateAll with
   success, one after the other.  gprs_deactivate_next asks for the first
   active context of the list, so that is the context whose callback
   runs. *)
Fixpoint answer_deactivations (fuel : nat) : M unit :=
  match fuel with
  | O => ret tt
  | S fuel' =>
    let* g := get in
    match list_find (fun c => active c = true) (contexts g) with
    | Some (i, _) =>
      gprs_deactivate_for_all i true ;; answer_deactivations fuel'
    | None => ret tt
    end
  end.

Definition is_pending_reply (e : effect) : bool :=
  match e with
  | ofono_dbus_pending_reply _ _ => true
  | _ => false
  end.

Definition is_deactivate (e : effect) : bool :=
  match e with
  | call_deactivate_primary _ _ _ _ => true
  | _ => false
  end.

(* neither a reply to a pending request nor a deactivation request *)
Definition quiet (e : effect) : bool :=
  negb (is_pending_reply e) && negb (is_deactivate e).

Definition count_active (g : ofono_gprs) : nat :=
  length (filter (fun c => active c = true) (contexts g)).

(* every active context is bound to a binding of the manager *)
Definition actives_bound (g : ofono_gprs) : Prop :=
  forall i c, contexts g !! i = Some c -> active c = true ->
    exists gc, context_driver c = Some gc
               /\ (gc < length (context_drivers g))%nat.

(* an active context bound to the only binding, with settings *)
Definition active_state : ofono_gprs :=
  exec (pri_activate_callback 0 true)
    (exec (driver_reports 0 (fun s => s))
       (exec (pri_set_property common_model 0 (set_active_msg 3 true))
          attached_idle_state)).

(* the signal [sig] of the manager interface *)
Definition is_signal (sig : string) (e : effect) : bool :=
  match e with
  | g_dbus_emit_signal s _ => String.eqb s sig
  | _ => false
  end.

Definition reset_msg (n : nat) : dbus_message := mk_message n [].

End Scenarios.

(** ** Properties *)

Import Gprs Statements.
Local Open Scope gprs_scope.

(** *** Running a computation: state, result and issued calls *)

Lemma run_eta {A} (m : M A) (g : ofono_gprs) :
  m g = (result m g, exec m g, trace m g).
Proof. unfold result, exec, trace. by destruct (m g) as [[a g1] e]. Qed.

Lemma exec_bind {A B} (m : M A) (f : A -> M B) g :
  exec (bind m f) g = exec (f (result m g)) (exec m g).
Proof.
  unfold exec, result, bind. destruct (m g) as [[a g1] e1]. simpl.
  by destruct (f a g1) as [[b g2] e2].
Qed.

Lemma result_bind {A B} (m : M A) (f : A -> M B) g :
  result (bind m f) g = result (f (result m g)) (exec m g).
Proof.
  unfold exec, result, bind. destruct (m g) as [[a g1] e1]. simpl.
  by destruct (f a g1) as [[b g2] e2].
Qed.

Lemma trace_bind {A B} (m : M A) (f : A -> M B) g :
  trace (bind m f) g = trace m g ++ trace (f (result m g)) (exec m g).
Proof.
  unfold exec, result, trace, bind. destruct (m g) as [[a g1] e1]. simpl.
  by destruct (f a g1) as [[b g2] e2].
Qed.

Lemma unit_result (m : M unit) g : result m g = tt.
Proof. by destruct (result m g). Qed.

Lemma run_unit (m : M unit) g : m g = (tt, exec m g, trace m g).
Proof. rewrite (run_eta m g). by rewrite unit_result. Qed.

Lemma exec_ret {A} (x : A) g : exec (ret x) g = g.
Proof. done. Qed.
Lemma result_ret {A} (x : A) g : result (ret x) g = x.
Proof. done. Qed.
Lemma trace_ret {A} (x : A) g : trace (ret x) g = [].
Proof. done. Qed.
Lemma exec_get g : exec get g = g.
Proof. done. Qed.
Lemma result_get g : result get g = g.
Proof. done. Qed.
Lemma trace_get g : trace get g = [].
Proof. done. Qed.
Lemma exec_modify f g : exec (modify f) g = f g.
Proof. done. Qed.
Lemma trace_modify f g : trace (modify f) g = [].
Proof. done. Qed.
Lemma exec_emit e g : exec (emit e) g = g.
Proof. done. Qed.
Lemma trace_emit e g : trace (emit e) g = [e].
Proof. done. Qed.
Lemma exec_when b m g : exec (when b m) g = if b then exec m g else g.
Proof. by destruct b. Qed.
Lemma trace_when b m g : trace (when b m) g = if b then trace m g else [].
Proof. by destruct b. Qed.
Lemma exec_ctx_update i f g :
  exec (ctx_update i f) g = with_contexts (alter f i (contexts g)) g.
Proof. done. Qed.
Lemma trace_ctx_update i f g : trace (ctx_update i f) g = [].
Proof. done. Qed.
Lemma exec_gc_update j f g :
  exec (gc_update j f) g
  = with_context_drivers (alter f j (context_drivers g)) g.
Proof. done. Qed.
Lemma trace_gc_update j f g : trace (gc_update j f) g = [].
Proof. done. Qed.
Lemma exec_set_flag m g :
  exec (set_flag m) g = with_flags (flag_set (flags g) m) g.
Proof. done. Qed.
Lemma trace_set_flag m g : trace (set_flag m) g = [].
Proof. done. Qed.
Lemma exec_clear_flag m g :
  exec (clear_flag m) g = with_flags (flag_clear (flags g) m) g.
Proof. done. Qed.
Lemma trace_clear_flag m g : trace (clear_flag m) g = [].
Proof. done. Qed.

Create Rewrite HintDb run.
#[export] Hint Rewrite @exec_bind @result_bind @trace_bind @exec_ret
  @result_ret @trace_ret exec_get result_get trace_get exec_modify
  trace_modify exec_emit trace_emit exec_when trace_when exec_ctx_update
  trace_ctx_update exec_gc_update trace_gc_update exec_set_flag
  trace_set_flag exec_clear_flag trace_clear_flag unit_result
  app_nil_r : run.

(* push [exec], [result] and [trace] through a straight-line computation *)
Ltac runs := repeat (progress (autorewrite with run; simpl)).
Ltac run_cases := runs; repeat (case_match; runs); try done.

(** *** Bit flags *)

Lemma land_pow2 f k :
  0 <= k -> Z.land f (2 ^ k) = if Z.testbit f k then 2 ^ k else 0.
Proof.
  intros Hk. apply Z.bits_inj'. intros n Hn.
  rewrite Z.land_spec, Z.pow2_bits_eqb by done.
  destruct (Z.eqb_spec k n) as [->|Hne].
  - destruct (Z.testbit f n) eqn:E; simpl.
    + by rewrite Z.pow2_bits_true.
    + by rewrite Z.bits_0.
  - rewrite andb_false_r. destruct (Z.testbit f k).
    + by rewrite Z.pow2_bits_false.
    + by rewrite Z.bits_0.
Qed.

Lemma flag_test_pow2 f k : 0 <= k -> flag_test f (2 ^ k) = Z.testbit f k.
Proof.
  intros Hk. unfold flag_test. rewrite land_pow2 by done.
  destruct (Z.testbit f k); [|done].
  assert (0 < 2 ^ k) by (apply Z.pow_pos_nonneg; lia).
  destruct (Z.eqb_spec (2 ^ k) 0); [lia|done].
Qed.

Lemma testbit_flag_set f k j :
  0 <= k -> 0 <= j ->
  Z.testbit (flag_set f (2 ^ k)) j = Z.testbit f j || (k =? j).
Proof.
  intros. unfold flag_set. by rewrite Z.lor_spec, Z.pow2_bits_eqb.
Qed.

Lemma testbit_flag_clear f k j :
  0 <= k -> 0 <= j ->
  Z.testbit (flag_clear f (2 ^ k)) j = Z.testbit f j && negb (k =? j).
Proof.
  intros. unfold flag_clear.
  by rewrite Z.land_spec, Z.lnot_spec, Z.pow2_bits_eqb.
Qed.

Lemma attaching_bit f : flag_test f GPRS_FLAG_ATTACHING = Z.testbit f 0.
Proof. by apply (flag_test_pow2 f 0). Qed.

Lemma recheck_bit f : flag_test f GPRS_FLAG_RECHECK = Z.testbit f 1.
Proof. by apply (flag_test_pow2 f 1). Qed.

Lemma attached_update_bit f :
  flag_test f GPRS_FLAG_ATTACHED_UPDATE = Z.testbit f 2.
Proof. by apply (flag_test_pow2 f 2). Qed.

(* the three flags are the bits 0, 1 and 2 *)
Ltac flag_bits :=
  change GPRS_FLAG_ATTACHING with (2 ^ 0);
  change GPRS_FLAG_RECHECK with (2 ^ 1);
  change GPRS_FLAG_ATTACHED_UPDATE with (2 ^ 2);
  rewrite ?flag_test_pow2, ?testbit_flag_set, ?testbit_flag_clear by done;
  simpl;
  rewrite ?orb_false_r, ?andb_true_r, ?orb_true_r, ?andb_false_r;
  try reflexivity.

Lemma recheck_after_set_attaching f :
  flag_test (flag_set f GPRS_FLAG_ATTACHING) GPRS_FLAG_RECHECK
  = flag_test f GPRS_FLAG_RECHECK.
Proof. flag_bits. Qed.

Lemma recheck_after_clear_attaching f :
  flag_test (flag_clear f GPRS_FLAG_ATTACHING) GPRS_FLAG_RECHECK
  = flag_test f GPRS_FLAG_RECHECK.
Proof. flag_bits. Qed.

Lemma recheck_after_set_attached_update f :
  flag_test (flag_set f GPRS_FLAG_ATTACHED_UPDATE) GPRS_FLAG_RECHECK
  = flag_test f GPRS_FLAG_RECHECK.
Proof. flag_bits. Qed.

Lemma recheck_after_set f :
  flag_test (flag_set f GPRS_FLAG_RECHECK) GPRS_FLAG_RECHECK = true.
Proof. flag_bits. Qed.

Lemma recheck_after_clear f :
  flag_test (flag_clear f GPRS_FLAG_RECHECK) GPRS_FLAG_RECHECK = false.
Proof. flag_bits. Qed.

Lemma attaching_after_set f :
  flag_test (flag_set f GPRS_FLAG_ATTACHING) GPRS_FLAG_ATTACHING = true.
Proof. flag_bits. Qed.

Lemma attaching_after_set_recheck f :
  flag_test (flag_set f GPRS_FLAG_RECHECK) GPRS_FLAG_ATTACHING
  = flag_test f GPRS_FLAG_ATTACHING.
Proof. flag_bits. Qed.

Lemma attaching_after_clear f :
  flag_test (flag_clear f GPRS_FLAG_ATTACHING) GPRS_FLAG_ATTACHING = false.
Proof. flag_bits. Qed.

(** *** The flags survive context teardown *)

Lemma release_context_flags i g :
  flags (exec (release_context i) g) = flags g.
Proof. unfold release_context. run_cases. Qed.

Lemma pri_reset_context_settings_flags i g :
  flags (exec (pri_reset_context_settings i) g) = flags g.
Proof.
  unfold pri_reset_context_settings, context_settings_free,
    pri_context_signal_settings, do_signal_settings.
  run_cases.
Qed.

Lemma pri_context_signal_active_exec i g :
  exec (pri_context_signal_active i) g = g.
Proof. unfold pri_context_signal_active. run_cases. Qed.

Lemma detach_active_context_flags i g :
  flags (exec (detach_active_context i) g) = flags g.
Proof.
  unfold detach_active_context. runs.
  destruct (contexts g !! i) as [ctx|]; [|done].
  destruct (negb (active ctx)); [done|].
  destruct (bool_decide _); [done|].
  destruct (context_driver ctx) as [gc|]; [|done].
  runs. rewrite pri_context_signal_active_exec, release_context_flags,
    pri_reset_context_settings_flags.
  by case_match.
Qed.

Lemma for_each_flags l body g :
  (forall i g, flags (exec (body i) g) = flags g) ->
  flags (exec (for_each l body) g) = flags g.
Proof.
  intros Hbody. revert g. induction l as [|i l IH]; intros g; simpl.
  - done.
  - by rewrite exec_bind, IH, Hbody.
Qed.

Lemma detach_active_contexts_flags g :
  flags (exec detach_active_contexts g) = flags g.
Proof.
  unfold detach_active_contexts. rewrite exec_bind.
  apply for_each_flags. apply detach_active_context_flags.
Qed.

Lemma gprs_set_attached_property_flags v g :
  flags (exec (gprs_set_attached_property v) g) = flags g.
Proof. unfold gprs_set_attached_property. run_cases. Qed.

(* gprs_attached_update may raise ATTACHED_UPDATE and nothing else *)
Lemma gprs_attached_update_recheck g :
  flag_test (flags (exec gprs_attached_update g)) GPRS_FLAG_RECHECK
  = flag_test (flags g) GPRS_FLAG_RECHECK.
Proof.
  unfold gprs_attached_update. runs.
  set (att := if on_lte g then _ else _).
  destruct (Bool.eqb att (attached g)); [done|].
  destruct (have_detachable_active_contexts g && negb (on_lte g)).
  - runs. destruct att; runs.
    + by rewrite recheck_after_set_attached_update,
        detach_active_contexts_flags.
    + rewrite gprs_set_attached_property_flags. simpl.
      by rewrite detach_active_contexts_flags.
  - runs. rewrite gprs_set_attached_property_flags. by destruct att.
Qed.

Lemma ofono_gprs_detached_notify_recheck g :
  flag_test (flags (exec ofono_gprs_detached_notify g)) GPRS_FLAG_RECHECK
  = flag_test (flags g) GPRS_FLAG_RECHECK.
Proof.
  unfold ofono_gprs_detached_notify. runs.
  destruct (flag_test (flags g) GPRS_FLAG_ATTACHING); [done|].
  runs. by rewrite gprs_attached_update_recheck.
Qed.

Lemma ofono_gprs_status_notify_recheck st g :
  flag_test (flags (exec (ofono_gprs_status_notify st) g)) GPRS_FLAG_RECHECK
  = flag_test (flags g) GPRS_FLAG_RECHECK.
Proof.
  unfold ofono_gprs_status_notify. runs.
  destruct (flag_test (flags g) GPRS_FLAG_ATTACHING); [done|].
  destruct (negb (status_registered st)).
  - by rewrite ofono_gprs_detached_notify_recheck.
  - destruct (negb (powered g) || _); runs.
    + apply recheck_after_set_attaching.
    + by rewrite gprs_attached_update_recheck.
Qed.

(** *** Creating a context *)

Lemma run_parts {A} (m : M A) g r g' e :
  m g = (r, g', e) -> result m g = r /\ exec m g = g' /\ trace m g = e.
Proof. unfold result, exec, trace. by intros ->. Qed.

(* add_context in closed form: the id it picks, the context it appends and
   the calls it issues *)
Lemma add_context_run C nm t g :
  add_context C nm t g =
  if Uintset.get_max (used_pids g) <? next_context_id g then (None, g, [])
  else
    match pri_context_create nm t with
    | None => (None, g, [ofono_error "Unable to allocate context struct"])
    | Some ctx0 =>
      let n := next_context_id g in
      if dbus_register_ok g then
        let ctx := with_key (context_key n)
                     (with_path (context_path (atom_path g) n)
                        (with_id n ctx0)) in
        let g1 := with_last_context_id n
                    (with_used_pids (Uintset.put (used_pids g) n) g) in
        (Some (length (contexts g)),
         with_contexts (contexts g ++ [ctx])
           match settings g with
           | Some kf => with_settings (Some (write_context_settings C kf ctx)) g1
           | None => g1
           end,
         match settings g with
         | Some _ => [storage_sync]
         | None => []
         end)
      else
        (None,
         with_used_pids (Uintset.take (Uintset.put (used_pids g) n) n)
           (with_used_pids (Uintset.put (used_pids g) n) g),
         [ofono_error "Could not register PrimaryContext";
          ofono_error "Unable to register primary context"])
    end.
Proof.
  rewrite (run_eta (add_context C nm t) g).
  unfold add_context, context_dbus_register, store_context. runs.
  destruct (Uintset.get_max (used_pids g) <? next_context_id g); runs;
    [done|].
  destruct (pri_context_create nm t) as [ctx0|]; runs; [|done].
  destruct (dbus_register_ok g); runs; [|done].
  destruct (settings g); runs; done.
Qed.

Lemma pri_context_create_type nm t ctx :
  pri_context_create nm t = Some ctx -> type ctx = t.
Proof.
  unfold pri_context_create. intros H.
  destruct (match nm with Some n => Some n | None => _ end); [|done].
  by inversion H.
Qed.

Lemma count_ia_app l c :
  length (filter (fun c => is_ia c = true) (l ++ [c]))
  = (length (filter (fun c => is_ia c = true) l)
     + if is_ia c then 1 else 0)%nat.
Proof.
  rewrite filter_app, length_app. f_equal.
  rewrite filter_cons, filter_nil. destruct (is_ia c) eqn:E.
  - by rewrite decide_True.
  - by rewrite decide_False by congruence.
Qed.

Lemma count_ia_alter f i l :
  (forall c, is_ia (f c) = true -> is_ia c = true) ->
  (length (filter (fun c => is_ia c = true) (alter f i l))
   <= length (filter (fun c => is_ia c = true) l))%nat.
Proof.
  intros Hf. revert i. induction l as [|c l IH]; intros i; [done|].
  destruct i as [|i]; simpl; rewrite !filter_cons.
  - destruct (decide (is_ia (f c) = true)) as [E|E].
    + rewrite decide_True by auto. done.
    + case_decide; simpl; [apply Nat.le_succ_diag_r|done].
  - specialize (IH i). case_decide; simpl; [by apply le_n_S|done].
Qed.

(** C10 (amended). Parsing a context type undoes printing exactly for
    internet, mms, wap, ims and supl.  The IA type prints as "ia", which the
    parser does not accept: AddContext("ia") is answered with invalid-format
    and changes nothing, and neither AddContext nor a Type assignment raises
    the number of IA-typed contexts.  ResetContexts does not go through the
    parser: it rebuilds the list from the provisioning database, and an
    IA-typed entry there becomes an IA-typed context. *)
Theorem context_type_parse_print (C : common) (g : ofono_gprs) (n : nat) :
  (forall t,
     gprs_context_type_to_string t ≫= gprs_context_string_to_type = Some t
     <-> In t [OFONO_GPRS_CONTEXT_TYPE_INTERNET; OFONO_GPRS_CONTEXT_TYPE_MMS;
               OFONO_GPRS_CONTEXT_TYPE_WAP; OFONO_GPRS_CONTEXT_TYPE_IMS;
               OFONO_GPRS_CONTEXT_TYPE_SUPL])
  /\ gprs_context_type_to_string OFONO_GPRS_CONTEXT_TYPE_IA = Some "ia"
  /\ gprs_context_string_to_type "ia" = None
  /\ gprs_add_context C (add_msg n "ia") g
     = (Some ofono_error_invalid_format, g, [])
  /\ (forall msg, count_ia (exec (gprs_add_context C msg) g) = count_ia g)
  /\ (forall i m v,
        (count_ia (exec (pri_set_type i m v) g) <= count_ia g)%nat)
  /\ (lowest_type (ap_type ia_entry) = OFONO_GPRS_CONTEXT_TYPE_IA
      /\ count_ia created = 0%nat
      /\ result (gprs_reset_contexts common_model (mk_message n [])
                   (Some [ia_entry])) created
         = Some method_return
      /\ count_ia (exec (gprs_reset_contexts common_model (mk_message n [])
                           (Some [ia_entry])) created)
         = 1%nat).
Proof.
  split; [|split; [done|split; [done|split; [done|split; [|split]]]]].
  4: { vm_compute. by repeat split. }
  - intros t. split.
    + destruct t; simpl; intros H; try discriminate; tauto.
    + simpl. intros [<-|[<-|[<-|[<-|[<-|[]]]]]]; reflexivity.
  - intros msg. unfold gprs_add_context, count_ia.
    destruct (body msg) as [|[typestr| | |] [|? ?]]; try done.
    destruct (gprs_context_string_to_type typestr) as [t|] eqn:Ht; [|done].
    runs. pose proof (add_context_run C
      (Some match gprs_context_default_name t with
            | Some n0 => n0
            | None => typestr
            end) t g) as Hadd.
    destruct (Uintset.get_max (used_pids g) <? next_context_id g);
      [by apply run_parts in Hadd as (-> & -> & _)|].
    destruct (pri_context_create _ t) as [ctx0|] eqn:Hc;
      [|by apply run_parts in Hadd as (-> & -> & _)].
    destruct (dbus_register_ok g);
      [|by apply run_parts in Hadd as (-> & -> & _)].
    cbv zeta in Hadd. apply run_parts in Hadd as (-> & -> & _).
    assert (Hnot : is_ia (with_key (context_key (next_context_id g))
                     (with_path
                        (context_path (atom_path g) (next_context_id g))
                        (with_id (next_context_id g) ctx0))) = false).
    { apply pri_context_create_type in Hc. unfold is_ia. simpl. rewrite Hc.
      apply bool_decide_eq_false_2. intros ->. clear -Ht.
      unfold gprs_context_string_to_type in Ht. repeat case_match; done. }
    destruct (settings g); runs; rewrite lookup_app_r, Nat.sub_diag by done;
      runs; rewrite count_ia_app, Hnot; lia.
  - intros i m v. unfold pri_set_type, pri_set_enum, count_ia. runs.
    destruct (contexts g !! i) as [ctx|]; [|done].
    destruct (gprs_context_string_to_type v) as [t|] eqn:Ht; [|done].
    destruct (bool_decide (type ctx = t)); [done|].
    unfold store_context_key. runs.
    assert (Hle : (length (filter (fun c => is_ia c = true)
                             (alter (with_type t) i (contexts g)))
                   <= length (filter (fun c => is_ia c = true)
                                (contexts g)))%nat).
    { apply count_ia_alter. intros c. unfold is_ia. simpl.
      intros Hia%bool_decide_eq_true. subst t.
      unfold gprs_context_string_to_type in Ht. repeat case_match; done. }
    destruct (settings g); runs; [|done].
    case_match; runs; done.
Qed.

(** C10, as stated, fails: ResetContexts on a fresh manager whose
    provisioning database holds an initial-attach entry answers with a
    method return and leaves one IA-typed context in the list. *)
Lemma reset_contexts_creates_ia :
  ~ no_ia_over_bus_as_stated common_model
  /\ count_ia created = 0%nat
  /\ gprs_context_type_to_string
       <$> (type <$> contexts
              (exec (gprs_reset_contexts common_model (mk_message 1%nat [])
                       (Some [ia_entry])) created))
     = [Some "ia"].
Proof.
  split; [|by vm_compute].
  intros H.
  specialize (H (bus_ResetContexts (mk_message 1%nat []) (Some [ia_entry]))
                created).
  vm_compute in H. lia.
Qed.

(** *** The dialect layer *)

(* split on every integer comparison of a switch *)
Ltac eqb_cases :=
  repeat (match goal with
          | |- context [?a =? ?b] => destruct (Z.eqb_spec a b)
          end; simpl).

(** C8 (amended). The Huawei, Telit and SIMCom tables map into the Bearer
    enumeration and send every code they do not list to zero.  The u-blox
    table swaps 4 and 5, maps 8 and 9 to 1 and 2, and forwards every other
    state unchanged: the states 0..9 land in the enumeration, a state outside
    them is forwarded as it is. *)
Theorem bearer_tables :
  (unknown_to_zero Atmodem.huawei_submode_bearer huawei_known
   /\ forall x, is_bearer (Atmodem.huawei_submode_bearer x))
  /\ (unknown_to_zero Atmodem.telit_nt_bearer telit_known
      /\ forall x, is_bearer (Atmodem.telit_nt_bearer x))
  /\ (unknown_to_zero Atmodem.simcom_stat_bearer simcom_known
      /\ forall x, is_bearer (Atmodem.simcom_stat_bearer x))
  /\ (Atmodem.ublox_state_bearer 4 = 5 /\ Atmodem.ublox_state_bearer 5 = 4
      /\ Atmodem.ublox_state_bearer 8 = 1 /\ Atmodem.ublox_state_bearer 9 = 2
      /\ (forall x, ~ In x [4; 5; 8; 9] -> Atmodem.ublox_state_bearer x = x)
      /\ forall x, In x ublox_known -> is_bearer (Atmodem.ublox_state_bearer x)).
Proof.
  unfold unknown_to_zero, is_bearer, Atmodem.huawei_submode_bearer,
    Atmodem.telit_nt_bearer, Atmodem.simcom_stat_bearer,
    Atmodem.ublox_state_bearer, PACKET_BEARER_NONE, PACKET_BEARER_GPRS,
    PACKET_BEARER_EGPRS, PACKET_BEARER_UMTS, PACKET_BEARER_HSDPA,
    PACKET_BEARER_HSUPA, PACKET_BEARER_HSUPA_HSDPA, PACKET_BEARER_EPS.
  split; [|split; [|split]].
  - split.
    + intros x Hx. simpl in Hx. eqb_cases; try done; exfalso; apply Hx; lia.
    + intros x. eqb_cases; lia.
  - split.
    + intros x Hx. simpl in Hx. eqb_cases; try done; exfalso; apply Hx; lia.
    + intros x. eqb_cases; lia.
  - split.
    + intros x Hx. simpl in Hx. eqb_cases; try done; exfalso; apply Hx; lia.
    + intros x. eqb_cases; lia.
  - split; [done|split; [done|split; [done|split; [done|split]]]].
    + intros x Hx. simpl in Hx. eqb_cases; try done; exfalso; apply Hx; lia.
    + intros x Hx. simpl in Hx. eqb_cases; lia.
Qed.

(** C8, as stated, fails for u-blox: +UREG state 10 is outside the known
    states and is reported to the core as bearer 10, not as zero. *)
Lemma ublox_unknown_state_not_zero :
  ~ unknown_to_zero Atmodem.ublox_state_bearer ublox_known
  /\ Atmodem.ublox_ureg_notify true (Some 10)
     = [Atmodem.ofono_gprs_bearer_notify 10].
Proof.
  split; [|done]. intros H. specialize (H 10). vm_compute in H.
  assert (10 = 0) by (apply H; intros Hin; intuition discriminate).
  discriminate.
Qed.

(** C9. When the status field of +XDATASTAT cannot be read the handler still
    reaches its switch, on the stale value of [stat]: a stale 0 notifies a
    suspend and a stale 1 a resume, where the claim wants no notification. *)
Theorem xdatastat_unreadable_still_notifies :
  Atmodem.xdatastat_notify true None 0
  = [Atmodem.ofono_gprs_suspend_notify GPRS_SUSPENDED_UNKNOWN_CAUSE]
  /\ Atmodem.xdatastat_notify true None 1 = [Atmodem.ofono_gprs_resume_notify]
  /\ forall stale, Atmodem.xdatastat_notify true None stale
                   = Atmodem.xdatastat_notify true (Some stale) stale.
Proof. done. Qed.

(** C6 (amended). On Telit, +CGREG: 0 while attached with the flag clear
    queues exactly one AT+CGATT=1, raises the flag and reports nothing; while
    the flag is up a network or mobile detach event is dropped; the next
    +CGREG, whatever its status, queues no re-attach, lowers the flag and is
    reported to the core.  So exactly one re-attach precedes the delayed
    re-registration; a second +CGREG: 0 that arrives while the flag is up is
    reported as status 0 rather than ignored, and one that arrives after any
    reported +CGREG queues a re-attach again. *)
Theorem telit_reattach_once (gd : Atmodem.gprs_data) (st : Z)
    (ev : string) (sc : option Z) (uninit : Z) :
  Atmodem.vendor gd = Atmodem.OFONO_VENDOR_TELIT ->
  Atmodem.truth (Atmodem.attached gd) = true ->
  Atmodem.telit_try_reattach gd = false ->
  ev = "NW DETACH" \/ ev = "ME DETACH" ->
  let raised :=
    Atmodem.mk_gprs_data (Atmodem.vendor gd)
      (Atmodem.last_auto_context_id gd) true (Atmodem.attached gd) in
  Atmodem.cgreg_notify (Some 0) gd
  = (raised, [Atmodem.g_at_chat_send "AT+CGATT=1"])
  /\ Atmodem.cgev_notify (Some ev) sc uninit raised = (raised, [])
  /\ Atmodem.cgreg_notify (Some st) raised
     = (gd, [Atmodem.ofono_gprs_status_notify st])
  /\ Atmodem.reattach_count
       (snd (Atmodem.run [Atmodem.CGREG (Some 0);
                          Atmodem.CGEV (Some ev) sc uninit;
                          Atmodem.CGREG (Some st)] gd)) = 1%nat
  /\ Atmodem.reattach_count
       (snd (Atmodem.run [Atmodem.CGREG (Some 0); Atmodem.CGREG (Some st);
                          Atmodem.CGREG (Some 0)] gd)) = 2%nat.
Proof.
  intros Hv Ha Hf Hev raised.
  assert (H1 : Atmodem.cgreg_notify (Some 0) gd
               = (raised, [Atmodem.g_at_chat_send "AT+CGATT=1"])).
  { unfold Atmodem.cgreg_notify. rewrite decide_True by done.
    by rewrite Ha, Hf. }
  assert (H2 : Atmodem.cgev_notify (Some ev) sc uninit raised = (raised, [])).
  { unfold Atmodem.cgev_notify.
    assert (g_str_equal ev "NW DETACH" || g_str_equal ev "ME DETACH" = true)
      as -> by (destruct Hev as [-> | ->]; done).
    simpl. by rewrite bool_decide_eq_true_2. }
  assert (H3 : forall s, Atmodem.cgreg_notify (Some s) raised
               = (gd, [Atmodem.ofono_gprs_status_notify s])).
  { intros s. unfold Atmodem.cgreg_notify. simpl.
    rewrite decide_True by done. rewrite andb_false_r.
    destruct gd; simpl in *; by subst. }
  repeat split; try done.
  - cbn [Atmodem.run Atmodem.handle]. by rewrite H1, H2, H3.
  - cbn [Atmodem.run Atmodem.handle]. by rewrite H1, H3, H1.
Qed.

Lemma telit_reattach_once_witness :
  Atmodem.vendor telit_attached = Atmodem.OFONO_VENDOR_TELIT
  /\ Atmodem.truth (Atmodem.attached telit_attached) = true
  /\ Atmodem.telit_try_reattach telit_attached = false
  /\ Atmodem.reattach_count
       (snd (Atmodem.run [Atmodem.CGREG (Some 0);
                          Atmodem.CGEV (Some "NW DETACH") None 0;
                          Atmodem.CGREG (Some 1)] telit_attached)) = 1%nat.
Proof.
  split; [reflexivity|]. split; [reflexivity|]. split; [reflexivity|].
  apply (telit_reattach_once telit_attached 1 "NW DETACH" None 0);
    [reflexivity|reflexivity|reflexivity|left; reflexivity].
Defined.

(** C6, as stated, fails: a second +CGREG: 0 right after the first queues no
    re-attach but is not ignored, status 0 is reported to the core and the
    flag is lowered; and a second spurious detach after the delayed
    re-registration queues a second re-attach. *)
Lemma telit_second_detach_reported :
  ~ second_detach_ignored telit_attached
  /\ Atmodem.cgreg_notify (Some 0)
       (fst (Atmodem.cgreg_notify (Some 0) telit_attached))
     = (telit_attached, [Atmodem.ofono_gprs_status_notify 0])
  /\ snd (Atmodem.run [Atmodem.CGREG (Some 0); Atmodem.CGREG (Some 1);
                       Atmodem.CGREG (Some 0)] telit_attached)
     = [Atmodem.g_at_chat_send "AT+CGATT=1";
        Atmodem.ofono_gprs_status_notify 1;
        Atmodem.g_at_chat_send "AT+CGATT=1"].
Proof.
  split; [|split; reflexivity].
  unfold second_detach_ignored. intros (_ & _ & H). vm_compute in H.
  discriminate.
Qed.

(** *** The attach state machine *)

Lemma want_attach_spec g :
  want_attach g
  = powered g
    && (((netreg_status g =? NETWORK_REGISTRATION_STATUS_REGISTERED)
         || (netreg_status g
             =? NETWORK_REGISTRATION_STATUS_REGISTERED_SMS_EUTRAN))
        || (roaming_allowed g
            && ((netreg_status g =? NETWORK_REGISTRATION_STATUS_ROAMING)
                || (netreg_status g
                    =? NETWORK_REGISTRATION_STATUS_ROAMING_SMS_EUTRAN)))).
Proof. unfold want_attach. apply andb_comm. Qed.

(** C1. With a known circuit-domain status and off the LTE auto-context
    path, gprs_netreg_update computes
    want = powered && (status in {registered, sms-eutran}
                       || roaming_allowed && status in {roaming,
                                                        roaming-sms-eutran});
    it leaves the state alone when want is the driver's attach state, only
    raises RECHECK (no other flag bit moves, no call is made) while ATTACHING
    is up, and otherwise raises ATTACHING, stores want in driver_attached and
    issues the single call set_attached(want).  When the status callback that
    ends an attach runs, RECHECK is untouched by the status processing; if it
    was raised it is cleared and gprs_netreg_update runs again. *)
Theorem netreg_update_attach_machine (g : ofono_gprs) :
  0 <= netreg_status g -> on_lte g = false ->
  let want :=
    powered g
    && (((netreg_status g =? NETWORK_REGISTRATION_STATUS_REGISTERED)
         || (netreg_status g
             =? NETWORK_REGISTRATION_STATUS_REGISTERED_SMS_EUTRAN))
        || (roaming_allowed g
            && ((netreg_status g =? NETWORK_REGISTRATION_STATUS_ROAMING)
                || (netreg_status g
                    =? NETWORK_REGISTRATION_STATUS_ROAMING_SMS_EUTRAN)))) in
  gprs_netreg_update g
  = (if Bool.eqb want (driver_attached g) then (tt, g, @nil effect)
     else if flag_test (flags g) GPRS_FLAG_ATTACHING
     then (tt, with_flags (flag_set (flags g) GPRS_FLAG_RECHECK) g, [])
     else (tt,
           with_driver_attached want
             (with_flags (flag_set (flags g) GPRS_FLAG_ATTACHING) g),
           [call_set_attached want]))
  /\ flag_test (flag_set (flags g) GPRS_FLAG_RECHECK) GPRS_FLAG_RECHECK = true
  /\ (forall j, 0 <= j -> j <> 1 ->
        Z.testbit (flag_set (flags g) GPRS_FLAG_RECHECK) j
        = Z.testbit (flags g) j)
  /\ flag_test (flag_set (flags g) GPRS_FLAG_ATTACHING) GPRS_FLAG_ATTACHING
     = true
  /\ forall (ok : bool) (st : Z),
       let phase :=
         clear_flag GPRS_FLAG_ATTACHING ;;
         (if ok then ofono_gprs_status_notify st else gprs_attached_update) in
       let g1 := exec phase g in
       let g2 := with_flags (flag_clear (flags g1) GPRS_FLAG_RECHECK) g1 in
       flag_test (flags g1) GPRS_FLAG_RECHECK
       = flag_test (flags g) GPRS_FLAG_RECHECK
       /\ flag_test (flags g2) GPRS_FLAG_RECHECK = false
       /\ registration_status_cb ok st g
          = if flag_test (flags g) GPRS_FLAG_RECHECK
            then (tt, exec gprs_netreg_update g2,
                  trace phase g ++ trace gprs_netreg_update g2)
            else (tt, g1, trace phase g).
Proof.
  intros Hst Hlte want.
  assert (Hwant : want_attach g = want) by apply want_attach_spec.
  clearbody want.
  split; [|split; [|split; [|split]]].
  - rewrite (run_unit gprs_netreg_update g). unfold gprs_netreg_update. runs.
    destruct (Z.ltb_spec (netreg_status g) 0); [lia|].
    rewrite Hlte, Hwant.
    replace (Bool.eqb (driver_attached g) want)
      with (Bool.eqb want (driver_attached g))
      by (by destruct (driver_attached g), want).
    destruct (Bool.eqb want (driver_attached g)); runs; [done|].
    destruct (flag_test (flags g) GPRS_FLAG_ATTACHING); runs; done.
  - apply recheck_after_set.
  - intros j Hj Hne. change GPRS_FLAG_RECHECK with (2 ^ 1).
    rewrite testbit_flag_set by done.
    destruct (Z.eqb_spec 1 j); [lia|apply orb_false_r].
  - apply attaching_after_set.
  - intros ok st phase g1 g2.
    assert (Hkeep : flag_test (flags g1) GPRS_FLAG_RECHECK
                    = flag_test (flags g) GPRS_FLAG_RECHECK).
    { unfold g1, phase. runs. destruct ok.
      - rewrite ofono_gprs_status_notify_recheck. simpl.
        apply recheck_after_clear_attaching.
      - rewrite gprs_attached_update_recheck. simpl.
        apply recheck_after_clear_attaching. }
    split; [done|]. split; [apply recheck_after_clear|].
    assert (Hg1 : g1 = exec (if ok then ofono_gprs_status_notify st
                             else gprs_attached_update)
                         (with_flags (flag_clear (flags g)
                                        GPRS_FLAG_ATTACHING) g))
      by (unfold g1, phase; by runs).
    assert (Htr : trace phase g
                  = trace (if ok then ofono_gprs_status_notify st
                           else gprs_attached_update)
                      (with_flags (flag_clear (flags g)
                                     GPRS_FLAG_ATTACHING) g))
      by (unfold phase; by runs).
    rewrite (run_unit (registration_status_cb ok st) g).
    unfold registration_status_cb. rewrite Htr. clearbody g1. subst g2. runs.
    rewrite <- Hg1, Hkeep.
    destruct (flag_test (flags g) GPRS_FLAG_RECHECK); runs; done.
Qed.

Lemma netreg_update_attach_machine_witness :
  let g := with_powered true
             (with_netreg_status NETWORK_REGISTRATION_STATUS_REGISTERED
                created) in
  0 <= netreg_status g /\ on_lte g = false
  /\ gprs_netreg_update g
     = (tt, with_driver_attached true
              (with_flags (flag_set (flags g) GPRS_FLAG_ATTACHING) g),
        [call_set_attached true]).
Proof.
  intros g. split; [vm_compute; discriminate|]. split; [reflexivity|].
  apply (netreg_update_attach_machine g); [vm_compute; discriminate|reflexivity].
Defined.

(** *** The identifier bitmaps *)

Lemma ffz_bound (l : list bool) :
  (Uintset.find_first_zero_bit l <= length l)%nat.
Proof. induction l as [|[] l IH]; simpl; lia. Qed.

Lemma ffz_before (l : list bool) (j : nat) :
  (j < Uintset.find_first_zero_bit l)%nat -> l !! j = Some true.
Proof.
  revert j. induction l as [|[] l IH]; intros j Hj; simpl in *; try lia.
  destruct j as [|j]; [done|]. apply IH. lia.
Qed.

Lemma ffz_at (l : list bool) :
  (Uintset.find_first_zero_bit l < length l)%nat ->
  l !! Uintset.find_first_zero_bit l = Some false.
Proof.
  induction l as [|[] l IH]; simpl; intros H; try lia; [|done].
  apply IH. lia.
Qed.

Lemma contains_index (s : Uintset.t) (j : nat) (b : bool) :
  Uintset.wf s -> Uintset.bits s !! j = Some b ->
  Uintset.contains s (Z.of_nat j + Uintset.umin s) = b.
Proof.
  intros [Hle Hsz] Hj. unfold Uintset.contains, Uintset.in_range.
  apply lookup_lt_Some in Hj as Hlt. unfold Uintset.size in Hsz.
  replace (Z.to_nat (Z.of_nat j + Uintset.umin s - Uintset.umin s)) with j
    by lia.
  rewrite Hj. simpl.
  destruct (Z.leb_spec (Uintset.umin s) (Z.of_nat j + Uintset.umin s));
    [|lia].
  destruct (Z.leb_spec (Z.of_nat j + Uintset.umin s) (Uintset.umax s));
    [done|lia].
Qed.

Lemma contains_at (s : Uintset.t) (m : Z) (b : bool) :
  Uintset.wf s -> Uintset.umin s <= m ->
  Uintset.bits s !! Z.to_nat (m - Uintset.umin s) = Some b ->
  Uintset.contains s m = b.
Proof.
  intros Hwf Hm Hb.
  replace m with (Z.of_nat (Z.to_nat (m - Uintset.umin s)) + Uintset.umin s)
    by lia.
  by apply contains_index.
Qed.

(* l_uintset_find_unused_min returns the least number not in the set *)
Lemma find_unused_min_spec (s : Uintset.t) :
  Uintset.wf s -> Uintset.find_unused_min s <= Uintset.umax s ->
  min_unused s (Uintset.find_unused_min s).
Proof.
  intros Hwf. pose proof Hwf as [Hle Hsz]. unfold Uintset.find_unused_min.
  pose proof (ffz_bound (Uintset.bits s)) as Hb. unfold Uintset.size in *.
  destruct (Nat.leb_spec (length (Uintset.bits s))
              (Uintset.find_first_zero_bit (Uintset.bits s))) as [Hfull|Hfree];
    [lia|].
  intros _. split; [|split].
  - apply contains_index; [done|]. by apply ffz_at.
  - lia.
  - intros m Hm. apply contains_at; [done|lia|]. apply ffz_before. lia.
Qed.

(* l_uintset_find_unused returns the first free number from [start] on,
   wrapping around to the least free number *)
Lemma find_unused_spec (s : Uintset.t) (start : Z) :
  Uintset.wf s -> Uintset.find_unused s start <= Uintset.umax s ->
  first_unused_from s start (Uintset.find_unused s start).
Proof.
  intros Hwf. pose proof Hwf as [Hle Hsz]. unfold Uintset.find_unused.
  unfold Uintset.size in *.
  destruct ((start <? Uintset.umin s) || (Uintset.umax s <? start)) eqn:Hr;
    [lia|].
  apply orb_false_iff in Hr as [Hlo Hhi].
  apply Z.ltb_ge in Hlo, Hhi.
  set (k0 := Z.to_nat (start - Uintset.umin s)).
  unfold Uintset.find_next_zero_bit. cbv zeta.
  set (rest := drop k0 (Uintset.bits s)).
  pose proof (ffz_bound rest) as Hrest.
  assert (Hlen : length rest = (length (Uintset.bits s) - k0)%nat)
    by apply length_drop.
  destruct (Nat.leb_spec (length (Uintset.bits s))
              (k0 + Uintset.find_first_zero_bit rest)) as [Hwrap|Hfound].
  - (* nothing free from [start] on: wrap around *)
    pose proof (ffz_bound (Uintset.bits s)) as Hb.
    destruct (Nat.leb_spec (length (Uintset.bits s))
                (Uintset.find_first_zero_bit (Uintset.bits s)))
      as [Hfull|Hfree]; [lia|].
    intros _.
    assert (Htail : forall j, (k0 <= j < length (Uintset.bits s))%nat ->
                              Uintset.bits s !! j = Some true).
    { intros j Hj. replace j with (k0 + (j - k0))%nat by lia.
      rewrite <- lookup_drop. apply ffz_before. fold rest. lia. }
    assert (Hlt : (Uintset.find_first_zero_bit (Uintset.bits s) < k0)%nat).
    { destruct (Nat.ltb_spec (Uintset.find_first_zero_bit (Uintset.bits s))
                  k0) as [|Hge]; [done|].
      pose proof (ffz_at _ Hfree) as Hz.
      rewrite Htail in Hz by lia. discriminate. }
    split; [|split].
    + apply contains_index; [done|]. by apply ffz_at.
    + lia.
    + right. split; [lia|]. split.
      * intros m Hm. apply contains_at; [done|lia|]. apply Htail. lia.
      * intros m Hm. apply contains_at; [done|lia|]. apply ffz_before. lia.
  - destruct (Nat.leb_spec (length (Uintset.bits s))
                (k0 + Uintset.find_first_zero_bit rest)); [lia|].
    intros _. split; [|split].
    + apply contains_index; [done|]. rewrite <- lookup_drop. fold rest.
      apply ffz_at. lia.
    + lia.
    + left. split; [lia|]. intros m Hm. apply contains_at; [done|lia|].
      replace (Z.to_nat (m - Uintset.umin s))
        with (k0 + (Z.to_nat (m - Uintset.umin s) - k0))%nat by lia.
      rewrite <- lookup_drop. fold rest. apply ffz_before. lia.
Qed.

Lemma wf_put (s : Uintset.t) (n : Z) : Uintset.wf s -> Uintset.wf (Uintset.put s n).
Proof.
  unfold Uintset.wf, Uintset.put, Uintset.size.
  destruct (Uintset.in_range s n); [|done]. simpl.
  by rewrite length_insert.
Qed.

Lemma wf_take (s : Uintset.t) (n : Z) : Uintset.wf s -> Uintset.wf (Uintset.take s n).
Proof.
  unfold Uintset.wf, Uintset.take, Uintset.size.
  destruct (Uintset.in_range s n); [|done]. simpl.
  by rewrite length_insert.
Qed.

Lemma wf_new_from_range (lo hi : Z) :
  lo <= hi -> Uintset.wf (Uintset.new_from_range lo hi).
Proof.
  intros H. unfold Uintset.wf, Uintset.new_from_range, Uintset.size. simpl.
  rewrite length_replicate. lia.
Qed.

Lemma contains_put_same (s : Uintset.t) (n : Z) :
  Uintset.wf s -> Uintset.umin s <= n <= Uintset.umax s ->
  Uintset.contains (Uintset.put s n) n = true.
Proof.
  intros [Hle Hsz] Hn. unfold Uintset.size in Hsz.
  unfold Uintset.contains, Uintset.put, Uintset.in_range.
  destruct (Z.leb_spec (Uintset.umin s) n); [|lia].
  destruct (Z.leb_spec n (Uintset.umax s)); [|lia]. simpl.
  destruct (Z.leb_spec (Uintset.umin s) n); [|lia].
  destruct (Z.leb_spec n (Uintset.umax s)); [|lia]. simpl.
  rewrite list_lookup_insert_eq by lia. done.
Qed.

Lemma contains_take_same (s : Uintset.t) (n : Z) :
  Uintset.wf s -> Uintset.contains (Uintset.take s n) n = false.
Proof.
  intros [Hle Hsz]. unfold Uintset.size in Hsz.
  unfold Uintset.contains, Uintset.take, Uintset.in_range.
  destruct ((Uintset.umin s <=? n) && (n <=? Uintset.umax s)) eqn:Hr.
  - simpl. rewrite Hr. simpl. apply andb_true_iff in Hr as [H1 H2].
    apply Z.leb_le in H1, H2. rewrite list_lookup_insert_eq by lia. done.
  - by rewrite Hr.
Qed.

(** *** Identifier allocation *)

Lemma created_pids_wf drv p : Uintset.wf (used_pids (ofono_gprs_create drv p)).
Proof. by apply wf_new_from_range. Qed.

(* what a successful assign_context leaves behind *)
Lemma assign_context_ok i c g ctx used gc :
  contexts g !! i = Some ctx -> used_cids g = Some used ->
  let use := if c =? 0 then Uintset.find_unused_min used else c in
  (Uintset.get_max used <? use) = false ->
  find_avail_gprs_context g ctx = Some gc ->
  let g' := exec (assign_context i c) g in
  result (assign_context i c) g = true
  /\ trace (assign_context i c) g = []
  /\ contexts g'
     = alter (with_context_driver (Some gc)) i
         (alter (fun x => with_context (with_cid use (context x)) x) i
            (contexts g))
  /\ context_drivers g'
     = alter (fun d => with_gc_settings
                         (alloc_settings (proto (context ctx)) (gc_settings d))
                         d) gc
         (alter (with_inuse true) gc (context_drivers g))
  /\ used_cids g' = Some (Uintset.put used use)
  /\ flags g' = flags g /\ attached g' = attached g
  /\ used_pids g' = used_pids g /\ pending g' = pending g.
Proof.
  intros Hctx Hu use Hmax Hgc g'. unfold g', assign_context. runs.
  rewrite Hctx, Hu. runs. fold use. rewrite Hmax, Hgc. runs. done.
Qed.

(* a failed assign_context changes nothing *)
Lemma assign_context_failed i c g :
  result (assign_context i c) g = false ->
  assign_context i c g = (false, g, []).
Proof.
  rewrite (run_eta (assign_context i c) g). unfold assign_context. runs.
  destruct (contexts g !! i) as [ctx|]; runs; [|done].
  destruct (used_cids g) as [used|]; runs; [|done].
  destruct (Uintset.get_max used <? _); runs; [done|].
  destruct (find_avail_gprs_context g ctx); runs; done.
Qed.

(* a successful assign_context went through every check *)
Lemma assign_context_success i c g :
  result (assign_context i c) g = true ->
  exists ctx used gc,
    contexts g !! i = Some ctx /\ used_cids g = Some used
    /\ (Uintset.get_max used
        <? (if c =? 0 then Uintset.find_unused_min used else c)) = false
    /\ find_avail_gprs_context g ctx = Some gc.
Proof.
  unfold assign_context. runs.
  destruct (contexts g !! i) as [ctx|] eqn:Hctx; runs; [|done].
  destruct (used_cids g) as [used|] eqn:Hu; runs; [|done].
  destruct (Uintset.get_max used <? _) eqn:Hmax; runs; [done|].
  destruct (find_avail_gprs_context g ctx) as [gc|] eqn:Hgc; runs; [|done].
  intros _. by exists ctx, used, gc.
Qed.

(** C7 (amended). A context activated by the user (use_cid = 0) gets the
    least cid that is not in used_cids; a context bound by an auto-activation
    report gets the cid the modem named.  A new context gets the least unused
    pid only while last_context_id is 0; otherwise add_context and
    provision_context take the first unused pid at or after last_context_id,
    wrapping around to the least unused one when none is left above. *)
Theorem new_ids_taken (C : common) (g : ofono_gprs) :
  Uintset.wf (used_pids g) ->
  (forall u, used_cids g = Some u -> Uintset.wf u) ->
  (forall nm t i,
     result (add_context C nm t) g = Some i ->
     exists ctx,
       contexts (exec (add_context C nm t) g) !! i = Some ctx
       /\ id ctx = next_context_id g
       /\ (last_context_id g = 0 -> min_unused (used_pids g) (id ctx))
       /\ (last_context_id g <> 0 ->
           first_unused_from (used_pids g) (last_context_id g) (id ctx)))
  /\ (forall ap,
        contexts (exec (provision_context C ap) g) = contexts g
        \/ exists ctx,
             contexts (exec (provision_context C ap) g) = contexts g ++ [ctx]
             /\ id ctx = next_context_id g
             /\ (last_context_id g = 0 -> min_unused (used_pids g) (id ctx))
             /\ (last_context_id g <> 0 ->
                 first_unused_from (used_pids g) (last_context_id g)
                   (id ctx)))
  /\ (forall i u,
        used_cids g = Some u -> result (assign_context i 0) g = true ->
        exists ctx,
          contexts (exec (assign_context i 0) g) !! i = Some ctx
          /\ min_unused u (cid (context ctx)))
  /\ (forall i c,
        c <> 0 -> result (assign_context i c) g = true ->
        exists ctx,
          contexts (exec (assign_context i c) g) !! i = Some ctx
          /\ cid (context ctx) = c).
Proof.
  intros Hwf Hwfc.
  assert (Hnext : next_context_id g <= Uintset.umax (used_pids g) ->
    (last_context_id g = 0 -> min_unused (used_pids g) (next_context_id g))
    /\ (last_context_id g <> 0 ->
        first_unused_from (used_pids g) (last_context_id g)
          (next_context_id g))).
  { intros Hle. unfold next_context_id in *.
    destruct (Z.eqb_spec (last_context_id g) 0) as [H0|H0]; simpl in *.
    - split; [|done]. intros _. by apply find_unused_min_spec.
    - split; [done|]. intros _. by apply find_unused_spec. }
  split; [|split; [|split]].
  - intros nm t i Hres.
    pose proof (add_context_run C nm t g) as Hadd.
    destruct (Z.ltb_spec (Uintset.get_max (used_pids g)) (next_context_id g))
      as [|Hle];
      [apply run_parts in Hadd as (Hr & _); congruence|].
    destruct (pri_context_create nm t) as [ctx0|];
      [|apply run_parts in Hadd as (Hr & _); congruence].
    cbv zeta in Hadd.
    destruct (dbus_register_ok g);
      [|apply run_parts in Hadd as (Hr & _); congruence].
    apply run_parts in Hadd as (Hr & Hx & _).
    rewrite Hr in Hres. inversion Hres; subst i. rewrite Hx.
    eexists. split.
    + simpl. rewrite lookup_app_r, Nat.sub_diag by done. reflexivity.
    + split; [done|]. simpl. by apply Hnext.
  - intros ap. unfold provision_context.
    repeat (match goal with
            | |- context [if ?b then ret tt else _] =>
              destruct b; [by left|]
            end).
    runs.
    destruct (Z.ltb_spec (Uintset.get_max (used_pids g)) (next_context_id g))
      as [|Hle]; [by left|].
    destruct (pri_context_create (ap_name ap) (lowest_type (ap_type ap)))
      as [ctx0|]; [|by left].
    unfold context_dbus_register, store_context. runs.
    destruct (dbus_register_ok g); runs; [|by left].
    right. eexists. split.
    + destruct (settings g); runs; reflexivity.
    + split; [by case_bool_decide|]. 
      replace (id _) with (next_context_id g) by (by case_bool_decide).
      by apply Hnext.
  - intros i u Hu Hres.
    destruct (assign_context_success _ _ _ Hres)
      as (ctx & used & gc & Hctx & Hused & Hmax & Hgc).
    rewrite Hu in Hused. inversion Hused; subst used.
    destruct (assign_context_ok i 0 g ctx u gc Hctx Hu Hmax Hgc)
      as (_ & _ & Hc & _).
    rewrite Hc. rewrite !list_lookup_alter_eq, Hctx. simpl.
    eexists. split; [reflexivity|]. simpl.
    apply find_unused_min_spec; [by apply Hwfc|].
    simpl in Hmax. apply Z.ltb_ge in Hmax. exact Hmax.
  - intros i c Hc Hres.
    destruct (assign_context_success _ _ _ Hres)
      as (ctx & used & gc & Hctx & Hused & Hmax & Hgc).
    destruct (assign_context_ok i c g ctx used gc Hctx Hused Hmax Hgc)
      as (_ & _ & Hcs & _).
    rewrite Hcs. rewrite !list_lookup_alter_eq, Hctx. simpl.
    eexists. split; [reflexivity|]. simpl.
    destruct (Z.eqb_spec c 0); [done|done].
Qed.

Lemma new_ids_taken_witness :
  Uintset.wf (used_pids created)
  /\ (forall u, used_cids created = Some u -> Uintset.wf u)
  /\ exists ctx,
       contexts (exec (add_context common_model None
                         OFONO_GPRS_CONTEXT_TYPE_INTERNET) created) !! 0%nat
       = Some ctx
       /\ id ctx = 1.
Proof.
  assert (Hc : forall u, used_cids created = Some u -> Uintset.wf u).
  { intros u Hu. inversion Hu. by apply wf_new_from_range. }
  split; [apply created_pids_wf|]. split; [exact Hc|].
  destruct (new_ids_taken common_model created (created_pids_wf _ _) Hc)
    as (Hadd & _).
  destruct (Hadd None OFONO_GPRS_CONTEXT_TYPE_INTERNET 0%nat eq_refl)
    as (ctx & Hctx & Hid & _).
  exists ctx. split; [exact Hctx|]. rewrite Hid. reflexivity.
Defined.

(** C7, as stated, fails for pids.  After AddContext for three contexts and
    RemoveContext of the first, pid 1 is the least unused one, yet the next
    context gets pid 4, the first unused pid after last_context_id = 3. *)
Lemma next_pid_not_minimum :
  ~ takes_min_unused_pid common_model pids_after_removal None
      OFONO_GPRS_CONTEXT_TYPE_INTERNET
  /\ Uintset.find_unused_min (used_pids pids_after_removal) = 1
  /\ (id <$> contexts (exec (add_context common_model None
                               OFONO_GPRS_CONTEXT_TYPE_INTERNET)
                         pids_after_removal))
     = [2; 3; 4].
Proof.
  split; [|split; vm_compute; reflexivity].
  intros H. specialize (H 2%nat). unfold takes_min_unused_pid in H.
  vm_compute in H. specialize (H _ eq_refl eq_refl). discriminate.
Qed.

(** *** Activation requests *)

(** C2 (amended). SetProperty("Active", v) on a context answers busy when the
    manager or the context has a pending request; otherwise it succeeds at
    once, with no call and no state change, when v is the current value;
    otherwise it answers not-attached when v is true and the manager is not
    attached; otherwise attach-in-progress when ATTACHING is up; only then
    does it bind the context and call the driver. *)
Theorem set_active_precedence (C : common) (g : ofono_gprs) (i : nat)
    (ctx : pri_context) (n : nat) (v : bool) :
  contexts g !! i = Some ctx ->
  let r := pri_set_property C i (set_active_msg n v) g in
  let busy := bool_decide (pending g <> None)
              || bool_decide (ctx_pending ctx <> None) in
  (busy = true -> r = (Some ofono_error_busy, g, []))
  /\ (busy = false -> active ctx = v -> r = (Some method_return, g, []))
  /\ (busy = false -> active ctx <> v -> v = true -> attached g = false ->
      r = (Some ofono_error_not_attached, g, []))
  /\ (busy = false -> active ctx <> v -> v = false \/ attached g = true ->
      flag_test (flags g) GPRS_FLAG_ATTACHING = true ->
      r = (Some ofono_error_attach_in_progress, g, []))
  /\ (busy = false -> active ctx <> v -> v = false \/ attached g = true ->
      flag_test (flags g) GPRS_FLAG_ATTACHING = false ->
      fst (fst r) = None
      \/ fst (fst r) = Some ofono_error_not_implemented).
Proof.
  intros Hctx r busy.
  assert (Hr : r = pri_set_active i n (DBUS_TYPE_BOOLEAN v) g) by done.
  rewrite (run_eta (pri_set_active i n (DBUS_TYPE_BOOLEAN v)) g) in Hr.
  unfold pri_set_active in Hr. clearbody r. revert Hr. runs. rewrite Hctx.
  unfold busy. clear busy.
  destruct (bool_decide (pending g <> None)); runs;
    [intros ->; repeat split; done|].
  destruct (bool_decide (ctx_pending ctx <> None)); runs;
    [intros ->; repeat split; done|].
  destruct (Bool.eqb_spec (active ctx) v) as [Heq|Hne]; runs;
    [intros ->; repeat split; done|].
  destruct v; simpl.
  - destruct (attached g) eqn:Ha; simpl; runs.
    + destruct (flag_test (flags g) GPRS_FLAG_ATTACHING); runs.
      * intros ->. repeat split; done.
      * intros ->. repeat split; try done.
        intros _ _ _ _. simpl.
        destruct (result (assign_context i 0) g); runs; auto.
    + intros ->. repeat split; try done; intros _ _ [|]; done.
  - destruct (flag_test (flags g) GPRS_FLAG_ATTACHING); runs.
    + intros ->. repeat split; done.
    + intros ->. repeat split; try done. intros. by left.
Qed.

Lemma set_active_precedence_witness :
  exists ctx,
    contexts attaching_state !! 0%nat = Some ctx
    /\ pri_set_property common_model 0 (set_active_msg 7 true) attaching_state
       = (Some ofono_error_not_attached, attaching_state, []).
Proof.
  eexists. split; [reflexivity|].
  eapply (set_active_precedence common_model attaching_state 0 _ 7 true);
    [reflexivity|reflexivity|discriminate|reflexivity|reflexivity].
Defined.

(** C2, as stated, fails: with ATTACHING up, no request pending, the manager
    detached and an idle context, SetProperty("Active", true) is answered
    not-attached, not attach-in-progress. *)
Lemma set_active_not_attached_first :
  ~ set_active_as_listed common_model attaching_state 0 7 true
  /\ flag_test (flags attaching_state) GPRS_FLAG_ATTACHING = true
  /\ fst (fst (pri_set_property common_model 0 (set_active_msg 7 true)
                 attaching_state))
     = Some ofono_error_not_attached.
Proof.
  split; [|split; reflexivity].
  intros H. unfold set_active_as_listed in H.
  destruct (H _ eq_refl) as (_ & H2 & _).
  specialize (H2 eq_refl eq_refl). vm_compute in H2. discriminate.
Qed.

(** *** Suspension *)

Lemma reachable_run_events C drv p l g :
  reachable C drv p g -> reachable C drv p (exec (run_events C l) g).
Proof.
  revert g. induction l as [|e l IH]; intros g Hg; simpl; [done|].
  rewrite exec_bind. apply IH. by constructor.
Qed.

(** C3 (amended). The suspended flag is kept whatever the attach state; what
    depends on attached is its visibility.  A suspend notification with a
    definite cause (detached, call, no coverage) sets the flag at once; one
    with an ambiguous cause (signalling, unknown) leaves the flag and arms
    the timer of SUSPEND_TIMEOUT seconds, whose expiry sets the flag; a
    resume notification clears it.  None of them changes attached.  The
    Suspended signal is emitted exactly when the flag changes while
    attached, and GetProperties lists Suspended exactly when attached. *)
Theorem suspended_shown_only_when_attached (g : ofono_gprs) (v : bool)
    (cause : gprs_suspend_cause) :
  let immediate :=
    match cause with
    | GPRS_SUSPENDED_DETACHED | GPRS_SUSPENDED_CALL
    | GPRS_SUSPENDED_NO_COVERAGE => true
    | GPRS_SUSPENDED_SIGNALLING | GPRS_SUSPENDED_UNKNOWN_CAUSE => false
    end in
  let signal (b : bool) :=
    [ofono_dbus_signal_property_changed (atom_path g)
       OFONO_CONNECTION_MANAGER_INTERFACE "Suspended" (DBUS_TYPE_BOOLEAN b)] in
  let signals {A} (m : M A) (g0 : ofono_gprs) :=
    filter (fun e => is_suspended_signal e = true) (trace m g0) in
  (suspended (exec (ofono_gprs_suspend_notify cause) g)
   = if immediate then true else suspended g)
  /\ suspend_timeout (exec (ofono_gprs_suspend_notify cause) g)
     = (if immediate then 0 else 1)
  /\ (immediate = false ->
      In (g_timeout_add_seconds SUSPEND_TIMEOUT)
         (trace (ofono_gprs_suspend_notify cause) g))
  /\ suspended (exec suspend_timeout_cb g) = true
  /\ suspended (exec suspend_timeout_cb
                  (exec (ofono_gprs_suspend_notify cause) g)) = true
  /\ suspended (exec ofono_gprs_resume_notify g) = false
  /\ attached (exec (ofono_gprs_suspend_notify cause) g) = attached g
  /\ attached (exec suspend_timeout_cb g) = attached g
  /\ attached (exec ofono_gprs_resume_notify g) = attached g
  /\ signals (ofono_gprs_suspend_notify cause) g
     = (if immediate && attached g && negb (suspended g) then signal true
        else [])
  /\ signals suspend_timeout_cb g
     = (if attached g && negb (suspended g) then signal true else [])
  /\ signals ofono_gprs_resume_notify g
     = (if attached g && suspended g then signal false else [])
  /\ suspended (exec (update_suspended_property v) g) = v
  /\ signals (update_suspended_property v) g
     = (if attached g && negb (Bool.eqb (suspended g) v) then signal v
        else [])
  /\ lists_property "Suspended" (gprs_get_properties g) = attached g.
Proof.
  intros immediate signal signals. subst immediate signal signals.
  cbv beta.
  assert (Hupd : forall b g',
            attached (exec (update_suspended_property b) g') = attached g'
            /\ suspended (exec (update_suspended_property b) g') = b
            /\ suspend_timeout (exec (update_suspended_property b) g') = 0
            /\ atom_path (exec (update_suspended_property b) g')
               = atom_path g'
            /\ filter (fun e => is_suspended_signal e = true)
                 (trace (update_suspended_property b) g')
               = (if attached g' && negb (Bool.eqb (suspended g') b)
                  then [ofono_dbus_signal_property_changed (atom_path g')
                          OFONO_CONNECTION_MANAGER_INTERFACE "Suspended"
                          (DBUS_TYPE_BOOLEAN b)]
                  else [])).
  { intros b g'. unfold update_suspended_property. runs.
    destruct (Z.eqb_spec (suspend_timeout g') 0) as [E0|E0]; runs;
      destruct (Bool.eqb_spec (suspended g') b) as [Eb|Eb]; runs;
      rewrite ?andb_false_r; try done;
      destruct (attached g') eqn:E; runs; done. }
  assert (Hcb : forall g',
            suspended (exec suspend_timeout_cb g') = true
            /\ attached (exec suspend_timeout_cb g') = attached g'
            /\ filter (fun e => is_suspended_signal e = true)
                 (trace suspend_timeout_cb g')
               = (if attached g' && negb (suspended g')
                  then [ofono_dbus_signal_property_changed (atom_path g')
                          OFONO_CONNECTION_MANAGER_INTERFACE "Suspended"
                          (DBUS_TYPE_BOOLEAN true)]
                  else [])).
  { intros g'. unfold suspend_timeout_cb. runs.
    destruct (Hupd true (with_suspend_timeout 0 g'))
      as (H1 & H2 & _ & _ & H5).
    rewrite H1, H2, H5. simpl. split; [done|]. split; [done|].
    by destruct (attached g'), (suspended g'). }
  destruct (Hupd true g) as (U1 & U2 & U3 & _ & U5).
  destruct (Hupd false g) as (V1 & V2 & _ & _ & V5).
  destruct (Hupd v g) as (W1 & W2 & _ & _ & W5).
  destruct (Hcb g) as (C1 & C2 & C3).
  destruct (Hcb (exec (ofono_gprs_suspend_notify cause) g)) as (D1 & _ & _).
  unfold ofono_gprs_resume_notify.
  split_and!; try done.
  - destruct cause; simpl; try done; runs;
      by destruct (negb (suspend_timeout g =? 0)).
  - destruct cause; simpl; try done; runs;
      by destruct (negb (suspend_timeout g =? 0)).
  - destruct cause; simpl; try done; intros _; runs;
      destruct (negb (suspend_timeout g =? 0)); runs;
      rewrite ?in_app_iff; simpl; tauto.
  - destruct cause; simpl; try done; runs;
      by destruct (negb (suspend_timeout g =? 0)).
  - destruct cause; simpl; rewrite ?andb_true_l, ?U5; runs;
      try (by destruct (attached g), (suspended g));
      by destruct (negb (suspend_timeout g =? 0)).
  - rewrite V5. by destruct (attached g), (suspended g).
  - unfold gprs_get_properties, lists_property.
    rewrite !existsb_app. simpl.
    destruct (bearer g =? -1), (attached g); done.
Qed.

(** C3, as stated, fails: on the created manager, which is not attached, a
    suspend notification with a definite cause sets the flag at once, and one
    with an ambiguous cause sets it when the 8 s timer fires. *)
Lemma suspended_without_attached :
  ~ (forall g, reachable common_model full_driver "/modem" g ->
               suspended_implies_attached g)
  /\ ~ suspended_implies_attached
         (exec (run_events common_model
                  [ev_suspend_notify GPRS_SUSPENDED_SIGNALLING;
                   ev_suspend_timeout]) created).
Proof.
  split.
  - intros H.
    specialize (H (exec (run_events common_model
                           [ev_suspend_notify GPRS_SUSPENDED_CALL]) created)).
    assert (Hf : false = true); [|discriminate Hf].
    apply H; [|reflexivity].
    apply reachable_run_events. constructor.
  - intros H. assert (Hf : false = true); [|discriminate Hf].
    apply H. reflexivity.
Qed.

(** *** Auto-activation reports *)

Lemma find_avail_spec g ctx gc :
  find_avail_gprs_context g ctx = Some gc ->
  exists d drv,
    context_drivers g !! gc = Some d /\ gc_driver d = Some drv
    /\ inuse d = false /\ activate_primary drv = true
    /\ deactivate_primary drv = true.
Proof.
  unfold find_avail_gprs_context. intros H.
  destruct (list_find _ _) as [[j d]|] eqn:Hf; [|done].
  simpl in H. inversion H; subst j.
  apply list_find_Some in Hf as (Hd & Hav & _).
  unfold gc_available in Hav.
  destruct (inuse d) eqn:Hin; [done|].
  destruct (gc_driver d) as [drv|] eqn:Hdrv; [|done].
  simpl in Hav. apply andb_true_iff in Hav as [Hav _].
  apply andb_true_iff in Hav as [Ha Hde]. by exists d, drv.
Qed.

(* the context a report is matched to is the first one, in list order,
   whose APN is a prefix of the reported one *)
Lemma find_usable_context_spec g v i :
  find_usable_context g v = Some i ->
  exists ctx,
    contexts g !! i = Some ctx
    /\ l_str_has_prefix v (apn (context ctx)) = true
    /\ forall j ctx', contexts g !! j = Some ctx' -> (j < i)%nat ->
                      l_str_has_prefix v (apn (context ctx')) = false.
Proof.
  unfold find_usable_context.
  destruct (list_find _ (contexts g)) as [[j ctx]|] eqn:Hf.
  - intros H. inversion H; subst j.
    apply list_find_Some in Hf as (Hc & Hp & Hbefore).
    exists ctx. split; [done|]. split; [done|].
    intros j ctx' Hj Hlt. specialize (Hbefore j ctx' Hj Hlt).
    by apply not_true_is_false.
  - destruct (list_find (fun c => apn (context c) = "") (contexts g))
      as [[j ctx]|] eqn:He; [|done].
    intros _. exfalso.
    apply list_find_Some in He as (Hc & Hempty & _).
    apply list_find_None in Hf.
    rewrite Forall_forall in Hf. apply (Hf ctx).
    + apply list_elem_of_lookup. by exists j.
    + rewrite Hempty. unfold l_str_has_prefix. by destruct v.
Qed.

(* the fallback loop of find_usable_context never decides: an empty APN is
   a prefix of every APN *)
Lemma find_usable_context_first_loop g v :
  find_usable_context g v
  = fst <$> list_find (fun c => l_str_has_prefix v (apn (context c)) = true)
              (contexts g).
Proof.
  unfold find_usable_context.
  destruct (list_find _ (contexts g)) as [[j ctx]|] eqn:Hf; [done|].
  destruct (list_find (fun c => apn (context c) = "") (contexts g))
    as [[j ctx]|] eqn:He; [|done].
  exfalso. apply list_find_Some in He as (Hc & Hempty & _).
  apply list_find_None in Hf. rewrite Forall_forall in Hf. apply (Hf ctx).
  + apply list_elem_of_lookup. by exists j.
  + rewrite Hempty. unfold l_str_has_prefix. by destruct v.
Qed.

Lemma release_context_bound i g ctx gc :
  contexts g !! i = Some ctx -> context_driver ctx = Some gc ->
  let g' := exec (release_context i) g in
  trace (release_context i) g = []
  /\ contexts g'
     = alter (with_active false) i
         (alter (with_context_driver None) i
            (alter (fun x => with_context (with_cid 0 (context x)) x) i
               (contexts g)))
  /\ context_drivers g' = alter (with_inuse false) gc (context_drivers g)
  /\ used_cids g'
     = (fun u => Uintset.take u (cid (context ctx))) <$> used_cids g.
Proof.
  intros Hctx Hgc g'. unfold g', release_context. runs.
  rewrite Hctx, Hgc. runs. done.
Qed.

Lemma add_context_no_read_settings C nm t g :
  read_settings_calls (snd (add_context C nm t g)) = [].
Proof.
  rewrite add_context_run.
  destruct (Uintset.get_max (used_pids g) <? next_context_id g); [done|].
  destruct (pri_context_create nm t); [|done].
  cbv zeta. destruct (dbus_register_ok g); [|done].
  by destruct (settings g).
Qed.

(* a context added for a report is an idle internet context named after the
   reported APN, with no APN of its own yet *)
Lemma add_context_fresh C v g i :
  fst (fst (add_context C (Some v) OFONO_GPRS_CONTEXT_TYPE_INTERNET g))
  = Some i ->
  i = length (contexts g)
  /\ exists ctx,
       contexts (snd (fst (add_context C (Some v)
                             OFONO_GPRS_CONTEXT_TYPE_INTERNET g))) !! i
       = Some ctx
       /\ type ctx = OFONO_GPRS_CONTEXT_TYPE_INTERNET /\ name ctx = v
       /\ apn (context ctx) = "" /\ active ctx = false
       /\ context_driver ctx = None.
Proof.
  rewrite add_context_run.
  destruct (Uintset.get_max (used_pids g) <? next_context_id g); [done|].
  simpl. destruct (dbus_register_ok g); [|done]. simpl.
  intros H. inversion H. split; [done|]. eexists. split.
  - rewrite lookup_app_r, Nat.sub_diag by done. reflexivity.
  - done.
Qed.

(* where the code's choice is the one of the sentence: always, except when
   it takes a context with an empty APN although another one matches by
   prefix *)
Lemma find_usable_context_agrees g v :
  (find_usable_context g v = None
   <-> find_usable_context_as_stated g v = None)
  /\ forall i ctx,
       find_usable_context g v = Some i -> contexts g !! i = Some ctx ->
       (apn (context ctx) = ""
        \/ l_str_has_prefix v (apn (context ctx)) = true)
       /\ (apn (context ctx) <> "" \/ no_prefix_match g v ->
           find_usable_context_as_stated g v = Some i).
Proof.
  assert (Hempty : l_str_has_prefix v "" = true)
    by (unfold l_str_has_prefix; by destruct v).
  rewrite find_usable_context_first_loop.
  unfold find_usable_context_as_stated. split.
  - split.
    + intros Hn.
      destruct (list_find _ (contexts g)) as [[j c]|] eqn:Hf; [done|].
      clear Hn. apply list_find_None in Hf. rewrite Forall_forall in Hf.
      destruct (list_find (fun c => apn (context c) <> "" /\ _) (contexts g))
        as [[j c]|] eqn:Hq.
      { apply list_find_Some in Hq as (Hl & [_ Hp] & _). exfalso.
        apply (Hf c); [|done]. apply list_elem_of_lookup. by exists j. }
      destruct (list_find (fun c => apn (context c) = "") (contexts g))
        as [[j c]|] eqn:He; [|done].
      apply list_find_Some in He as (Hl & Hc & _). exfalso.
      apply (Hf c); [|by rewrite Hc]. apply list_elem_of_lookup.
      by exists j.
    + intros Hn.
      destruct (list_find (fun c => l_str_has_prefix v (apn (context c))
                                    = true) (contexts g))
        as [[j c]|] eqn:Hf; [|done].
      exfalso. apply list_find_Some in Hf as (Hl & Hp & _).
      destruct (list_find (fun c => apn (context c) <> "" /\ _) (contexts g))
        as [[j' c']|] eqn:Hq; [done|].
      apply list_find_None in Hq. rewrite Forall_forall in Hq.
      destruct (list_find (fun c => apn (context c) = "") (contexts g))
        as [[j' c']|] eqn:He; [done|].
      apply list_find_None in He. rewrite Forall_forall in He.
      assert (Hin : c ∈ contexts g)
        by (apply list_elem_of_lookup; by exists j).
      apply (Hq c Hin). split; [by apply He|done].
  - intros i ctx Hi Hctx.
    destruct (list_find (fun c => l_str_has_prefix v (apn (context c))
                                  = true) (contexts g))
      as [[j c]|] eqn:Hf; [|done].
    simpl in Hi. inversion Hi; subst j. clear Hi.
    apply list_find_Some in Hf as (Hl & Hp & Hbefore).
    rewrite Hctx in Hl. inversion Hl; subst c. clear Hl.
    split; [by right|]. intros Hcase.
    destruct (decide (apn (context ctx) = "")) as [He|Hne].
    + destruct Hcase as [Hc|Hnone]; [done|].
      destruct (list_find (fun c => apn (context c) <> "" /\ _) (contexts g))
        as [[j' c']|] eqn:Hq.
      { apply list_find_Some in Hq as (Hl & [Hc1 Hc2] & _). exfalso.
        specialize (Hnone j' c' Hl Hc1). congruence. }
      assert (Hfe : list_find (fun c => apn (context c) = "") (contexts g)
                    = Some (i, ctx)).
      { apply list_find_Some. split_and!; try done.
        intros j c' Hj Hlt Hc'. apply (Hbefore j c' Hj Hlt).
        by rewrite Hc'. }
      by rewrite Hfe.
    + assert (Hfq : list_find (fun c => apn (context c) <> ""
                                        /\ l_str_has_prefix v
                                             (apn (context c)) = true)
                      (contexts g) = Some (i, ctx)).
      { apply list_find_Some. split_and!; try done.
        intros j c' Hj Hlt [_ Hc']. by apply (Hbefore j c' Hj Hlt). }
      by rewrite Hfq.
Qed.

(** C4 (amended). For a report with a valid APN and a cid that is not in
    used_cids, on a registered manager: the report goes to an existing
    context by APN prefix, else to one with an empty APN, else to a fresh
    idle internet-type context named after the reported APN, whose own APN
    is still empty.  (The choice is the one of this rule except possibly
    when a context with an empty APN is taken although another one matches
    by prefix; nothing is said about that case.)  If no context can be had
    or assign_context refuses (cid out of range, no free matching binding),
    nothing is bound and read_settings is not called.  If the context is
    bound and its driver implements read_settings, the context has the
    binding and the reported cid (the lowest unused one for a reported cid
    of 0), an empty APN becomes the reported one, and read_settings(cid) is
    called once; if the driver lacks read_settings the context is released
    and left inactive, the other contexts untouched. *)
Theorem cid_activated_outcome (C : common) (g : ofono_gprs) (c : Z)
    (v : string) :
  atom_registered g = true ->
  (forall u, used_cids g = Some u -> Uintset.contains u c = false) ->
  is_valid_apn C v = true -> strlen v <= OFONO_GPRS_MAX_APN_LENGTH ->
  let target :=
    match find_usable_context g v with
    | Some i => (Some i, g, [])
    | None => add_context C (Some v) OFONO_GPRS_CONTEXT_TYPE_INTERNET g
    end in
  let g1 := snd (fst target) in
  let r := ofono_gprs_cid_activated C c v g in
  (find_usable_context g v = None
   <-> find_usable_context_as_stated g v = None)
  /\ (forall i ctx,
        find_usable_context g v = Some i -> contexts g !! i = Some ctx ->
        (apn (context ctx) = ""
         \/ l_str_has_prefix v (apn (context ctx)) = true)
        /\ (apn (context ctx) <> "" \/ no_prefix_match g v ->
            find_usable_context_as_stated g v = Some i))
  /\ (forall i, find_usable_context g v = None ->
        fst (fst target) = Some i ->
        i = length (contexts g)
        /\ exists ctx,
             contexts g1 !! i = Some ctx
             /\ type ctx = OFONO_GPRS_CONTEXT_TYPE_INTERNET /\ name ctx = v
             /\ apn (context ctx) = "" /\ active ctx = false
             /\ context_driver ctx = None)
  /\ match fst (fst target) with
     | None => snd (fst r) = g1 /\ read_settings_calls (snd r) = []
     | Some i =>
       if result (assign_context i c) g1 then
         exists ctx gc d drv used,
           contexts g1 !! i = Some ctx
           /\ used_cids g1 = Some used
           /\ find_avail_gprs_context g1 ctx = Some gc
           /\ context_drivers g1 !! gc = Some d /\ gc_driver d = Some drv
           /\ if read_settings drv then
                bound_to (snd (fst r)) i gc
                  (if c =? 0 then Uintset.find_unused_min used else c)
                /\ read_settings_calls (snd r) = [call_read_settings gc c i]
                /\ exists ctx',
                     contexts (snd (fst r)) !! i = Some ctx'
                     /\ apn (context ctx')
                        = (if strlen (apn (context ctx)) =? 0 then v
                           else apn (context ctx))
                     /\ active ctx' = active ctx
              else
                released (snd (fst r)) i gc
                /\ read_settings_calls (snd r) = []
                /\ forall j, j <> i ->
                             contexts (snd (fst r)) !! j = contexts g1 !! j
       else snd (fst r) = g1 /\ read_settings_calls (snd r) = []
     end.
Proof.
  intros Hreg Hunused Hvalid Hlen target g1 r.
  destruct (find_usable_context_agrees g v) as [Hnone Hsome].
  split; [exact Hnone|]. split; [exact Hsome|].
  split.
  { intros i Hn Hi. unfold g1, target in *. rewrite Hn in *.
    by apply add_context_fresh. }
  assert (Htt : read_settings_calls (snd target) = []).
  { unfold target. destruct (find_usable_context g v); [done|].
    apply add_context_no_read_settings. }
  assert (Hr : r = ofono_gprs_cid_activated C c v g) by done.
  clearbody r. rewrite (run_unit (ofono_gprs_cid_activated C c v) g) in Hr.
  unfold ofono_gprs_cid_activated in Hr. revert Hr. runs.
  rewrite Hreg. simpl.
  assert (match used_cids g with
          | Some u => Uintset.contains u c
          | None => false
          end = false) as ->.
  { destruct (used_cids g) eqn:Hu; [by apply Hunused|done]. }
  assert ((OFONO_GPRS_MAX_APN_LENGTH <? strlen v)
          || negb (is_valid_apn C v) = false) as ->.
  { rewrite Hvalid. simpl. rewrite orb_false_r. by apply Z.ltb_ge. }
  runs.
  set (F := match find_usable_context g v with
            | Some i => ret (Some i)
            | None => add_context C (Some v) OFONO_GPRS_CONTEXT_TYPE_INTERNET
            end).
  assert (HF : F g = target).
  { unfold F, target. by destruct (find_usable_context g v). }
  assert (HFr : result F g = fst (fst target)) by (by rewrite <- HF).
  assert (HFx : exec F g = g1) by (unfold g1; by rewrite <- HF).
  assert (HFt : trace F g = snd target) by (by rewrite <- HF).
  rewrite HFr, HFx, HFt. clearbody F. clearbody g1. clear HF HFr HFx HFt.
  clear Hnone Hsome.
  unfold read_settings_calls in *.
  destruct (fst (fst target)) as [i|] eqn:Hi; runs.
  2: { intros ->. simpl. split; [done|]. by rewrite filter_app, Htt. }
  destruct (result (assign_context i c) g1) eqn:Hres; runs.
  2: { intros ->. simpl. apply assign_context_failed in Hres.
       apply run_parts in Hres as (_ & -> & ->). split; [done|].
       by rewrite filter_app, Htt. }
  destruct (assign_context_success _ _ _ Hres)
    as (ctx & used & gc & Hctx & Hused & Hmax & Hgc).
  destruct (find_avail_spec _ _ _ Hgc) as (d & drv & Hd & Hdrv & Hin & _).
  destruct (assign_context_ok i c g1 ctx used gc Hctx Hused Hmax Hgc)
    as (_ & Htr & Hcs & Hds & _).
  rewrite Htr, Hcs, !list_lookup_alter_eq, Hctx. simpl.
  rewrite Hds, !list_lookup_alter_eq, Hd. simpl. rewrite Hdrv.
  intros ->. exists ctx, gc, d, drv, used. repeat (split; [done|]).
  destruct (read_settings drv); simpl; runs.
  - rewrite !filter_app, Htt. simpl. unfold bound_to.
    destruct (strlen (apn (context ctx)) =? 0) eqn:Hapn; runs;
      rewrite Hcs, Hds, !list_lookup_alter_eq, Hctx, Hd; simpl.
    + split; [by eexists _, _|]. split; [done|]. by eexists.
    + split; [by eexists _, _|]. split; [done|]. by eexists.
  - assert (Hctx2 : contexts (exec (assign_context i c) g1) !! i
                    = Some (with_context_driver (Some gc)
                              (with_context
                                 (with_cid
                                    (if c =? 0
                                     then Uintset.find_unused_min used
                                     else c) (context ctx)) ctx))).
    { by rewrite Hcs, !list_lookup_alter_eq, Hctx. }
    destruct (release_context_bound i _ _ gc Hctx2 eq_refl)
      as (Hrt & Hrc & Hrd & _).
    unfold released.
    rewrite Hrt, Hrc, Hrd, Hcs, Hds. rewrite !filter_app, Htt. simpl.
    rewrite !list_lookup_alter_eq, Hctx, Hd. simpl.
    split; [by eexists _, _|]. split; [done|].
    intros j Hj. by rewrite !list_lookup_alter_ne.
Qed.

Lemma cid_activated_outcome_witness :
  let g := exec (ofono_gprs_add_context (any_binding true)) no_binding_state in
  atom_registered g = true
  /\ (forall u, used_cids g = Some u -> Uintset.contains u 5 = false)
  /\ is_valid_apn common_model "internet" = true
  /\ strlen "internet" <= OFONO_GPRS_MAX_APN_LENGTH
  /\ read_settings_calls
       (snd (ofono_gprs_cid_activated common_model 5 "internet" g))
     = [call_read_settings 0 5 0].
Proof.
  intros g.
  assert (H1 : atom_registered g = true) by reflexivity.
  assert (H2 : forall u, used_cids g = Some u -> Uintset.contains u 5 = false).
  { intros u Hu. inversion Hu. reflexivity. }
  assert (H3 : is_valid_apn common_model "internet" = true) by reflexivity.
  assert (H4 : strlen "internet" <= OFONO_GPRS_MAX_APN_LENGTH)
    by (vm_compute; discriminate).
  repeat (split; [assumption|]).
  destruct (cid_activated_outcome common_model g 5 "internet" H1 H2 H3 H4)
    as (_ & _ & _ & H).
  vm_compute in H.
  destruct H as (ctx & gc & d & drv & used & _ & _ & Hgc & Hd & Hdrv & H).
  inversion Hgc; subst gc. inversion Hd; subst d. inversion Hdrv; subst drv.
  destruct H as (_ & H & _). vm_compute. exact H.
Defined.

(** C4, as stated, fails: the manager's only binding is taken by the user's
    context when the modem reports cid 5 with the APN "ims".  The report
    creates a context named "ims" with an empty APN, binds nothing and calls
    no read_settings, although the binding's driver implements it.  The same
    happens when no binding was registered at all. *)
Lemma cid_activated_without_binding :
  ~ cid_activated_as_stated common_model busy_binding_state 5 "ims"
  /\ snd (ofono_gprs_cid_activated common_model 5 "ims" busy_binding_state)
     = [ofono_warn "Can't assign context to driver for APN."]
  /\ ((fun x => (name x, apn (context x), context_driver x))
      <$> contexts (snd (fst (ofono_gprs_cid_activated common_model 5 "ims"
                                busy_binding_state))))
     = [("Internet", "internet", Some 0%nat); ("ims", "", None)]
  /\ ~ cid_activated_as_stated common_model no_binding_state 5 "internet".
Proof.
  split; [|split; [reflexivity|split; [reflexivity|]]].
  - intros H. unfold cid_activated_as_stated in H.
    destruct H as (i & gc & d & drv & Hd & Hdrv & Hb & _).
    + reflexivity.
    + intros u Hu. inversion Hu. reflexivity.
    + reflexivity.
    + vm_compute. discriminate.
    + destruct gc as [|gc]; vm_compute in Hd; [|discriminate].
      inversion Hd; subst d. vm_compute in Hdrv. inversion Hdrv; subst drv.
      destruct (Hb eq_refl) as (_ & Hcalls). vm_compute in Hcalls.
      discriminate.
  - intros H. unfold cid_activated_as_stated in H.
    destruct H as (i & gc & d & drv & Hd & _).
    + reflexivity.
    + intros u Hu. inversion Hu. reflexivity.
    + reflexivity.
    + vm_compute. discriminate.
    + vm_compute in Hd. discriminate.
Qed.

(** *** Stored contexts *)

Lemma get_set_eq (kf : keyfile) grp k v :
  g_key_file_get_string (g_key_file_set_string kf grp k v) grp k = Some v.
Proof.
  unfold g_key_file_get_string, g_key_file_set_string.
  by rewrite !lookup_insert_eq.
Qed.

Lemma get_set_ne (kf : keyfile) grp k k' v :
  k <> k' ->
  g_key_file_get_string (g_key_file_set_string kf grp k v) grp k'
  = g_key_file_get_string kf grp k'.
Proof.
  intros Hne. unfold g_key_file_get_string, g_key_file_set_string.
  rewrite lookup_insert_eq, lookup_insert_ne by done.
  by destruct (kf !! grp).
Qed.

Lemma get_set_opt_eq (kf : keyfile) grp k v :
  g_key_file_get_string (set_string_opt kf grp k (Some v)) grp k = Some v.
Proof. apply get_set_eq. Qed.

Lemma get_set_opt_ne (kf : keyfile) grp k k' v :
  k <> k' ->
  g_key_file_get_string (set_string_opt kf grp k v) grp k'
  = g_key_file_get_string kf grp k'.
Proof. intros Hne. destruct v; [by apply get_set_ne|done]. Qed.

(* read a key back from a file that was just written *)
Ltac kf_get :=
  repeat first
    [ rewrite get_set_eq
    | rewrite get_set_opt_eq
    | rewrite get_set_ne by discriminate
    | rewrite get_set_opt_ne by discriminate ].

(* the group name of a context parses back to its id *)
Lemma sscanf_context_key n :
  1 <= n <= MAX_CONTEXTS -> sscanf_d "context" (context_key n) = Some n.
Proof.
  intros Hn. unfold MAX_CONTEXTS in Hn.
  assert (H : forallb
                (fun k => bool_decide
                            (sscanf_d "context" (context_key (Z.of_nat k))
                             = Some (Z.of_nat k)))
                (seq 1 256) = true) by (vm_compute; reflexivity).
  rewrite List.forallb_forall in H. specialize (H (Z.to_nat n)).
  rewrite Z2Nat.id in H by lia. apply bool_decide_eq_true in H; [done|].
  apply in_seq. lia.
Qed.

(* what write_context_settings leaves under the type key *)
Lemma written_type C kf ctx s :
  gprs_context_type_to_string (type ctx) = Some s ->
  g_key_file_get_string (write_context_settings C kf ctx) (key ctx) "Type"
  = Some s.
Proof.
  intros Hs. unfold write_context_settings. rewrite Hs.
  destruct (bool_decide (type ctx = OFONO_GPRS_CONTEXT_TYPE_MMS)); by kf_get.
Qed.

(* save, then load: the enumerated keys come back for the five types the
   parser knows *)
Lemma load_after_write_roundtrip (C : common) (kf : keyfile)
    (ctx : pri_context) :
  common_inverse C ->
  In (type ctx)
    [OFONO_GPRS_CONTEXT_TYPE_INTERNET; OFONO_GPRS_CONTEXT_TYPE_MMS;
     OFONO_GPRS_CONTEXT_TYPE_WAP; OFONO_GPRS_CONTEXT_TYPE_IMS;
     OFONO_GPRS_CONTEXT_TYPE_SUPL] ->
  1 <= id ctx <= MAX_CONTEXTS -> key ctx = context_key (id ctx) ->
  strlen (username (context ctx)) <= OFONO_GPRS_MAX_USERNAME_LENGTH ->
  strlen (password (context ctx)) <= OFONO_GPRS_MAX_PASSWORD_LENGTH ->
  apn (context ctx) = "" \/ is_valid_apn C (apn (context ctx)) = true ->
  exists ctx',
    load_context_fields C (write_context_settings C kf ctx) (key ctx)
    = Some (id ctx, false, ctx')
    /\ name ctx' = name ctx /\ type ctx' = type ctx
    /\ proto (context ctx') = proto (context ctx)
    /\ apn (context ctx') = apn (context ctx)
    /\ username (context ctx') = username (context ctx)
    /\ password (context ctx') = password (context ctx)
    /\ auth_method (context ctx') = auth_method (context ctx)
    /\ (type ctx = OFONO_GPRS_CONTEXT_TYPE_MMS ->
        message_proxy ctx' = message_proxy ctx
        /\ message_center ctx' = message_center ctx).
Proof.
  intros [Hproto Hauth] Htype Hid Hkey Huser Hpass Hapn.
  specialize (Hproto (proto (context ctx))).
  specialize (Hauth (auth_method (context ctx))).
  destruct (gprs_proto_to_string C (proto (context ctx))) as [sp|] eqn:Hsp;
    [|done].
  destruct (gprs_auth_method_to_string C (auth_method (context ctx)))
    as [sa|] eqn:Hsa; [|done].
  simpl in Hproto, Hauth.
  assert (Hts : exists st, gprs_context_type_to_string (type ctx) = Some st
                           /\ gprs_context_string_to_type st = Some (type ctx)).
  { simpl in Htype.
    destruct Htype as [<-|[<-|[<-|[<-|[<-|[]]]]]]; eexists; split; reflexivity. }
  destruct Hts as (st & Hst & Hparse).
  set (W := write_context_settings C kf ctx).
  assert (HName : g_key_file_get_string W (key ctx) "Name" = Some (name ctx)).
  { unfold W, write_context_settings. rewrite Hsp, Hsa, Hst.
    destruct (bool_decide _); by kf_get. }
  assert (HType : g_key_file_get_string W (key ctx) "Type" = Some st)
    by (by apply written_type).
  assert (HProto : g_key_file_get_string W (key ctx) "Protocol" = Some sp).
  { unfold W, write_context_settings. rewrite Hsp, Hsa, Hst.
    destruct (bool_decide _); by kf_get. }
  assert (HUser : g_key_file_get_string W (key ctx) "Username"
                  = Some (username (context ctx))).
  { unfold W, write_context_settings. rewrite Hsp, Hsa, Hst.
    destruct (bool_decide _); by kf_get. }
  assert (HPass : g_key_file_get_string W (key ctx) "Password"
                  = Some (password (context ctx))).
  { unfold W, write_context_settings. rewrite Hsp, Hsa, Hst.
    destruct (bool_decide _); by kf_get. }
  assert (HAuth : g_key_file_get_string W (key ctx) "AuthenticationMethod"
                  = Some sa).
  { unfold W, write_context_settings. rewrite Hsp, Hsa, Hst.
    destruct (bool_decide _); by kf_get. }
  assert (HApn : g_key_file_get_string W (key ctx) "AccessPointName"
                 = Some (apn (context ctx))).
  { unfold W, write_context_settings. rewrite Hsp, Hsa, Hst.
    destruct (bool_decide _); by kf_get. }
  assert (HMms : type ctx = OFONO_GPRS_CONTEXT_TYPE_MMS ->
                 g_key_file_get_string W (key ctx) "MessageProxy"
                 = Some (message_proxy ctx)
                 /\ g_key_file_get_string W (key ctx) "MessageCenter"
                    = Some (message_center ctx)).
  { intros Hm. unfold W, write_context_settings. rewrite Hsp, Hsa, Hst.
    rewrite bool_decide_eq_true_2 by done. by kf_get. }
  clearbody W. unfold load_context_fields.
  rewrite Hkey in *. rewrite sscanf_context_key by done.
  destruct (Z.ltb_spec (id ctx) 1); [lia|].
  destruct (Z.ltb_spec MAX_CONTEXTS (id ctx)); [lia|]. simpl.
  rewrite HName, HType, HProto, HUser, HPass, HAuth, HApn. simpl.
  rewrite Hparse. simpl. rewrite Hproto. simpl.
  destruct (Z.ltb_spec OFONO_GPRS_MAX_USERNAME_LENGTH
              (strlen (username (context ctx)))); [lia|].
  rewrite Hauth. simpl.
  destruct (Z.ltb_spec OFONO_GPRS_MAX_PASSWORD_LENGTH
              (strlen (password (context ctx)))); [lia|].
  assert (negb (g_str_equal (apn (context ctx)) "")
          && negb (is_valid_apn C (apn (context ctx))) = false) as ->.
  { destruct Hapn as [-> | ->]; [done|apply andb_false_r]. }
  eexists. split; [reflexivity|]. simpl. repeat (split; [done|]).
  intros Hm. destruct (HMms Hm) as [-> ->].
  rewrite bool_decide_eq_true_2 by done. done.
Qed.

(** C5. The round trip breaks for the IA type.  write_context_settings
    stores such a context with Type "ia"; load_context reads the type back
    with gprs_context_string_to_type, which does not know "ia", and gives the
    group up.  So a provisioned initial-attach context is stored, and a
    manager that later opens the same file loads nothing from its group. *)
Theorem ia_context_lost_on_load :
  (forall C kf ctx,
     load_context_fields C
       (write_context_settings C kf
          (with_type OFONO_GPRS_CONTEXT_TYPE_IA ctx)) (key ctx) = None)
  /\ let stored := exec (provision_context common_model ia_entry) with_store in
     (type <$> contexts stored) = [OFONO_GPRS_CONTEXT_TYPE_IA]
     /\ (key <$> contexts stored) = ["context1"]
     /\ (settings stored
         ≫= (fun kf => g_key_file_get_string kf "context1" "Type"))
        = Some "ia"
     /\ load_context common_model "context1"
          (with_settings (settings stored) with_store)
        = (false, with_settings (settings stored) with_store, []).
Proof.
  split.
  - intros C kf ctx.
    pose proof (written_type C kf (with_type OFONO_GPRS_CONTEXT_TYPE_IA ctx)
                  "ia" eq_refl) as Ht.
    simpl in Ht. unfold load_context_fields.
    destruct (match sscanf_d "context" (key ctx) with
              | Some n => Some (n, false)
              | None => _
              end) as [[n legacy]|]; [|done].
    destruct ((n <? 1) || (MAX_CONTEXTS <? n)); [done|].
    rewrite Ht. simpl.
    by destruct (g_key_file_get_string _ (key ctx) "Name").
  - vm_compute. repeat split; reflexivity.
Qed.

(** ** Further properties of the two files *)

Import Scenarios.

(** *** Decimal text *)

Lemma scan_digits_acc (d : Decimal.uint) (acc : positive) (rest : string) :
  no_leading_digit rest = true ->
  scan_digits (String.append (NilEmpty.string_of_uint d) rest)
    (Some (Z.pos acc))
  = Some (Z.pos (Pos.of_uint_acc d acc)).
Proof.
  intros Hrest. revert acc.
  induction d; intros acc; simpl;
    try (rewrite <- IHd; f_equal; f_equal; lia).
  destruct rest as [|c r]; [done|]. simpl in *.
  by destruct (is_digit c).
Qed.

Lemma scan_digits_zero (d : Decimal.uint) (rest : string) :
  no_leading_digit rest = true ->
  scan_digits (String.append (NilEmpty.string_of_uint d) rest) (Some 0)
  = Some (Z.of_N (Pos.of_uint d)).
Proof.
  intros Hrest.
  induction d; simpl;
    try (rewrite <- (scan_digits_acc d _ rest Hrest); f_equal).
  - destruct rest as [|c r]; [done|]. simpl in *. by destruct (is_digit c).
  - exact IHd.
Qed.

Lemma scan_digits_uint (d : Decimal.uint) (rest : string) :
  d <> Decimal.Nil -> no_leading_digit rest = true ->
  scan_digits (String.append (NilEmpty.string_of_uint d) rest) None
  = Some (Z.of_N (Pos.of_uint d)).
Proof.
  intros Hd Hrest. destruct d; [done|..]; simpl;
    try (rewrite <- (scan_digits_acc d _ rest Hrest); f_equal).
  apply (scan_digits_zero d rest Hrest).
Qed.

Lemma to_uint_nonnil (n : N) : N.to_uint n <> Decimal.Nil.
Proof.
  destruct n as [|p]; [done|]. apply DecimalPos.Unsigned.to_uint_nonnil.
Qed.

(* reading back a printed number *)
Lemma scan_digits_print_uint (n : Z) (rest : string) :
  0 <= n -> no_leading_digit rest = true ->
  scan_digits (String.append (print_uint n) rest) None = Some n.
Proof.
  intros Hn Hrest. unfold print_uint.
  rewrite scan_digits_uint by (done || apply to_uint_nonnil).
  change (Pos.of_uint ?d) with (N.of_uint d).
  rewrite DecimalN.Unsigned.of_to. f_equal. lia.
Qed.

Lemma skip_digits_uint (d : Decimal.uint) (rest : string) :
  no_leading_digit rest = true ->
  skip_digits (String.append (NilEmpty.string_of_uint d) rest) = rest.
Proof.
  intros Hrest. induction d; simpl; try exact IHd.
  destruct rest as [|c r]; [done|]. simpl in *. by destruct (is_digit c).
Qed.

Lemma skip_digits_print_uint (n : Z) (rest : string) :
  no_leading_digit rest = true ->
  skip_digits (String.append (print_uint n) rest) = rest.
Proof. apply skip_digits_uint. Qed.

Lemma uint_first_digit (d : Decimal.uint) :
  d <> Decimal.Nil ->
  exists c r, NilEmpty.string_of_uint d = String c r /\ is_digit c = true.
Proof. destruct d; [done|..]; intros _; simpl; by eexists _, _. Qed.

Lemma print_uint_first_digit (n : Z) :
  exists c r, print_uint n = String c r /\ is_digit c = true.
Proof. apply uint_first_digit, to_uint_nonnil. Qed.

(* a printed number holds digits only *)
Lemma uint_without (d : Decimal.uint) (c : ascii) :
  is_digit c = false -> without c (NilEmpty.string_of_uint d) = true.
Proof.
  intros Hc.
  induction d; cbn [without NilEmpty.string_of_uint]; [done|..];
    rewrite IHd, andb_true_r;
    match goal with
    | |- context [Ascii.eqb ?a c] =>
      destruct (Ascii.eqb_spec a c) as [<-|]; done
    end.
Qed.

Lemma print_uint_without (n : Z) (c : ascii) :
  is_digit c = false -> without c (print_uint n) = true.
Proof. apply uint_without. Qed.

(** *** The proxy of an MMS context *)

Lemma append_cons a s r : String a s +:+ r = String a (s +:+ r).
Proof. done. Qed.

Lemma append_nil_l r : "" +:+ r = r.
Proof. done. Qed.

Lemma append_nil_r s : s +:+ "" = s.
Proof.
  induction s as [|b s IH]; [done|]. by rewrite append_cons, IH.
Qed.

Ltac appends := rewrite ?append_cons, ?append_nil_l, ?append_nil_r.

Lemma without_app c a b :
  without c (a +:+ b) = without c a && without c b.
Proof.
  induction a as [|x a IH]; appends; simpl; [done|]. rewrite IH.
  by rewrite andb_assoc.
Qed.

Lemma strchr_none s c : without c s = true -> strchr s c = None.
Proof.
  induction s as [|a s IH]; simpl; [done|].
  destruct (Ascii.eqb a c); [done|]. simpl. intros H. by rewrite IH.
Qed.

Lemma strchr_app a b c :
  without c a = true -> strchr (a +:+ String c b) c = Some (a, b).
Proof.
  induction a as [|x a IH]; appends; simpl.
  - by rewrite Ascii.eqb_refl.
  - destruct (Ascii.eqb x c); [done|]. simpl. intros H. by rewrite IH.
Qed.

Lemma strrchr_none s c : without c s = true -> strrchr s c = None.
Proof.
  induction s as [|a s IH]; simpl; [done|].
  destruct (Ascii.eqb a c); [done|]. simpl. intros H. by rewrite IH.
Qed.

Lemma strrchr_app a b c :
  without c b = true -> strrchr (a +:+ String c b) c = Some (a, b).
Proof.
  intros Hb. induction a as [|x a IH]; appends; simpl.
  - by rewrite strrchr_none, Ascii.eqb_refl.
  - by rewrite IH.
Qed.

Lemma strstr_cons c r sub :
  strstr (String c r) sub
  = match strip_prefix sub (String c r) with
    | Some rest => Some ("", rest)
    | None =>
      match strstr r sub with
      | Some (a, b) => Some (String c a, b)
      | None => None
      end
    end.
Proof. done. Qed.

Lemma strip_prefix_colon s rest :
  without ":" s = true -> strip_prefix "://" (s +:+ rest) = None
  \/ s = "".
Proof.
  destruct s as [|a s]; [by right|]. left. appends.
  cbn [without strip_prefix] in *.
  destruct (Ascii.eqb_spec a ":") as [->|Hne]; [done|].
  destruct (Ascii.eqb_spec ":" a) as [<-|]; done.
Qed.

Lemma strstr_none s : without ":" s = true -> strstr s "://" = None.
Proof.
  induction s as [|a s IH]; [done|]. intros H.
  rewrite strstr_cons.
  destruct (strip_prefix_colon (String a s) "" H) as [Hp|]; [|done].
  rewrite append_nil_r in Hp.
  rewrite Hp. simpl in H. apply andb_true_iff in H as [_ H].
  by rewrite IH.
Qed.

Lemma strstr_app s rest :
  without ":" s = true -> strstr (s +:+ "://" +:+ rest) "://" = Some (s, rest).
Proof.
  induction s as [|a s IH]; [done|]. intros H.
  rewrite append_cons, strstr_cons.
  destruct (strip_prefix_colon (String a s) ("://" +:+ rest) H) as [Hp|];
    [|done].
  rewrite append_cons in Hp.
  rewrite Hp. simpl in H. apply andb_true_iff in H as [_ H].
  by rewrite IH.
Qed.

(* no "://" in a host followed by a colon and a text that holds no colon
   and does not start with two slashes *)
Lemma strstr_colon h t :
  without ":" h = true -> without ":" t = true ->
  strip_prefix "://" (String ":" t) = None ->
  strstr (h +:+ ":" +:+ t) "://" = None.
Proof.
  intros Hh Ht Hp0.
  induction h as [|a h IH]; appends.
  - rewrite strstr_cons, Hp0. by rewrite strstr_none.
  - rewrite strstr_cons.
    destruct (strip_prefix_colon (String a h) (":" +:+ t) Hh) as [Hp|];
      [|done].
    rewrite !append_cons in Hp. rewrite append_nil_l in Hp.
    rewrite Hp. simpl in Hh. apply andb_true_iff in Hh as [_ Hh].
    specialize (IH Hh). rewrite !append_cons in IH.
    rewrite append_nil_l in IH. by rewrite IH.
Qed.

Lemma strip_prefix_digit c t :
  is_digit c = true -> strip_prefix "://" (String ":" (String c t)) = None.
Proof. by destruct c as [[] [] [] [] [] [] [] []]. Qed.

Lemma strstr_port h d rest :
  without ":" h = true -> without ":" d = true ->
  without ":" rest = true ->
  (exists c r, d = String c r /\ is_digit c = true) ->
  strstr (h +:+ ":" +:+ d +:+ rest) "://" = None.
Proof.
  intros Hh Hd Hrest (c & r & -> & Hc).
  apply strstr_colon; [done| |].
  - by rewrite without_app, Hd, Hrest.
  - rewrite append_cons. by apply strip_prefix_digit.
Qed.

(* strtol reads a printed number in full *)
Lemma strtol_print_uint n :
  0 <= n < 2 ^ 63 -> strtol (print_uint n) = (n, "").
Proof.
  intros Hn.
  pose proof (scan_digits_print_uint n "" (proj1 Hn) eq_refl) as Hscan.
  pose proof (skip_digits_print_uint n "" eq_refl) as Hskip.
  rewrite append_nil_r in Hscan, Hskip.
  destruct (print_uint_first_digit n) as (c & r & Hd & Hc).
  unfold strtol. rewrite Hd in *.
  assert (Hsp : skip_space (String c r) = String c r).
  { simpl. by destruct c as [[] [] [] [] [] [] [] []]. }
  rewrite Hsp.
  assert (Hsign :
    match String c r with
    | String "-" r0 => (true, r0)
    | String "+" r0 => (false, r0)
    | _ => (false, String c r)
    end = (false, String c r)).
  { by destruct c as [[] [] [] [] [] [] [] []]. }
  rewrite Hsign, Hscan, Hskip. f_equal. lia.
Qed.

Lemma append_assoc a b c : (a +:+ b) +:+ c = a +:+ b +:+ c.
Proof.
  induction a as [|x a IH]; [done|]. by rewrite !append_cons, IH.
Qed.



(** X2. Edge cases of the proxy port.  With a host text without colon and
    slash: a scheme other than http and https leaves the context as it is;
    an empty port after the colon gives port 0 and not the default; a port
    text that starts with a letter is not split off, the host keeps the
    colon and the text and the port is the default 80; a numeric port is
    stored modulo 65536. *)
Theorem pri_parse_proxy_odd_ports (h : string) (ctx : pri_context) :
  without ":" h = true -> without "/" h = true ->
  (forall s rest,
     without ":" s = true -> strcasecmp s "https" = false ->
     strcasecmp s "http" = false ->
     pri_parse_proxy (s +:+ "://" +:+ rest) ctx = ctx)
  /\ pri_parse_proxy (h +:+ ":") ctx
     = with_proxy_host (Some h) (with_proxy_port 0 ctx)
  /\ (forall c t,
        without ":" (String c t) = true -> without "/" (String c t) = true ->
        is_digit c = false -> is_space c = false ->
        c <> "-"%char -> c <> "+"%char ->
        pri_parse_proxy (h +:+ ":" +:+ String c t) ctx
        = with_proxy_host (Some (h +:+ ":" +:+ String c t))
            (with_proxy_port 80 ctx))
  /\ (forall n,
        0 <= n < 2 ^ 63 ->
        pri_parse_proxy (h +:+ ":" +:+ print_uint n) ctx
        = with_proxy_host (Some h) (with_proxy_port (n mod 65536) ctx)).
Proof.
  intros Hh1 Hh2. split; [|split; [|split]].
  - intros s rest Hs H1 H2. unfold pri_parse_proxy.
    by rewrite strstr_app, H1, H2.
  - unfold pri_parse_proxy.
    rewrite <- (append_nil_r ":") at 1.
    rewrite (strstr_colon h "") by done.
    rewrite strchr_none by (by rewrite without_app, Hh2).
    by rewrite strrchr_app.
  - intros c t Hc1 Hc2 Hd Hsp Hm Hp. unfold pri_parse_proxy.
    rewrite strstr_colon; [|done|done|].
    2:{ destruct (Ascii.eqb_spec c "/") as [->|]; [done|].
        cbn [strip_prefix]. change (Ascii.eqb ":" ":") with true. cbv iota.
        destruct (Ascii.eqb_spec "/" c) as [<-|]; done. }
    rewrite strchr_none
      by (rewrite without_app, Hh2, append_cons, append_nil_l;
          simpl in *; exact Hc2).
    rewrite append_cons, append_nil_l.
    rewrite strrchr_app by done.
    assert (Hstrtol : strtol (String c t) = (0, String c t)).
    { unfold strtol. simpl. rewrite Hsp.
      assert (Hsign :
        match String c t with
        | String "-" r0 => (true, r0)
        | String "+" r0 => (false, r0)
        | _ => (false, String c t)
        end = (false, String c t)).
      { destruct (Ascii.eqb_spec c "-") as [->|]; [done|].
        destruct (Ascii.eqb_spec c "+") as [->|]; [done|].
        by destruct c as [[] [] [] [] [] [] [] []]. }
      rewrite Hsign. simpl. by rewrite Hd. }
    rewrite Hstrtol. done.
  - intros n Hn. unfold pri_parse_proxy.
    rewrite <- (append_nil_r (print_uint n)) at 1.
    rewrite strstr_port;
      [|done|by apply print_uint_without|done|apply print_uint_first_digit].
    rewrite strchr_none.
    2:{ rewrite without_app, Hh2, append_cons, append_nil_l. simpl.
        by apply print_uint_without. }
    rewrite append_cons, append_nil_l.
    rewrite strrchr_app by (by apply print_uint_without).
    by rewrite strtol_print_uint.
Qed.

Lemma pri_parse_proxy_odd_ports_witness :
  pri_parse_proxy "proxy:" mms_context
  = with_proxy_host (Some "proxy") (with_proxy_port 0 mms_context)
  /\ pri_parse_proxy "proxy:70000" mms_context
     = with_proxy_host (Some "proxy") (with_proxy_port 4464 mms_context).
Proof.
  destruct (pri_parse_proxy_odd_ports "proxy" mms_context eq_refl eq_refl)
    as (_ & H0 & _ & Hn).
  split; [exact H0|]. apply (Hn 70000). lia.
Defined.

(** *** Settings reported by the context driver *)

Lemma with_context_drivers_same g :
  with_context_drivers (context_drivers g) g = g.
Proof. by destruct g. Qed.

Lemma with_contexts_same g : with_contexts (contexts g) g = g.
Proof. by destruct g. Qed.

Lemma alter_same {A} (f : A -> A) (l : list A) (i : nat) (x : A) :
  l !! i = Some x -> f x = x -> alter f i l = l.
Proof.
  intros Hl Hf. apply list_eq. intros j.
  destruct (decide (i = j)) as [<-|Hne].
  - rewrite list_lookup_alter_eq, Hl. simpl. by rewrite Hf.
  - by rewrite list_lookup_alter_ne.
Qed.

Lemma prefix_length_mask_bits (len u : Z) :
  0 <= len <= 32 ->
  exists m,
    prefix_length_mask len u = m /\ 0 <= m < 2 ^ 32
    /\ forall k, 0 <= k < 32 -> Z.testbit m k = (32 - len <=? k).
Proof.
  intros Hlen. unfold prefix_length_mask.
  destruct (Z.eqb_spec len 0) as [->|Hne].
  - exists 0. split; [done|]. split; [lia|]. intros k Hk.
    rewrite Z.bits_0. symmetry. apply Z.leb_gt. lia.
  - rewrite (Z.mod_small (32 - len)) by lia.
    destruct (Z.ltb_spec (32 - len) 32); [|lia].
    eexists. split; [reflexivity|]. split.
    + apply Z.mod_pos_bound. lia.
    + intros k Hk. rewrite Z.mod_pow2_bits_low by lia.
      rewrite Z.lnot_spec by lia.
      rewrite Z.shiftl_1_l, Z.sub_1_r, <- Z.ones_equiv.
      destruct (Z.leb_spec (32 - len) k).
      * by rewrite Z.ones_spec_high by lia.
      * by rewrite Z.ones_spec_low by lia.
Qed.

(** X3. Netmask from a prefix length.  For a prefix length of 0 to 32 and a
    binding that has IPv4 settings, ofono_gprs_context_set_ipv4_prefix_length
    stores as netmask the dotted quad, most significant byte first, of the
    32-bit number whose set bits are exactly the [len] topmost ones; nothing
    else of the manager changes.  A binding without IPv4 settings is left as
    it is. *)
Theorem prefix_length_netmask (g : ofono_gprs) (gc : nat)
    (d : ofono_gprs_context) (len u : Z) :
  0 <= len <= 32 -> context_drivers g !! gc = Some d ->
  let g' := exec (ofono_gprs_context_set_ipv4_prefix_length gc len u) g in
  match ipv4 (gc_settings d) with
  | Some v4 =>
    exists m,
      0 <= m < 2 ^ 32
      /\ (forall k, 0 <= k < 32 -> Z.testbit m k = (32 - len <=? k))
      /\ g' = with_context_drivers
                (<[gc := with_gc_settings
                           (mk_context_settings
                              (Some (with_ipv4_netmask
                                       (Some (inet_ntop (htonl m))) v4))
                              (ipv6 (gc_settings d))) d]>
                   (context_drivers g)) g
  | None => g' = g
  end
  /\ trace (ofono_gprs_context_set_ipv4_prefix_length gc len u) g = [].
Proof.
  intros Hlen Hd g'. unfold g', ofono_gprs_context_set_ipv4_prefix_length.
  destruct (prefix_length_mask_bits len u Hlen) as (m & -> & Hm & Hbits).
  unfold ipv4_update. runs. split; [|done].
  destruct (ipv4 (gc_settings d)) as [v4|] eqn:Hv4.
  - exists m. split; [done|]. split; [done|]. f_equal.
    apply list_eq. intros j. destruct (decide (gc = j)) as [<-|Hne].
    + rewrite list_lookup_alter_eq, Hd.
      rewrite list_lookup_insert_eq by (by eapply lookup_lt_Some).
      simpl. by rewrite Hv4.
    + by rewrite list_lookup_alter_ne, list_lookup_insert_ne.
  - rewrite (alter_same _ _ gc d); [apply with_context_drivers_same|done|].
    destruct d as [t u0 drv ifn [v4 v6]]. simpl in *. by subst v4.
Qed.

Lemma prefix_length_netmask_witness :
  exists d m,
    context_drivers busy_binding_state !! 0%nat = Some d
    /\ Z.testbit m 12 = true /\ Z.testbit m 11 = false
    /\ ((context_drivers
           (exec (ofono_gprs_context_set_ipv4_prefix_length 0 20 0)
              busy_binding_state) !! 0%nat
         ≫= (fun d => ipv4 (gc_settings d)))
        ≫= ipv4_netmask)
       = Some (inet_ntop (htonl m)).
Proof.
  eexists.
  destruct (prefix_length_netmask busy_binding_state 0 _ 20 0 ltac:(lia)
              ltac:(vm_compute; reflexivity)) as [H _].
  simpl in H. destruct H as (m & Hm & Hbits & Hg).
  exists m. split; [reflexivity|].
  split; [by rewrite Hbits by lia|]. split; [by rewrite Hbits by lia|].
  rewrite Hg. reflexivity.
Defined.

(** *** Activation and deactivation over the bus *)

Lemma put_take_free (s : Uintset.t) (n : Z) :
  Uintset.wf s -> Uintset.umin s <= n <= Uintset.umax s ->
  Uintset.contains s n = false ->
  Uintset.take (Uintset.put s n) n = s.
Proof.
  intros [Hle Hsz] Hn Hc. unfold Uintset.size in Hsz.
  unfold Uintset.contains, Uintset.take, Uintset.put, Uintset.in_range in *.
  destruct (Z.leb_spec (Uintset.umin s) n); [|lia].
  destruct (Z.leb_spec n (Uintset.umax s)); [|lia]. simpl in *.
  destruct (Z.leb_spec (Uintset.umin s) n); [|lia].
  destruct (Z.leb_spec n (Uintset.umax s)); [|lia]. simpl.
  destruct s as [lo hi bits]. simpl in *. f_equal.
  rewrite list_insert_insert_eq. apply list_insert_id.
  destruct (bits !! Z.to_nat (n - lo)) as [b|] eqn:Hb.
  - simpl in Hc. by subst b.
  - apply lookup_ge_None in Hb. lia.
Qed.

Lemma pri_set_active_accepted C i n g ctx :
  contexts g !! i = Some ctx ->
  result (pri_set_property C i (set_active_msg n true)) g = None ->
  pending g = None
  /\ ctx_pending ctx = None /\ active ctx = false /\ attached g = true
  /\ flag_test (flags g) GPRS_FLAG_ATTACHING = false
  /\ result (assign_context i 0) g = true
  /\ exec (pri_set_property C i (set_active_msg n true)) g
     = exec (ctx_update i (with_ctx_pending (Some n)))
         (exec (assign_context i 0) g).
Proof.
  intros Hctx.
  unfold pri_set_property, set_active_msg. simpl. unfold pri_set_active.
  runs. rewrite Hctx. runs.
  case_bool_decide as Hp; runs; [done|].
  case_bool_decide as Hcp; runs; [done|].
  destruct (active ctx) eqn:Hact; simpl; runs; [done|].
  destruct (attached g) eqn:Hatt; simpl; runs; [|done].
  destruct (flag_test (flags g) GPRS_FLAG_ATTACHING) eqn:Hfl; runs; [done|].
  destruct (result (assign_context i 0) g) eqn:Has; runs; [|done].
  intros _. repeat split; try done.
  by case_match; runs.
Qed.

(* a field update of a manager given by its fields *)
Lemma with_contexts_mk v a0 a1 a2 a3 a4 a5 a6 a7 a8 a9 a10 a11 a12 a13 a14 a15 a16 a17 a18 a19 a20 a21 a22 :
  with_contexts v (mk_gprs a0 a1 a2 a3 a4 a5 a6 a7 a8 a9 a10 a11 a12 a13 a14
    a15 a16 a17 a18 a19 a20 a21 a22) = mk_gprs v a1 a2 a3 a4 a5 a6 a7 a8 a9
    a10 a11 a12 a13 a14 a15 a16 a17 a18 a19 a20 a21 a22.
Proof. done. Qed.
Lemma with_attached_mk v a0 a1 a2 a3 a4 a5 a6 a7 a8 a9 a10 a11 a12 a13 a14 a15 a16 a17 a18 a19 a20 a21 a22 :
  with_attached v (mk_gprs a0 a1 a2 a3 a4 a5 a6 a7 a8 a9 a10 a11 a12 a13 a14
    a15 a16 a17 a18 a19 a20 a21 a22) = mk_gprs a0 v a2 a3 a4 a5 a6 a7 a8 a9
    a10 a11 a12 a13 a14 a15 a16 a17 a18 a19 a20 a21 a22.
Proof. done. Qed.
Lemma with_driver_attached_mk v a0 a1 a2 a3 a4 a5 a6 a7 a8 a9 a10 a11 a12 a13 a14 a15 a16 a17 a18 a19 a20 a21 a22 :
  with_driver_attached v (mk_gprs a0 a1 a2 a3 a4 a5 a6 a7 a8 a9 a10 a11 a12
    a13 a14 a15 a16 a17 a18 a19 a20 a21 a22) = mk_gprs a0 a1 v a3 a4 a5 a6
    a7 a8 a9 a10 a11 a12 a13 a14 a15 a16 a17 a18 a19 a20 a21 a22.
Proof. done. Qed.
Lemma with_roaming_allowed_mk v a0 a1 a2 a3 a4 a5 a6 a7 a8 a9 a10 a11 a12 a13 a14 a15 a16 a17 a18 a19 a20 a21 a22 :
  with_roaming_allowed v (mk_gprs a0 a1 a2 a3 a4 a5 a6 a7 a8 a9 a10 a11 a12
    a13 a14 a15 a16 a17 a18 a19 a20 a21 a22) = mk_gprs a0 a1 a2 v a4 a5 a6
    a7 a8 a9 a10 a11 a12 a13 a14 a15 a16 a17 a18 a19 a20 a21 a22.
Proof. done. Qed.
Lemma with_powered_mk v a0 a1 a2 a3 a4 a5 a6 a7 a8 a9 a10 a11 a12 a13 a14 a15 a16 a17 a18 a19 a20 a21 a22 :
  with_powered v (mk_gprs a0 a1 a2 a3 a4 a5 a6 a7 a8 a9 a10 a11 a12 a13 a14
    a15 a16 a17 a18 a19 a20 a21 a22) = mk_gprs a0 a1 a2 a3 v a5 a6 a7 a8 a9
    a10 a11 a12 a13 a14 a15 a16 a17 a18 a19 a20 a21 a22.
Proof. done. Qed.
Lemma with_suspended_mk v a0 a1 a2 a3 a4 a5 a6 a7 a8 a9 a10 a11 a12 a13 a14 a15 a16 a17 a18 a19 a20 a21 a22 :
  with_suspended v (mk_gprs a0 a1 a2 a3 a4 a5 a6 a7 a8 a9 a10 a11 a12 a13
    a14 a15 a16 a17 a18 a19 a20 a21 a22) = mk_gprs a0 a1 a2 a3 a4 v a6 a7 a8
    a9 a10 a11 a12 a13 a14 a15 a16 a17 a18 a19 a20 a21 a22.
Proof. done. Qed.
Lemma with_status_mk v a0 a1 a2 a3 a4 a5 a6 a7 a8 a9 a10 a11 a12 a13 a14 a15 a16 a17 a18 a19 a20 a21 a22 :
  with_status v (mk_gprs a0 a1 a2 a3 a4 a5 a6 a7 a8 a9 a10 a11 a12 a13 a14
    a15 a16 a17 a18 a19 a20 a21 a22) = mk_gprs a0 a1 a2 a3 a4 a5 v a7 a8 a9
    a10 a11 a12 a13 a14 a15 a16 a17 a18 a19 a20 a21 a22.
Proof. done. Qed.
Lemma with_flags_mk v a0 a1 a2 a3 a4 a5 a6 a7 a8 a9 a10 a11 a12 a13 a14 a15 a16 a17 a18 a19 a20 a21 a22 :
  with_flags v (mk_gprs a0 a1 a2 a3 a4 a5 a6 a7 a8 a9 a10 a11 a12 a13 a14
    a15 a16 a17 a18 a19 a20 a21 a22) = mk_gprs a0 a1 a2 a3 a4 a5 a6 v a8 a9
    a10 a11 a12 a13 a14 a15 a16 a17 a18 a19 a20 a21 a22.
Proof. done. Qed.
Lemma with_bearer_mk v a0 a1 a2 a3 a4 a5 a6 a7 a8 a9 a10 a11 a12 a13 a14 a15 a16 a17 a18 a19 a20 a21 a22 :
  with_bearer v (mk_gprs a0 a1 a2 a3 a4 a5 a6 a7 a8 a9 a10 a11 a12 a13 a14
    a15 a16 a17 a18 a19 a20 a21 a22) = mk_gprs a0 a1 a2 a3 a4 a5 a6 a7 v a9
    a10 a11 a12 a13 a14 a15 a16 a17 a18 a19 a20 a21 a22.
Proof. done. Qed.
Lemma with_suspend_timeout_mk v a0 a1 a2 a3 a4 a5 a6 a7 a8 a9 a10 a11 a12 a13 a14 a15 a16 a17 a18 a19 a20 a21 a22 :
  with_suspend_timeout v (mk_gprs a0 a1 a2 a3 a4 a5 a6 a7 a8 a9 a10 a11 a12
    a13 a14 a15 a16 a17 a18 a19 a20 a21 a22) = mk_gprs a0 a1 a2 a3 a4 a5 a6
    a7 a8 v a10 a11 a12 a13 a14 a15 a16 a17 a18 a19 a20 a21 a22.
Proof. done. Qed.
Lemma with_used_pids_mk v a0 a1 a2 a3 a4 a5 a6 a7 a8 a9 a10 a11 a12 a13 a14 a15 a16 a17 a18 a19 a20 a21 a22 :
  with_used_pids v (mk_gprs a0 a1 a2 a3 a4 a5 a6 a7 a8 a9 a10 a11 a12 a13
    a14 a15 a16 a17 a18 a19 a20 a21 a22) = mk_gprs a0 a1 a2 a3 a4 a5 a6 a7
    a8 a9 v a11 a12 a13 a14 a15 a16 a17 a18 a19 a20 a21 a22.
Proof. done. Qed.
Lemma with_last_context_id_mk v a0 a1 a2 a3 a4 a5 a6 a7 a8 a9 a10 a11 a12 a13 a14 a15 a16 a17 a18 a19 a20 a21 a22 :
  with_last_context_id v (mk_gprs a0 a1 a2 a3 a4 a5 a6 a7 a8 a9 a10 a11 a12
    a13 a14 a15 a16 a17 a18 a19 a20 a21 a22) = mk_gprs a0 a1 a2 a3 a4 a5 a6
    a7 a8 a9 a10 v a12 a13 a14 a15 a16 a17 a18 a19 a20 a21 a22.
Proof. done. Qed.
Lemma with_used_cids_mk v a0 a1 a2 a3 a4 a5 a6 a7 a8 a9 a10 a11 a12 a13 a14 a15 a16 a17 a18 a19 a20 a21 a22 :
  with_used_cids v (mk_gprs a0 a1 a2 a3 a4 a5 a6 a7 a8 a9 a10 a11 a12 a13
    a14 a15 a16 a17 a18 a19 a20 a21 a22) = mk_gprs a0 a1 a2 a3 a4 a5 a6 a7
    a8 a9 a10 a11 v a13 a14 a15 a16 a17 a18 a19 a20 a21 a22.
Proof. done. Qed.
Lemma with_netreg_status_mk v a0 a1 a2 a3 a4 a5 a6 a7 a8 a9 a10 a11 a12 a13 a14 a15 a16 a17 a18 a19 a20 a21 a22 :
  with_netreg_status v (mk_gprs a0 a1 a2 a3 a4 a5 a6 a7 a8 a9 a10 a11 a12
    a13 a14 a15 a16 a17 a18 a19 a20 a21 a22) = mk_gprs a0 a1 a2 a3 a4 a5 a6
    a7 a8 a9 a10 a11 a12 v a14 a15 a16 a17 a18 a19 a20 a21 a22.
Proof. done. Qed.
Lemma with_netreg_technology_mk v a0 a1 a2 a3 a4 a5 a6 a7 a8 a9 a10 a11 a12 a13 a14 a15 a16 a17 a18 a19 a20 a21 a22 :
  with_netreg_technology v (mk_gprs a0 a1 a2 a3 a4 a5 a6 a7 a8 a9 a10 a11
    a12 a13 a14 a15 a16 a17 a18 a19 a20 a21 a22) = mk_gprs a0 a1 a2 a3 a4 a5
    a6 a7 a8 a9 a10 a11 a12 a13 v a15 a16 a17 a18 a19 a20 a21 a22.
Proof. done. Qed.
Lemma with_settings_mk v a0 a1 a2 a3 a4 a5 a6 a7 a8 a9 a10 a11 a12 a13 a14 a15 a16 a17 a18 a19 a20 a21 a22 :
  with_settings v (mk_gprs a0 a1 a2 a3 a4 a5 a6 a7 a8 a9 a10 a11 a12 a13 a14
    a15 a16 a17 a18 a19 a20 a21 a22) = mk_gprs a0 a1 a2 a3 a4 a5 a6 a7 a8 a9
    a10 a11 a12 a13 a14 v a16 a17 a18 a19 a20 a21 a22.
Proof. done. Qed.
Lemma with_imsi_mk v a0 a1 a2 a3 a4 a5 a6 a7 a8 a9 a10 a11 a12 a13 a14 a15 a16 a17 a18 a19 a20 a21 a22 :
  with_imsi v (mk_gprs a0 a1 a2 a3 a4 a5 a6 a7 a8 a9 a10 a11 a12 a13 a14 a15
    a16 a17 a18 a19 a20 a21 a22) = mk_gprs a0 a1 a2 a3 a4 a5 a6 a7 a8 a9 a10
    a11 a12 a13 a14 a15 v a17 a18 a19 a20 a21 a22.
Proof. done. Qed.
Lemma with_pending_mk v a0 a1 a2 a3 a4 a5 a6 a7 a8 a9 a10 a11 a12 a13 a14 a15 a16 a17 a18 a19 a20 a21 a22 :
  with_pending v (mk_gprs a0 a1 a2 a3 a4 a5 a6 a7 a8 a9 a10 a11 a12 a13 a14
    a15 a16 a17 a18 a19 a20 a21 a22) = mk_gprs a0 a1 a2 a3 a4 a5 a6 a7 a8 a9
    a10 a11 a12 a13 a14 a15 a16 v a18 a19 a20 a21 a22.
Proof. done. Qed.
Lemma with_context_drivers_mk v a0 a1 a2 a3 a4 a5 a6 a7 a8 a9 a10 a11 a12 a13 a14 a15 a16 a17 a18 a19 a20 a21 a22 :
  with_context_drivers v (mk_gprs a0 a1 a2 a3 a4 a5 a6 a7 a8 a9 a10 a11 a12
    a13 a14 a15 a16 a17 a18 a19 a20 a21 a22) = mk_gprs a0 a1 a2 a3 a4 a5 a6
    a7 a8 a9 a10 a11 a12 a13 a14 a15 a16 a17 v a19 a20 a21 a22.
Proof. done. Qed.
Lemma with_driver_mk v a0 a1 a2 a3 a4 a5 a6 a7 a8 a9 a10 a11 a12 a13 a14 a15 a16 a17 a18 a19 a20 a21 a22 :
  with_driver v (mk_gprs a0 a1 a2 a3 a4 a5 a6 a7 a8 a9 a10 a11 a12 a13 a14
    a15 a16 a17 a18 a19 a20 a21 a22) = mk_gprs a0 a1 a2 a3 a4 a5 a6 a7 a8 a9
    a10 a11 a12 a13 a14 a15 a16 a17 a18 v a20 a21 a22.
Proof. done. Qed.
Lemma with_atom_registered_mk v a0 a1 a2 a3 a4 a5 a6 a7 a8 a9 a10 a11 a12 a13 a14 a15 a16 a17 a18 a19 a20 a21 a22 :
  with_atom_registered v (mk_gprs a0 a1 a2 a3 a4 a5 a6 a7 a8 a9 a10 a11 a12
    a13 a14 a15 a16 a17 a18 a19 a20 a21 a22) = mk_gprs a0 a1 a2 a3 a4 a5 a6
    a7 a8 a9 a10 a11 a12 a13 a14 a15 a16 a17 a18 a19 v a21 a22.
Proof. done. Qed.
Lemma with_atom_path_mk v a0 a1 a2 a3 a4 a5 a6 a7 a8 a9 a10 a11 a12 a13 a14 a15 a16 a17 a18 a19 a20 a21 a22 :
  with_atom_path v (mk_gprs a0 a1 a2 a3 a4 a5 a6 a7 a8 a9 a10 a11 a12 a13
    a14 a15 a16 a17 a18 a19 a20 a21 a22) = mk_gprs a0 a1 a2 a3 a4 a5 a6 a7
    a8 a9 a10 a11 a12 a13 a14 a15 a16 a17 a18 a19 a20 v a22.
Proof. done. Qed.
Lemma with_dbus_register_ok_mk v a0 a1 a2 a3 a4 a5 a6 a7 a8 a9 a10 a11 a12 a13 a14 a15 a16 a17 a18 a19 a20 a21 a22 :
  with_dbus_register_ok v (mk_gprs a0 a1 a2 a3 a4 a5 a6 a7 a8 a9 a10 a11 a12
    a13 a14 a15 a16 a17 a18 a19 a20 a21 a22) = mk_gprs a0 a1 a2 a3 a4 a5 a6
    a7 a8 a9 a10 a11 a12 a13 a14 a15 a16 a17 a18 a19 a20 a21 v.
Proof. done. Qed.

Create Rewrite HintDb rec.
#[export] Hint Rewrite with_contexts_mk with_attached_mk
  with_driver_attached_mk with_roaming_allowed_mk with_powered_mk
  with_suspended_mk with_status_mk with_flags_mk with_bearer_mk
  with_suspend_timeout_mk with_used_pids_mk with_last_context_id_mk
  with_used_cids_mk with_netreg_status_mk with_netreg_technology_mk
  with_settings_mk with_imsi_mk with_pending_mk with_context_drivers_mk
  with_driver_mk with_atom_registered_mk with_atom_path_mk
  with_dbus_register_ok_mk : rec.

(* normalise a state built by nested field updates of a manager given by
   its fields *)
Ltac norm_gprs := autorewrite with rec.

(* run a computation that keeps looking up the context or binding that a
   hypothesis describes *)
Ltac runs_with H :=
  repeat (progress (autorewrite with run;
                    rewrite ?list_alter_alter_eq, ?list_lookup_alter_eq, ?H;
                    simpl)).

(* assign_context in closed form *)
Lemma assign_context_exec i c g ctx used gc :
  contexts g !! i = Some ctx -> used_cids g = Some used ->
  let use := if c =? 0 then Uintset.find_unused_min used else c in
  (Uintset.get_max used <? use) = false ->
  find_avail_gprs_context g ctx = Some gc ->
  exec (assign_context i c) g
  = with_context_drivers
      (alter (fun d => with_gc_settings
                         (alloc_settings (proto (context ctx)) (gc_settings d))
                         (with_inuse true d)) gc (context_drivers g))
      (with_contexts
         (alter (fun x => with_context_driver (Some gc)
                            (with_context (with_cid use (context x)) x)) i
            (contexts g))
         (with_used_cids (Some (Uintset.put used use)) g)).
Proof.
  intros Hctx Hu use Hmax Hgc. unfold assign_context. runs.
  rewrite Hctx, Hu. runs. fold use. rewrite Hmax, Hgc. runs.
  by rewrite !list_alter_alter_eq.
Qed.

(** X4. A failed activation leaves nothing behind.  When SetProperty
    (Active, true) is accepted for an idle context (no binding, cid 0) and
    the driver then reports failure, pri_activate_callback answers the
    request with the error failed and the manager is back in the state it had
    before the request: the cid is free again, the binding is idle and its
    settings are gone. *)
Theorem activation_failure_restores (C : common) (g : ofono_gprs)
    (i n : nat) (ctx : pri_context) :
  contexts g !! i = Some ctx ->
  context_driver ctx = None -> cid (context ctx) = 0 ->
  (forall u, used_cids g = Some u -> Uintset.wf u) ->
  (forall gc d, context_drivers g !! gc = Some d -> inuse d = false ->
                gc_settings d = mk_context_settings None None) ->
  result (pri_set_property C i (set_active_msg n true)) g = None ->
  let g1 := exec (pri_set_property C i (set_active_msg n true)) g in
  pri_activate_callback i false g1
  = (tt, g, [ofono_dbus_pending_reply n ofono_error_failed]).
Proof.
  intros Hctx Hdrv Hcid Hwf Hclean Hres g1.
  destruct (pri_set_active_accepted C i n g ctx Hctx Hres)
    as (Hp & Hcp & Hact & Hatt & Hfl & Has & Hexec).
  destruct (assign_context_success _ _ _ Has)
    as (ctx' & used & gc & Hctx' & Hu & Hmax & Hgc).
  rewrite Hctx in Hctx'. inversion Hctx'; subst ctx'. clear Hctx'.
  destruct (find_avail_spec _ _ _ Hgc) as (d & drv & Hd & Hgd & Hin & _).
  simpl in Hmax.
  unfold g1. rewrite Hexec.
  rewrite (assign_context_exec i 0 g ctx used gc Hctx Hu Hmax Hgc).
  rewrite run_unit. f_equal; [f_equal|].
  - unfold pri_activate_callback, ctx_pending_reply, context_settings_free,
      release_context.
    runs_with Hctx.
    assert (Hfree : min_unused used (Uintset.find_unused_min used)).
    { apply find_unused_min_spec; [by apply Hwf|].
      apply Z.ltb_ge in Hmax. exact Hmax. }
    destruct Hfree as (Hc & Hrange & _).
    rewrite put_take_free by (done || by apply Hwf).
    clear Hres Hexec Has Hgc. clear g1.
    destruct g; simpl in *. norm_gprs. f_equal.
    + apply (alter_same _ _ i ctx Hctx).
      destruct ctx as [? ? ? ? ? ? ? ? ? ? ? pc ?]. destruct pc.
      simpl in *. by subst.
    + by rewrite Hu.
    + apply (alter_same _ _ gc d Hd).
      pose proof (Hclean _ _ Hd Hin) as Hs.
      destruct d. simpl in *. by subst.
  - unfold pri_activate_callback, ctx_pending_reply, context_settings_free,
      release_context.
    runs_with Hctx. done.
Qed.

Lemma activation_failure_restores_witness :
  pri_activate_callback 0 false
    (exec (pri_set_property common_model 0 (set_active_msg 3 true))
       attached_idle_state)
  = (tt, attached_idle_state,
     [ofono_dbus_pending_reply 3%nat ofono_error_failed]).
Proof.
  eapply (activation_failure_restores common_model attached_idle_state 0 3).
  - vm_compute. reflexivity.
  - reflexivity.
  - reflexivity.
  - intros u Hu. vm_compute in Hu. inversion Hu. by split; vm_compute.
  - intros gc d Hd Hin. destruct gc as [|gc]; vm_compute in Hd; [|done].
    inversion Hd. reflexivity.
  - vm_compute. reflexivity.
Defined.

(** *** A context from activation to deactivation *)

Lemma alter_insert {A} (f : A -> A) (l : list A) (i : nat) (x : A) :
  l !! i = Some x -> alter f i l = <[i := f x]> l.
Proof.
  intros Hl. apply list_eq. intros j.
  destruct (decide (i = j)) as [<-|Hne].
  - rewrite list_lookup_alter_eq, Hl.
    by rewrite list_lookup_insert_eq by (by eapply lookup_lt_Some).
  - by rewrite list_lookup_alter_ne, list_lookup_insert_ne.
Qed.

Lemma alter_insert_eq {A} (f : A -> A) (l : list A) (i : nat) (x : A) :
  (i < length l)%nat -> alter f i (<[i := x]> l) = <[i := f x]> l.
Proof.
  intros Hi. rewrite (alter_insert f _ i x).
  - by rewrite list_insert_insert_eq.
  - by rewrite list_lookup_insert_eq.
Qed.

(* run a computation on a manager in which context [i] and binding [gc]
   were replaced *)
Ltac runs_ins Hi Hgc :=
  repeat (progress (autorewrite with run;
                    rewrite ?(list_lookup_insert_eq _ _ _ Hi),
                      ?(list_lookup_insert_eq _ _ _ Hgc),
                      ?(alter_insert_eq _ _ _ _ Hi),
                      ?(alter_insert_eq _ _ _ _ Hgc),
                      ?list_insert_insert_eq;
                    simpl; norm_gprs)).

(* pri_parse_proxy touches the proxy host and port only *)
Lemma pri_parse_proxy_frame p c :
  exists h q, pri_parse_proxy p c = with_proxy_host h (with_proxy_port q c).
Proof.
  unfold pri_parse_proxy.
  destruct (match strstr p "://" with Some _ => _ | None => _ end)
    as [[host port0]|].
  - destruct (match strrchr _ ":" with Some _ => _ | None => _ end)
      as [host' port'].
    by eexists _, _.
  - exists (proxy_host c), (proxy_port c). by destruct c.
Qed.

Lemma pri_context_signal_settings_exec i a b g :
  exec (pri_context_signal_settings i a b) g = g.
Proof.
  unfold pri_context_signal_settings, do_signal_settings.
  destruct a, b; run_cases.
Qed.

Lemma with_gc_settings_same d : with_gc_settings (gc_settings d) d = d.
Proof. by destruct d. Qed.

Lemma with_proxy_same c :
  with_proxy_host (proxy_host c) (with_proxy_port (proxy_port c) c) = c.
Proof. by destruct c. Qed.

(* the state a successful activation leaves: the context is active and
   answered, and only the proxy of an MMS context and the settings of the
   binding may have changed besides *)
Lemma pri_activate_callback_ok g i c gc d u n :
  (i < length (contexts g))%nat -> (gc < length (context_drivers g))%nat ->
  context_driver c = Some gc -> ctx_pending c = Some n ->
  exists h q s,
    (type c <> OFONO_GPRS_CONTEXT_TYPE_MMS ->
     h = proxy_host c /\ q = proxy_port c)
    /\ exec (pri_activate_callback i true) (with_binding g i c gc d u)
       = with_binding g i
           (with_proxy_host h
              (with_proxy_port q (with_ctx_pending None (with_active true c))))
           gc (with_gc_settings s d) u.
Proof.
  intros Hi Hgc Hdrv Hpend. unfold with_binding.
  destruct g; simpl in *. norm_gprs.
  unfold pri_activate_callback, ctx_pending_reply. runs_ins Hi Hgc.
  rewrite Hdrv. runs_ins Hi Hgc. rewrite Hpend. runs_ins Hi Hgc.
  assert (Hplain :
    exists h q s,
      (type c <> OFONO_GPRS_CONTEXT_TYPE_MMS ->
       h = proxy_host c /\ q = proxy_port c)
      /\ <[i:=with_ctx_pending None (with_active true c)]> contexts0
         = <[i:=with_proxy_host h
                  (with_proxy_port q
                     (with_ctx_pending None (with_active true c)))]>
             contexts0
      /\ <[gc:=d]> context_drivers0
         = <[gc:=with_gc_settings s d]> context_drivers0).
  { exists (proxy_host c), (proxy_port c), (gc_settings d).
    split; [done|]. rewrite with_gc_settings_same.
    by rewrite <- (with_proxy_same (with_ctx_pending None _)) at 1. }
  destruct (bool_decide (interface d <> None));
    [rewrite pri_context_signal_settings_exec|].
  2:{ destruct Hplain as (h & q & s & Hmms & Hc & Hd).
      exists h, q, s. split; [done|]. by rewrite Hc, Hd. }
  case_bool_decide as Hmms; simpl.
  2:{ destruct Hplain as (h & q & s & Hm & Hc & Hd).
      exists h, q, s. split; [done|]. by rewrite Hc, Hd. }
  destruct (bool_decide (ipv4 (gc_settings d) <> None)).
  2:{ destruct Hplain as (h & q & s & Hm & Hc & Hd).
      exists h, q, s. split; [done|]. by rewrite Hc, Hd. }
  clear Hplain. unfold pri_update_mms_context_settings, ipv4_update.
  runs_ins Hi Hgc. rewrite Hdrv. runs_ins Hi Hgc.
  destruct (pri_parse_proxy_frame (message_proxy c)
              (with_ctx_pending None (with_active true c))) as (h & q & Hpp).
  exists h, q. eexists. split; [done|].
  rewrite Hpp. norm_gprs. by case_match; runs.
Qed.

(* pri_reset_context_settings on a bound context: the settings of the
   binding are dropped and the proxy of an MMS context is forgotten *)
Lemma pri_reset_context_settings_exec g i ctx gc d :
  contexts g !! i = Some ctx -> context_driver ctx = Some gc ->
  context_drivers g !! gc = Some d ->
  exec (pri_reset_context_settings i) g
  = with_contexts
      (alter (fun c => if bool_decide (type ctx = OFONO_GPRS_CONTEXT_TYPE_MMS)
                       then with_proxy_port 0 (with_proxy_host None c)
                       else c) i (contexts g))
      (with_context_drivers
         (alter (with_gc_settings (mk_context_settings None None)) gc
            (context_drivers g)) g).
Proof.
  intros Hctx Hdrv Hd. unfold pri_reset_context_settings. runs.
  rewrite Hctx, Hdrv, Hd. unfold context_settings_free. runs.
  rewrite pri_context_signal_settings_exec.
  destruct g; simpl in *. norm_gprs.
  case_bool_decide; runs; norm_gprs.
  - by rewrite list_alter_alter_eq.
  - f_equal. symmetry. apply (alter_same _ _ i ctx Hctx). done.
Qed.

(* deactivating an active context over the bus gives back the idle context,
   the idle binding and the cid *)
Lemma deactivation_restores C g i ctx gc d used c h q s m :
  contexts g !! i = Some ctx -> context_drivers g !! gc = Some d ->
  pending g = None ->
  flag_test (flags g) GPRS_FLAG_ATTACHING = false ->
  flag_test (flags g) GPRS_FLAG_ATTACHED_UPDATE = false ->
  active ctx = false -> ctx_pending ctx = None ->
  context_driver ctx = None -> cid (context ctx) = 0 ->
  proxy_host ctx = None -> proxy_port ctx = 0 ->
  (type ctx <> OFONO_GPRS_CONTEXT_TYPE_MMS -> h = None /\ q = 0) ->
  inuse d = false -> gc_settings d = mk_context_settings None None ->
  used_cids g = Some used -> Uintset.wf used ->
  Uintset.umin used <= c <= Uintset.umax used ->
  Uintset.contains used c = false ->
  let g3 :=
    with_binding g i
      (with_proxy_host h
         (with_proxy_port q
            (with_ctx_pending None
               (with_active true
                  (with_context_driver (Some gc)
                     (with_context (with_cid c (context ctx)) ctx))))))
      gc (with_gc_settings s (with_inuse true d))
      (Some (Uintset.put used c)) in
  result (pri_set_property C i (set_active_msg m false)) g3 = None
  /\ trace (pri_set_property C i (set_active_msg m false)) g3
     = [call_deactivate_primary gc c cb_pri_deactivate_callback i]
  /\ exec (pri_deactivate_callback i true)
       (exec (pri_set_property C i (set_active_msg m false)) g3)
     = g.
Proof.
  intros Hctx Hd Hp Hfl Hau Hact Hcp Hdrv Hcid Hph Hpp Hmms Hin Hs Hu Hwf
    Hrange Hfree g3.
  assert (Hi : (i < length (contexts g))%nat) by (by eapply lookup_lt_Some).
  assert (Hgc : (gc < length (context_drivers g))%nat)
    by (by eapply lookup_lt_Some).
  unfold g3, with_binding. clear g3.
  unfold pri_set_property, set_active_msg. simpl. unfold pri_set_active.
  destruct g; simpl in *. norm_gprs. subst pending0.
  runs_ins Hi Hgc. rewrite Hfl. runs_ins Hi Hgc.
  split; [done|]. split; [done|].
  unfold pri_deactivate_callback, ctx_pending_reply.
  runs_ins Hi Hgc.
  erewrite pri_reset_context_settings_exec;
    [|simpl; by apply list_lookup_insert_eq|done
     |simpl; by apply list_lookup_insert_eq].
  simpl. norm_gprs. runs_ins Hi Hgc.
  rewrite !pri_context_signal_active_exec.
  assert (Hq : type ctx <> OFONO_GPRS_CONTEXT_TYPE_MMS ->
               with_proxy_host h (with_proxy_port q ctx) = ctx).
  { intros Hm. destruct (Hmms Hm) as [-> ->].
    destruct ctx. simpl in *. by subst. }
  case_bool_decide as Hm;
    unfold release_context; runs_ins Hi Hgc; rewrite Hau; runs;
    rewrite put_take_free by done;
    (f_equal;
     [rewrite <- (list_insert_id _ _ _ Hctx) at 2; f_equal
     |done
     |rewrite <- (list_insert_id _ _ _ Hd) at 2; f_equal;
      destruct d; simpl in *; by subst]).
  - destruct ctx as [? ? ? ? ? ? ? ? ? ? ? pc ?]. destruct pc.
    simpl in *. by subst.
  - specialize (Hq Hm).
    destruct ctx as [? ? ? ? ? ? ? ? ? ? ? pc ?]. destruct pc.
    simpl in *. subst. by inversion Hq.
Qed.



(** *** The AT driver: listing the contexts the modem activated *)

Lemma contains_new_from_range (lo hi n : Z) :
  Uintset.contains (Uintset.new_from_range lo hi) n = false.
Proof.
  unfold Uintset.contains, Uintset.new_from_range. simpl.
  destruct (Uintset.in_range _ n); [|done]. simpl.
  destruct (replicate _ false !! _) eqn:E; [|done].
  by apply lookup_replicate in E as [-> _].
Qed.

Lemma contains_put (s : Uintset.t) (n m : Z) :
  Uintset.wf s ->
  Uintset.contains (Uintset.put s n) m
  = (Uintset.in_range s n && (m =? n)) || Uintset.contains s m.
Proof.
  intros [Hle Hsz]. unfold Uintset.put, Uintset.contains, Uintset.size in *.
  destruct (Uintset.in_range s n) eqn:Hn; [|done].
  unfold Uintset.in_range in *. simpl.
  apply andb_true_iff in Hn as [Hn1 Hn2].
  apply Z.leb_le in Hn1, Hn2.
  destruct (Z.eqb_spec m n) as [->|Hne].
  - rewrite list_lookup_insert_eq by lia.
    replace (Uintset.umin s <=? n) with true by (symmetry; by apply Z.leb_le).
    replace (n <=? Uintset.umax s) with true by (symmetry; by apply Z.leb_le).
    done.
  - simpl.
    destruct (Uintset.umin s <=? m) eqn:Hm1; [|done].
    destruct (m <=? Uintset.umax s) eqn:Hm2; [|done].
    apply Z.leb_le in Hm1, Hm2. simpl.
    rewrite list_lookup_insert_ne by lia. done.
Qed.

Lemma at_cgdcont_parse_sound (lines : list AtmodemSetup.cgdcont_line)
    (cids : option Uintset.t) (c : Z) (a : string) :
  In (AtmodemSetup.ofono_gprs_cid_activated c a)
     (AtmodemSetup.at_cgdcont_parse lines cids) ->
  AtmodemSetup.l_uintset_contains cids c = true /\ In (Some c, Some a) lines.
Proof.
  induction lines as [|[[n|] v] rest IH]; simpl; [done| |done].
  destruct (AtmodemSetup.l_uintset_contains cids n) eqn:Hn; simpl.
  - intros [H|H].
    + destruct v; inversion H; subst. by split; [|left].
    + destruct (IH H). by split; [|right].
  - intros H. destruct (IH H). by split; [|right].
Qed.

Lemma at_cgdcont_parse_complete (pre post : list AtmodemSetup.cgdcont_line)
    (cids : option Uintset.t) (c : Z) (a : string) :
  Forall (fun l => l.1 <> None) pre ->
  AtmodemSetup.l_uintset_contains cids c = true ->
  In (AtmodemSetup.ofono_gprs_cid_activated c a)
     (AtmodemSetup.at_cgdcont_parse (pre ++ (Some c, Some a) :: post) cids).
Proof.
  intros Hpre Hc. induction Hpre as [|[[n|] v] pre Hn _ IH]; simpl.
  - rewrite Hc. simpl. by left.
  - destruct (AtmodemSetup.l_uintset_contains cids n); simpl; [right|]; done.
  - done.
Qed.

Lemma activated_cid_set (n c : Z) :
  - 2 ^ 31 <= n < 2 ^ 31 -> n <> -1 ->
  AtmodemSetup.l_uintset_contains
    ((fun s => Uintset.put s n) <$> l_uintset_new_from_range 0 n)
    c = true
  <-> c = n /\ 0 <= n <= 65534.
Proof.
  intros Hint Hn1. unfold l_uintset_new_from_range.
  change (0 mod 2 ^ 32) with 0. rewrite Z.sub_0_r.
  assert (Hm : n mod 2 ^ 32 = if n <? 0 then n + 2 ^ 32 else n).
  { destruct (Z.ltb_spec n 0).
    - symmetry. apply (Z.mod_unique _ _ (-1)); lia.
    - apply Z.mod_small. lia. }
  rewrite Hm.
  destruct (Z.ltb_spec n 0) as [Hneg|Hpos].
  - rewrite Z.mod_small by lia.
    destruct (Z.ltb_spec 65535 (n + 2 ^ 32 + 1)); [|lia]. simpl.
    split; [done|lia].
  - rewrite Z.mod_small by lia.
    destruct (Z.ltb_spec 65535 (n + 1)) as [Hbig|Hsmall]; simpl.
    + split; [done|lia].
    + replace (Uintset.mk 0 n (replicate (Z.to_nat (n + 1)) false))
        with (Uintset.new_from_range 0 n)
        by (unfold Uintset.new_from_range; do 3 f_equal; lia).
      rewrite contains_put by (apply wf_new_from_range; lia).
      rewrite contains_new_from_range, orb_false_r.
      unfold Uintset.in_range, Uintset.new_from_range. simpl.
      rewrite andb_true_iff, andb_true_iff, Z.eqb_eq, !Z.leb_le. lia.
Qed.

(** X6. The reply to the AT+CGDCONT? sent on "ME PDN ACT" reports the
    context the modem activated and no other.  With an int in
    last_auto_context_id, every call of ofono_gprs_cid_activated the handler
    makes carries that cid, which lies between 0 and 65534, and the APN of a
    "+CGDCONT:" line of that cid in a successful reply; and such a line is
    reported when the cid of every line before it could be read. *)
Theorem at_cgdcont_read_cb_reports (ok : bool)
    (lines : list AtmodemSetup.cgdcont_line) (gd : Atmodem.gprs_data) :
  let n := Atmodem.last_auto_context_id gd in
  - 2 ^ 31 <= n < 2 ^ 31 ->
  (forall c a,
     In (AtmodemSetup.ofono_gprs_cid_activated c a)
        (AtmodemSetup.at_cgdcont_read_cb ok lines gd) ->
     ok = true /\ c = n /\ 0 <= n <= 65534 /\ In (Some c, Some a) lines)
  /\ (forall pre post a,
        ok = true -> 0 <= n <= 65534 ->
        lines = pre ++ (Some n, Some a) :: post ->
        Forall (fun l => l.1 <> None) pre ->
        In (AtmodemSetup.ofono_gprs_cid_activated n a)
           (AtmodemSetup.at_cgdcont_read_cb ok lines gd)).
Proof.
  intros n Hint. unfold AtmodemSetup.at_cgdcont_read_cb. fold n. split.
  - intros c a H. destruct ok; simpl in H; [|by destruct H].
    destruct (Z.eqb_spec n (-1)) as [|Hn1]; [done|].
    apply at_cgdcont_parse_sound in H as [Hc Hl].
    apply activated_cid_set in Hc as [-> Hn]; done.
  - intros pre post a -> Hn -> Hpre. simpl.
    destruct (Z.eqb_spec n (-1)); [lia|].
    apply at_cgdcont_parse_complete; [done|].
    by apply activated_cid_set.
Qed.

Lemma at_cgdcont_read_cb_reports_witness :
  In (AtmodemSetup.ofono_gprs_cid_activated 5 "internet")
     (AtmodemSetup.at_cgdcont_read_cb true
        [(Some 1, Some "ims"); (Some 5, Some "internet"); (Some 6, None)]
        (Atmodem.mk_gprs_data Atmodem.OFONO_VENDOR_GENERIC 5 false 1)).
Proof.
  apply (proj2 (at_cgdcont_read_cb_reports true
                  [(Some 1, Some "ims"); (Some 5, Some "internet");
                   (Some 6, None)]
                  (Atmodem.mk_gprs_data Atmodem.OFONO_VENDOR_GENERIC 5 false 1)
                  ltac:(simpl; lia))
           [(Some 1, Some "ims")] [(Some 6, None)] "internet");
    [reflexivity | simpl; lia | reflexivity |].
  by repeat constructor.
Defined.

Lemma cgact_set_put (acc : AtmodemSetup.list_contexts_data) (n : Z) :
  cgact_set acc ->
  cgact_set
    (Some (Uintset.put (default (Uintset.new AtmodemSetup.MAX_CONTEXTS) acc)
             n)).
Proof.
  intros Hacc u Hu. inversion Hu; subst u; clear Hu.
  assert (Hd : Uintset.wf (default (Uintset.new AtmodemSetup.MAX_CONTEXTS) acc)
               /\ Uintset.umin
                    (default (Uintset.new AtmodemSetup.MAX_CONTEXTS) acc) = 1
               /\ Uintset.umax
                    (default (Uintset.new AtmodemSetup.MAX_CONTEXTS) acc)
                  = 255).
  { destruct acc as [u|]; simpl; [by apply Hacc|].
    split; [|done]. by apply wf_new_from_range. }
  destruct Hd as (Hwf & Hmin & Hmax).
  split; [by apply wf_put|].
  unfold Uintset.put. by destruct (Uintset.in_range _ n).
Qed.

Lemma contains_cgact_put (acc : AtmodemSetup.list_contexts_data) (n m : Z) :
  cgact_set acc ->
  Uintset.contains
    (Uintset.put (default (Uintset.new AtmodemSetup.MAX_CONTEXTS) acc) n) m
  = ((1 <=? n) && (n <=? 255) && (m =? n))
    || AtmodemSetup.l_uintset_contains acc m.
Proof.
  intros Hacc. destruct acc as [u|]; simpl.
  - destruct (Hacc u eq_refl) as (Hwf & Hmin & Hmax).
    rewrite contains_put by done. unfold Uintset.in_range.
    by rewrite Hmin, Hmax.
  - unfold Uintset.new.
    rewrite contains_put by (by apply wf_new_from_range).
    by rewrite contains_new_from_range.
Qed.

Lemma cgact_lines_sound (lines : list (option Z * option Z)) (last : Z)
    (acc : AtmodemSetup.list_contexts_data) (n : Z) :
  cgact_set acc ->
  AtmodemSetup.l_uintset_contains
    (AtmodemSetup.cgact_lines lines last acc).2 n = true ->
  AtmodemSetup.l_uintset_contains acc n = true
  \/ (1 <= n <= 255 /\ In (Some n, Some 1) lines).
Proof.
  revert last acc.
  induction lines as [|[[c|] [st|]] rest IH]; intros last acc Hacc; simpl;
    try by left.
  destruct (Z.eqb_spec st 1) as [->|Hst]; simpl.
  - intros H. apply IH in H; [|by apply cgact_set_put].
    destruct H as [H|[Hn Hin]]; [|by right; split; [|right]].
    simpl in H. rewrite contains_cgact_put in H by done.
    apply orb_true_iff in H as [H|H]; [|by left].
    right. apply andb_true_iff in H as [H1 H2].
    apply andb_true_iff in H1 as [H1 H3].
    apply Z.leb_le in H1, H3. apply Z.eqb_eq in H2. subst c.
    split; [lia|by left].
  - intros H. apply IH in H; [|done].
    destruct H as [H|[Hn Hin]]; [by left|by right; split; [|right]].
Qed.

Lemma cgact_lines_keeps (lines : list (option Z * option Z)) (last : Z)
    (acc : AtmodemSetup.list_contexts_data) (n : Z) :
  cgact_set acc ->
  AtmodemSetup.l_uintset_contains acc n = true ->
  AtmodemSetup.l_uintset_contains
    (AtmodemSetup.cgact_lines lines last acc).2 n = true.
Proof.
  revert last acc.
  induction lines as [|[[c|] [st|]] rest IH]; intros last acc Hacc Hn; simpl;
    try done.
  destruct (st =? 1); simpl; [|by apply IH].
  apply IH; [by apply cgact_set_put|]. simpl.
  rewrite contains_cgact_put by done. by rewrite Hn, orb_true_r.
Qed.

Lemma cgact_lines_complete (lines : list (option Z * option Z)) (last : Z)
    (acc : AtmodemSetup.list_contexts_data) (n : Z) :
  cgact_set acc ->
  Forall (fun l => l.1 <> None /\ l.2 <> None) lines ->
  1 <= n <= 255 -> In (Some n, Some 1) lines ->
  AtmodemSetup.l_uintset_contains
    (AtmodemSetup.cgact_lines lines last acc).2 n = true.
Proof.
  intros Hacc Hall Hn. revert last acc Hacc.
  induction Hall as [|[[c|] [st|]] rest [H1 H2] _ IH]; intros last acc Hacc;
    simpl; try done.
  intros [Heq|Hin].
  - inversion Heq; subst. simpl.
    apply cgact_lines_keeps; [by apply cgact_set_put|]. simpl.
    rewrite contains_cgact_put by done.
    replace (1 <=? n) with true by (symmetry; apply Z.leb_le; lia).
    replace (n <=? 255) with true by (symmetry; apply Z.leb_le; lia).
    by rewrite Z.eqb_refl.
  - destruct (st =? 1); simpl; [|by apply IH].
    apply IH; [by apply cgact_set_put|done].
Qed.

Lemma cgact_lines_set (lines : list (option Z * option Z)) (last : Z)
    (acc : AtmodemSetup.list_contexts_data) :
  cgact_set acc -> cgact_set (AtmodemSetup.cgact_lines lines last acc).2.
Proof.
  revert last acc.
  induction lines as [|[[c|] [st|]] rest IH]; intros last acc Hacc; simpl;
    try done.
  destruct (st =? 1); simpl; [|by apply IH].
  apply IH. by apply cgact_set_put.
Qed.

Lemma cgact_lines_last (lines : list (option Z * option Z)) (last : Z)
    (acc : AtmodemSetup.list_contexts_data) :
  last <> -1 -> (AtmodemSetup.cgact_lines lines last acc).1 = last.
Proof.
  revert last acc.
  induction lines as [|[[c|] [st|]] rest IH]; intros last acc Hl; simpl;
    try done.
  destruct (st =? 1); simpl; [|by apply IH].
  destruct (Z.eqb_spec last (-1)); [done|]. by apply IH.
Qed.

Lemma at_cgdcont_parse_no_cb (lines : list AtmodemSetup.cgdcont_line)
    (cids : option Uintset.t) :
  filter is_cb (AtmodemSetup.at_cgdcont_parse lines cids) = [].
Proof.
  induction lines as [|[[n|] v] rest IH]; simpl; try done.
  destruct (AtmodemSetup.l_uintset_contains cids n); simpl; [|done].
  rewrite filter_cons. by destruct v.
Qed.



(** *** The AT driver: probing the modem *)

Lemma cgdcont_test_lines_found (lines : list AtmodemSetup.cgdcont_test_line)
    (r0 : option (Z * Z)) (r : option (Z * Z)) :
  AtmodemSetup.cgdcont_test_lines lines r0 = (true, r) ->
  exists l, In l lines /\ AtmodemSetup.tl_open_list l = true
            /\ AtmodemSetup.tl_range l = r
            /\ AtmodemSetup.tl_pdp_type l = Some "IP" /\ r <> None.
Proof.
  revert r0. induction lines as [|l rest IH]; intros r0; simpl; [done|].
  assert (Hrest : forall r1,
            AtmodemSetup.cgdcont_test_lines rest r1 = (true, r) ->
            exists l0, In l0 (l :: rest)
                       /\ AtmodemSetup.tl_open_list l0 = true
                       /\ AtmodemSetup.tl_range l0 = r
                       /\ AtmodemSetup.tl_pdp_type l0 = Some "IP"
                       /\ r <> None).
  { intros r1 H. destruct (IH _ H) as (l0 & Hin & Hl0).
    exists l0. by split; [right|]. }
  destruct (AtmodemSetup.tl_open_list l) eqn:Ho; simpl; [|by apply Hrest].
  destruct (AtmodemSetup.tl_range l) as [rg|] eqn:Hr; [|by apply Hrest].
  destruct (AtmodemSetup.tl_skip_next l); simpl; [|by apply Hrest].
  destruct (AtmodemSetup.tl_pdp_type l) as [t|] eqn:Ht; [|by apply Hrest].
  destruct (AtmodemSetup.tl_open_list2 l && negb (AtmodemSetup.tl_close_list l));
    [by apply Hrest|].
  destruct (g_str_equal t "IP") eqn:Hip; [|by apply Hrest].
  intros H. inversion H; subst r. exists l.
  apply String.eqb_eq in Hip. subst t. by split_and!; [left|..].
Qed.

Lemma cgreg_ranges_spec (ranges : list (Z * Z)) (b1 b2 : bool) :
  AtmodemSetup.cgreg_ranges ranges b1 b2
  = (b1 || existsb (covers 1) ranges, b2 || existsb (covers 2) ranges).
Proof.
  revert b1 b2. induction ranges as [|[lo hi] rest IH]; intros b1 b2; simpl.
  - by rewrite !orb_false_r.
  - rewrite IH. unfold covers. simpl.
    destruct ((lo <=? 1) && (1 <=? hi)), ((lo <=? 2) && (2 <=? hi)), b1, b2;
      done.
Qed.

Ltac no_register :=
  split; [done|];
  let H := fresh "H" in
  intros H; solve [repeat (destruct H as [H|H]; try done)].

Ltac in_list := solve [repeat (first [left; reflexivity | right])].


(** X9. The reply to AT+CGREG=? picks the registration reports by what the
    first list of the reply offers, in whatever order it lists the modes:
    AT+CGREG=2 when a range holds 2, else AT+CGREG=1 when a range holds 1,
    and otherwise the atom is removed and no command is sent. *)
Theorem at_cgreg_test_cb_mode (lines : list (option (list (Z * Z))))
    (ranges : list (Z * Z)) (gd : Atmodem.gprs_data) :
  AtmodemSetup.cgreg_first_list lines = Some ranges ->
  let calls := AtmodemSetup.at_cgreg_test_cb true lines gd in
  (existsb (covers 2) ranges = true ->
   head calls = Some (AtmodemSetup.g_at_chat_send "AT+CGREG=2")
   /\ sends "AT+CGREG=1" calls = false)
  /\ (existsb (covers 2) ranges = false ->
      existsb (covers 1) ranges = true ->
      head calls = Some (AtmodemSetup.g_at_chat_send "AT+CGREG=1")
      /\ sends "AT+CGREG=2" calls = false)
  /\ (existsb (covers 2) ranges = false ->
      existsb (covers 1) ranges = false ->
      calls = [AtmodemSetup.ofono_info "GPRS not supported on this device";
               AtmodemSetup.ofono_gprs_remove]).
Proof.
  intros Hl calls. subst calls. unfold AtmodemSetup.at_cgreg_test_cb.
  rewrite Hl, cgreg_ranges_spec. simpl.
  split_and!.
  - intros ->. simpl. split; [done|]. by destruct (Atmodem.vendor gd).
  - intros -> ->. simpl. split; [done|]. by destruct (Atmodem.vendor gd).
  - by intros -> ->.
Qed.

Lemma at_cgreg_test_cb_mode_witness :
  head (AtmodemSetup.at_cgreg_test_cb true [None; Some [(2, 2); (0, 1)]]
          (Atmodem.mk_gprs_data Atmodem.OFONO_VENDOR_GENERIC (-1) false 0))
  = Some (AtmodemSetup.g_at_chat_send "AT+CGREG=2").
Proof.
  apply (proj1 (at_cgreg_test_cb_mode [None; Some [(2, 2); (0, 1)]]
                  [(2, 2); (0, 1)]
                  (Atmodem.mk_gprs_data Atmodem.OFONO_VENDOR_GENERIC (-1)
                     false 0) eq_refl)).
  reflexivity.
Defined.

Lemma ascending_above (ranges : list (Z * Z)) (p k : Z) :
  ascending p ranges = true -> k <= p -> existsb (covers k) ranges = false.
Proof.
  unfold covers.
  revert p. induction ranges as [|[lo hi] rest IH]; intros p; simpl; [done|].
  intros H Hk. apply andb_true_iff in H as [H Hrest].
  apply andb_true_iff in H as [H1 H2].
  apply Z.ltb_lt in H1. apply Z.leb_le in H2.
  rewrite (IH hi) by (done || lia).
  destruct (Z.leb_spec lo k); [lia|done].
Qed.

Lemma cgerep_arg1_ascending (ranges : list (Z * Z)) (p a : Z) :
  ascending p ranges = true ->
  AtmodemSetup.cgerep_arg1 ranges a
  = if existsb (covers 2) ranges then 2
    else if existsb (covers 1) ranges then 1 else a.
Proof.
  revert p a.
  induction ranges as [|[lo hi] rest IH]; intros p a; [done|].
  intros H. pose proof H as Hasc. simpl in H.
  apply andb_true_iff in H as [H Hrest].
  apply andb_true_iff in H as [H1 H2].
  apply Z.ltb_lt in H1. apply Z.leb_le in H2.
  cbn [AtmodemSetup.cgerep_arg1 existsb]. rewrite (IH hi) by done.
  change (covers 2 (lo, hi)) with ((lo <=? 2) && (2 <=? hi)).
  change (covers 1 (lo, hi)) with ((lo <=? 1) && (1 <=? hi)).
  destruct ((lo <=? 2) && (2 <=? hi)) eqn:E2; simpl.
  - apply andb_true_iff in E2 as [_ E2]. apply Z.leb_le in E2.
    rewrite (ascending_above rest hi 1) by (done || lia).
    by destruct (existsb (covers 2) rest).
  - by destruct ((lo <=? 1) && (1 <=? hi)), (existsb (covers 2) rest),
      (existsb (covers 1) rest).
Qed.

Lemma cgerep_arg1_last (ranges : list (Z * Z)) (r : Z * Z) (a : Z) :
  AtmodemSetup.cgerep_arg1 (ranges ++ [r]) a
  = if covers 2 r then 2
    else if covers 1 r then 1 else AtmodemSetup.cgerep_arg1 ranges a.
Proof.
  revert a. induction ranges as [|[lo hi] rest IH]; intros a; simpl.
  - destruct r as [lo hi]. unfold covers. simpl.
    by destruct ((lo <=? 2) && (2 <=? hi)), ((lo <=? 1) && (1 <=? hi)).
  - by rewrite IH.
Qed.

Lemma cgerep_arg2_spec (ranges : list (Z * Z)) (a : Z) :
  AtmodemSetup.cgerep_arg2 ranges a
  = if existsb (covers 1) ranges then 1 else a.
Proof.
  revert a. induction ranges as [|[lo hi] rest IH]; intros a; [done|].
  cbn [AtmodemSetup.cgerep_arg2 existsb]. rewrite IH.
  change (covers 1 (lo, hi)) with ((lo <=? 1) && (1 <=? hi)).
  by destruct ((lo <=? 1) && (1 <=? hi)), (existsb (covers 1) rest).
Qed.



(** *** The AT driver: the "+CGEV:" events of a context *)

Lemma skip_token_word (w rest : string) :
  no_space w = true ->
  AtmodemSetup.skip_token (w +:+ String " " rest) = String " " rest.
Proof.
  induction w as [|c w IH]; appends; simpl; [done|].
  intros H. apply andb_true_iff in H as [Hc Hw].
  apply negb_true_iff in Hc. rewrite Hc. by apply IH.
Qed.

Lemma scan_skip_string_word (w rest : string) :
  word w = true ->
  AtmodemSetup.scan_skip_string (String " " (w +:+ String " " rest))
  = Some (String " " rest).
Proof.
  unfold word. intros H. apply andb_true_iff in H as [Hne Hw].
  destruct w as [|c w]; [done|].
  pose proof Hw as Hw'. simpl in Hw'.
  apply andb_true_iff in Hw' as [Hc _]. apply negb_true_iff in Hc.
  unfold AtmodemSetup.scan_skip_string. appends.
  change (skip_space (String " " (String c (w +:+ String " " rest))))
    with (skip_space (String c (w +:+ String " " rest))).
  cbn [skip_space]. rewrite Hc.
  rewrite <- append_cons. by rewrite skip_token_word.
Qed.

Lemma scan_unsigned_print_uint (n : Z) (rest : string) :
  0 <= n < 2 ^ 64 -> no_leading_digit rest = true ->
  AtmodemSetup.scan_unsigned (String " " (print_uint n +:+ rest)) = Some n.
Proof.
  intros Hn Hrest. unfold AtmodemSetup.scan_unsigned.
  change (skip_space (String " " (print_uint n +:+ rest)))
    with (skip_space (print_uint n +:+ rest)).
  pose proof (scan_digits_print_uint n rest ltac:(lia) Hrest) as Hscan.
  destruct (print_uint_first_digit n) as (c & r & Hp & Hc).
  rewrite Hp in *. appends. rewrite append_cons in Hscan.
  assert (Hsp : is_space c = false).
  { unfold is_digit, is_space in *. apply andb_true_iff in Hc as [H1 H2].
    apply N.leb_le in H1, H2.
    destruct (N.eqb_spec (N_of_ascii c) 32); [lia|].
    destruct (N.leb_spec (N_of_ascii c) 13); [lia|].
    by rewrite andb_false_r. }
  cbn [skip_space]. rewrite Hsp.
  assert (Hv : (fun k => Z.min k (2 ^ 64 - 1))
               <$> scan_digits (String c (r +:+ rest)) None = Some n).
  { rewrite Hscan. simpl. f_equal. lia. }
  destruct (Ascii.eqb_spec c "-") as [->|Hm]; [done|].
  destruct (Ascii.eqb_spec c "+") as [->|Hpl]; [done|].
  destruct c as [[] [] [] [] [] [] [] []]; try done.
Qed.

Lemma scan_skip_string_first (w rest : string) :
  word w = true ->
  AtmodemSetup.scan_skip_string (w +:+ String " " rest)
  = Some (String " " rest).
Proof.
  unfold word. intros H. apply andb_true_iff in H as [Hne Hw].
  destruct w as [|c w]; [done|].
  pose proof Hw as Hw'. simpl in Hw'.
  apply andb_true_iff in Hw' as [Hc _]. apply negb_true_iff in Hc.
  unfold AtmodemSetup.scan_skip_string. appends.
  cbn [skip_space]. rewrite Hc.
  rewrite <- append_cons. by rewrite skip_token_word.
Qed.

(* the number after three words *)
Lemma sscanf_event_number (w1 w2 w3 rest : string) (n : Z) :
  word w1 = true -> word w2 = true -> word w3 = true ->
  0 <= n < 2 ^ 31 -> no_leading_digit rest = true ->
  AtmodemSetup.sscanf_event
    (w1 +:+ String " " (w2 +:+ String " " (w3 +:+ String " "
       (print_uint n +:+ rest))))
  = Some n.
Proof.
  intros H1 H2 H3 Hn Hrest. unfold AtmodemSetup.sscanf_event.
  rewrite scan_skip_string_first by done. simpl.
  rewrite scan_skip_string_word by done. simpl.
  rewrite scan_skip_string_word by done. simpl.
  rewrite scan_unsigned_print_uint by (done || lia). simpl.
  rewrite Z.mod_small by lia.
  destruct (Z.ltb_spec n (2 ^ 31)); [done|lia].
Qed.

(** X11. The events of a context the modem activates by itself, read from
    their text.  "ME PDN ACT n", with n a cid below 2^31 in decimal and
    possibly more text that does not start with a digit, stores n in
    last_auto_context_id and sends AT+CGDCONT?.  A following
    "ME PDN DEACT n" for the same cid sets last_auto_context_id back to -1;
    one for another cid changes nothing.  Neither event calls into the
    core. *)
Theorem cgev_notify_context_events (gd : Atmodem.gprs_data) (n : Z)
    (rest : string) (u : Z) :
  0 <= n < 2 ^ 31 -> no_leading_digit rest = true ->
  let act := AtmodemSetup.cgev_notify ("ME PDN ACT " +:+ print_uint n +:+ rest)
               u gd in
  act = (with_last_auto n gd, [Atmodem.g_at_chat_send "AT+CGDCONT?"])
  /\ AtmodemSetup.cgev_notify ("ME PDN DEACT " +:+ print_uint n +:+ rest)
       u act.1
     = (with_last_auto (-1) gd, [])
  /\ (forall m rest',
        0 <= m < 2 ^ 31 -> m <> n -> no_leading_digit rest' = true ->
        AtmodemSetup.cgev_notify
          ("ME PDN DEACT " +:+ print_uint m +:+ rest') u act.1
        = (act.1, [])).
Proof.
  intros Hn Hrest act.
  assert (Hact : act = (with_last_auto n gd,
                        [Atmodem.g_at_chat_send "AT+CGDCONT?"])).
  { subst act. unfold AtmodemSetup.cgev_notify.
    pose proof (sscanf_event_number "ME" "PDN" "ACT" rest n eq_refl eq_refl
                  eq_refl Hn Hrest) as Hs.
    change (AtmodemSetup.sscanf_event
              ("ME PDN ACT " +:+ print_uint n +:+ rest) = Some n) in Hs.
    rewrite Hs. reflexivity. }
  split; [done|]. rewrite Hact. simpl. split.
  - unfold AtmodemSetup.cgev_notify.
    pose proof (sscanf_event_number "ME" "PDN" "DEACT" rest n eq_refl
                  eq_refl eq_refl Hn Hrest) as Hs.
    change (AtmodemSetup.sscanf_event
              ("ME PDN DEACT " +:+ print_uint n +:+ rest) = Some n) in Hs.
    rewrite Hs.
    unfold Atmodem.cgev_notify.
    change (g_str_equal ("ME PDN DEACT " +:+ print_uint n +:+ rest)
              "NW DETACH") with false.
    change (g_str_equal ("ME PDN DEACT " +:+ print_uint n +:+ rest)
              "ME DETACH") with false.
    change (l_str_has_prefix ("ME PDN DEACT " +:+ print_uint n +:+ rest)
              "ME PDN ACT") with false.
    change (l_str_has_prefix ("ME PDN DEACT " +:+ print_uint n +:+ rest)
              "ME PDN DEACT") with true.
    simpl. by rewrite Z.eqb_refl.
  - intros m rest' Hm Hne Hrest'. unfold AtmodemSetup.cgev_notify.
    pose proof (sscanf_event_number "ME" "PDN" "DEACT" rest' m eq_refl
                  eq_refl eq_refl Hm Hrest') as Hs.
    change (AtmodemSetup.sscanf_event
              ("ME PDN DEACT " +:+ print_uint m +:+ rest') = Some m) in Hs.
    rewrite Hs.
    unfold Atmodem.cgev_notify.
    change (g_str_equal ("ME PDN DEACT " +:+ print_uint m +:+ rest')
              "NW DETACH") with false.
    change (g_str_equal ("ME PDN DEACT " +:+ print_uint m +:+ rest')
              "ME DETACH") with false.
    change (l_str_has_prefix ("ME PDN DEACT " +:+ print_uint m +:+ rest')
              "ME PDN ACT") with false.
    change (l_str_has_prefix ("ME PDN DEACT " +:+ print_uint m +:+ rest')
              "ME PDN DEACT") with true.
    simpl. destruct (Z.eqb_spec n m); [lia|done].
Qed.

Lemma cgev_notify_context_events_witness :
  AtmodemSetup.cgev_notify ("ME PDN DEACT " +:+ print_uint 5 +:+ "") 0
    (AtmodemSetup.cgev_notify ("ME PDN ACT " +:+ print_uint 5 +:+ "") 0
       (Atmodem.mk_gprs_data Atmodem.OFONO_VENDOR_GENERIC (-1) false 1)).1
  = (with_last_auto (-1)
       (Atmodem.mk_gprs_data Atmodem.OFONO_VENDOR_GENERIC (-1) false 1), []).
Proof.
  apply (cgev_notify_context_events
           (Atmodem.mk_gprs_data Atmodem.OFONO_VENDOR_GENERIC (-1) false 1)
           5 "" 0); [lia|reflexivity].
Defined.

(** *** The properties of the manager and the settings file *)

Lemma release_context_stored i g :
  stored (exec (release_context i) g) = stored g.
Proof. unfold release_context. run_cases. Qed.

Lemma pri_reset_context_settings_stored i g :
  stored (exec (pri_reset_context_settings i) g) = stored g.
Proof.
  unfold pri_reset_context_settings, context_settings_free,
    pri_context_signal_settings, do_signal_settings.
  run_cases.
Qed.

Lemma detach_active_context_stored i g :
  stored (exec (detach_active_context i) g) = stored g.
Proof.
  unfold detach_active_context. runs.
  destruct (contexts g !! i) as [ctx|]; [|done].
  destruct (negb (active ctx)); [done|].
  destruct (bool_decide _); [done|].
  destruct (context_driver ctx) as [gc|]; [|done].
  runs. rewrite pri_context_signal_active_exec, release_context_stored,
    pri_reset_context_settings_stored.
  by case_match.
Qed.

Lemma for_each_stored l body g :
  (forall i g, stored (exec (body i) g) = stored g) ->
  stored (exec (for_each l body) g) = stored g.
Proof.
  intros Hbody. revert g. induction l as [|i l IH]; intros g; simpl.
  - done.
  - by rewrite exec_bind, IH, Hbody.
Qed.

Lemma gprs_set_attached_property_stored v g :
  stored (exec (gprs_set_attached_property v) g) = stored g.
Proof. unfold gprs_set_attached_property. run_cases. Qed.

Lemma gprs_attached_update_stored g :
  stored (exec gprs_attached_update g) = stored g.
Proof.
  unfold gprs_attached_update. runs.
  set (att := if on_lte g then _ else _).
  destruct (Bool.eqb att (attached g)); [done|].
  assert (Hd : stored (exec detach_active_contexts g) = stored g).
  { unfold detach_active_contexts. rewrite exec_bind.
    apply for_each_stored. apply detach_active_context_stored. }
  destruct (have_detachable_active_contexts g && negb (on_lte g)).
  - runs. destruct att; runs; [done|].
    by rewrite gprs_set_attached_property_stored.
  - runs. rewrite gprs_set_attached_property_stored. by destruct att.
Qed.

Lemma gprs_netreg_update_stored g :
  stored (exec gprs_netreg_update g) = stored g.
Proof.
  unfold gprs_netreg_update. runs.
  destruct (netreg_status g <? 0); [done|].
  destruct (on_lte g); [apply gprs_attached_update_stored|].
  destruct (Bool.eqb _ _); [done|].
  by destruct (flag_test _ _).
Qed.

Lemma load_context_switches C grp g :
  switches (exec (load_context C grp) g) = switches g.
Proof.
  unfold load_context. runs.
  destruct (settings g) as [kf|]; [|done].
  destruct (load_context_fields C kf grp) as [[[n legacy] ctx]|]; [|done].
  unfold context_dbus_register. runs.
  destruct (dbus_register_ok g); runs; [|done].
  by destruct legacy.
Qed.

Lemma settings_update_switches f g :
  switches (exec (settings_update f) g) = switches g.
Proof. done. Qed.

Lemma load_groups_switches C groups legacy g :
  switches (exec (load_groups C groups legacy) g) = switches g.
Proof.
  revert legacy g.
  induction groups as [|grp rest IH]; intros legacy g; simpl; [done|].
  destruct (g_str_equal grp SETTINGS_GROUP); [apply IH|].
  destruct (negb (l_str_has_prefix grp "context") && _).
  - by rewrite exec_bind, IH, settings_update_switches.
  - rewrite exec_bind. destruct (result (load_context C grp) g).
    + by rewrite IH, load_context_switches.
    + by rewrite exec_bind, IH, settings_update_switches,
        load_context_switches.
Qed.

Lemma get_boolean_set_integer kf k (v : bool) :
  g_key_file_get_boolean
    (g_key_file_set_integer kf SETTINGS_GROUP k (if v then 1 else 0))
    SETTINGS_GROUP k = Some v.
Proof.
  unfold g_key_file_get_boolean, g_key_file_set_integer.
  rewrite get_set_eq. by destruct v.
Qed.

Lemma get_boolean_set_boolean kf k (v : bool) :
  g_key_file_get_boolean (g_key_file_set_boolean kf SETTINGS_GROUP k v)
    SETTINGS_GROUP k = Some v.
Proof.
  unfold g_key_file_get_boolean, g_key_file_set_boolean.
  rewrite get_set_eq. by destruct v.
Qed.

Lemma get_boolean_other kf k k' v :
  k <> k' ->
  g_key_file_get_boolean (g_key_file_set_string kf SETTINGS_GROUP k v)
    SETTINGS_GROUP k' = g_key_file_get_boolean kf SETTINGS_GROUP k'.
Proof.
  intros Hk. unfold g_key_file_get_boolean. by rewrite get_set_ne.
Qed.

(* the switches after gprs_load_settings are the ones the file gives *)
Lemma gprs_load_settings_switches C get_groups imsi_ kf g :
  switches (exec (gprs_load_settings C get_groups imsi_ (Some kf)) g)
  = (default true (g_key_file_get_boolean kf SETTINGS_GROUP "Powered"),
     default false
       (g_key_file_get_boolean kf SETTINGS_GROUP "RoamingAllowed")).
Proof.
  unfold gprs_load_settings. runs.
  destruct (g_key_file_get_boolean kf SETTINGS_GROUP "Powered") as [p|];
    unfold settings_update; runs.
  - destruct (g_key_file_get_boolean kf SETTINGS_GROUP "RoamingAllowed")
      as [r|]; runs; destruct (result _ _); runs;
      rewrite load_groups_switches; reflexivity.
  - assert (Hother :
      g_key_file_get_boolean
        (g_key_file_set_boolean kf SETTINGS_GROUP "Powered" true)
        SETTINGS_GROUP "RoamingAllowed"
      = g_key_file_get_boolean kf SETTINGS_GROUP "RoamingAllowed")
      by (by apply get_boolean_other).
    rewrite !Hother.
    destruct (g_key_file_get_boolean kf SETTINGS_GROUP "RoamingAllowed")
      as [r|]; runs; destruct (result _ _); runs;
      rewrite load_groups_switches; reflexivity.
Qed.

(** X12. Loading the settings of a SIM.  Without a settings file only the
    file pointer is set.  With a file, Powered and RoamingAllowed take the
    values of the keys of the group Settings, whatever the other groups
    hold; a key that is missing or is none of true, false, 1 and 0 gives
    the default, which is true for Powered and false for RoamingAllowed. *)
Theorem gprs_load_settings_defaults (C : common)
    (get_groups : keyfile -> list string) (imsi_ : string)
    (opened : option keyfile) (g : ofono_gprs) :
  let g' := exec (gprs_load_settings C get_groups imsi_ opened) g in
  match opened with
  | None => g' = with_settings None g
  | Some kf =>
    powered g'
    = default true (g_key_file_get_boolean kf SETTINGS_GROUP "Powered")
    /\ roaming_allowed g'
       = default false
           (g_key_file_get_boolean kf SETTINGS_GROUP "RoamingAllowed")
  end.
Proof.
  intros g'. subst g'. destruct opened as [kf|]; [|done].
  pose proof (gprs_load_settings_switches C get_groups imsi_ kf g) as H.
  unfold switches in H. by inversion H.
Qed.

(** X13. Powered and RoamingAllowed survive a restart.  When a settings file
    is open and no request is pending, setting Powered over the bus to a
    value it does not have is answered with a method return, stores the
    value and syncs the file; gprs_load_settings on the file as it then is
    gives the manager that value of Powered again, although the value is
    written as the integer 1 or 0 and read as a boolean.  The same holds for
    RoamingAllowed. *)
Theorem manager_settings_persist (C : common) (g : ofono_gprs)
    (kf : keyfile) (n : nat) (v : bool)
    (get_groups : keyfile -> list string) (imsi_ : string)
    (g0 : ofono_gprs) :
  pending g = None -> settings g = Some kf ->
  set_attached (driver g) = true ->
  (powered g = negb v ->
   let m := gprs_set_property (set_powered_msg n v) in
   result m g = Some method_return
   /\ In storage_sync (trace m g)
   /\ powered (exec m g) = v
   /\ settings (exec m g) <> None
   /\ powered (exec (gprs_load_settings C get_groups imsi_
                       (settings (exec m g))) g0) = v)
  /\ (roaming_allowed g = negb v ->
      let m := gprs_set_property (set_roaming_msg n v) in
      result m g = Some method_return
      /\ In storage_sync (trace m g)
      /\ roaming_allowed (exec m g) = v
      /\ settings (exec m g) <> None
      /\ roaming_allowed (exec (gprs_load_settings C get_groups imsi_
                                  (settings (exec m g))) g0) = v).
Proof.
  intros Hp Hs Hdrv. split.
  - intros Hv m.
    assert (Hst : stored (exec m g)
                  = (v, roaming_allowed g,
                     Some (g_key_file_set_integer kf SETTINGS_GROUP "Powered"
                             (if v then 1 else 0)))).
    { subst m. unfold gprs_set_property, store_setting. runs.
      rewrite ?Hp, ?Hdrv, ?Hv, ?Hs. simpl.
      replace (Bool.eqb (negb v) v) with false by (by destruct v).
      runs. rewrite ?Hs. runs. by rewrite gprs_netreg_update_stored. }
    pose proof (f_equal (fun x => x.1.1) Hst) as H1.
    pose proof (f_equal snd Hst) as H3. simpl in H1, H3. rewrite H1, H3.
    split_and!; try done.
    + subst m. unfold gprs_set_property, store_setting. runs.
      rewrite ?Hp, ?Hdrv, ?Hv, ?Hs. simpl.
      replace (Bool.eqb (negb v) v) with false by (by destruct v). by runs.
    + subst m. unfold gprs_set_property, store_setting. runs.
      rewrite ?Hp, ?Hdrv, ?Hv, ?Hs. simpl.
      replace (Bool.eqb (negb v) v) with false by (by destruct v).
      runs. rewrite ?Hs. runs. by left.
    + pose proof (gprs_load_settings_switches C get_groups imsi_
                    (g_key_file_set_integer kf SETTINGS_GROUP "Powered"
                       (if v then 1 else 0)) g0) as H.
      rewrite get_boolean_set_integer in H. unfold switches in H.
      by injection H.
  - intros Hv m.
    assert (Hst : stored (exec m g)
                  = (powered g, v,
                     Some (g_key_file_set_boolean kf SETTINGS_GROUP
                             "RoamingAllowed" v))).
    { subst m. unfold gprs_set_property, store_setting. runs.
      rewrite ?Hp, ?Hv, ?Hs. simpl.
      replace (Bool.eqb (negb v) v) with false by (by destruct v).
      runs. rewrite ?Hs. runs. by rewrite gprs_netreg_update_stored. }
    pose proof (f_equal (fun x => x.1.2) Hst) as H2.
    pose proof (f_equal snd Hst) as H3. simpl in H2, H3. rewrite H2, H3.
    split_and!; try done.
    + subst m. unfold gprs_set_property, store_setting. runs.
      rewrite ?Hp, ?Hv, ?Hs. simpl.
      replace (Bool.eqb (negb v) v) with false by (by destruct v). by runs.
    + subst m. unfold gprs_set_property, store_setting. runs.
      rewrite ?Hp, ?Hv, ?Hs. simpl.
      replace (Bool.eqb (negb v) v) with false by (by destruct v).
      runs. rewrite ?Hs. runs. by left.
    + pose proof (gprs_load_settings_switches C get_groups imsi_
                    (g_key_file_set_boolean kf SETTINGS_GROUP
                       "RoamingAllowed" v) g0) as H.
      rewrite get_boolean_set_boolean in H. unfold switches in H.
      by injection H.
Qed.

Lemma manager_settings_persist_witness :
  powered
    (exec (gprs_load_settings common_model (fun _ => []) "00101"
             (settings
                (exec (gprs_set_property (set_powered_msg 7 false))
                   (with_settings (Some ∅) attached_idle_state))))
       created)
  = false.
Proof.
  apply (proj1 (manager_settings_persist common_model
                  (with_settings (Some ∅) attached_idle_state) ∅ 7 false
                  (fun _ => []) "00101" created
                  ltac:(vm_compute; reflexivity) eq_refl
                  ltac:(vm_compute; reflexivity))).
  vm_compute. reflexivity.
Defined.

(** X14. The replies of SetProperty on the manager.  The request is always
    answered at once.  While another request is pending the answer is
    "busy", whatever the arguments.  A request answered with an error
    changes nothing and calls nothing; and a request that signals nothing,
    as the one that sets a value already in place, changes nothing. *)
Theorem gprs_set_property_replies (msg : dbus_message) (g : ofono_gprs) :
  let m := gprs_set_property msg in
  result m g <> None
  /\ (pending g <> None -> result m g = Some ofono_error_busy)
  /\ (result m g <> Some method_return -> exec m g = g /\ trace m g = [])
  /\ (trace m g = [] -> exec m g = g).
Proof.
  intros m. subst m. unfold gprs_set_property. runs.
  case_bool_decide as Hp; runs; [done|].
  split; [|split; [done|]].
  - repeat (case_match; runs; try done).
  - repeat (case_match; runs; try done);
      (split; [done|]); intros Ht; by apply app_eq_nil in Ht as [_ Ht];
      try (by apply app_eq_nil in Ht as [_ Ht]).
Qed.

(** *** DeactivateAll *)

Lemma quiet_filters (l : list effect) :
  Forall (fun e => quiet e = true) l ->
  filter is_pending_reply l = [] /\ filter is_deactivate l = [].
Proof.
  induction 1 as [|e l He _ [IH1 IH2]]; [done|].
  rewrite !filter_cons. unfold quiet in He.
  apply andb_true_iff in He as [H1 H2].
  apply negb_true_iff in H1, H2. by rewrite H1, H2.
Qed.

Lemma pri_reset_context_settings_quiet i g :
  Forall (fun e => quiet e = true) (trace (pri_reset_context_settings i) g).
Proof.
  unfold pri_reset_context_settings, context_settings_free,
    pri_context_signal_settings, do_signal_settings.
  run_cases; repeat constructor.
Qed.

(* what the teardown of an active context leaves *)
Lemma teardown_exec g i ctx gc :
  contexts g !! i = Some ctx -> context_driver ctx = Some gc ->
  (gc < length (context_drivers g))%nat ->
  let m := (pri_reset_context_settings i ;; release_context i ;;
            pri_context_signal_active i)%gprs in
  (exists ctx', contexts (exec m g) = <[i := ctx']> (contexts g)
                /\ active ctx' = false)
  /\ length (context_drivers (exec m g)) = length (context_drivers g)
  /\ pending (exec m g) = pending g
  /\ Forall (fun e => quiet e = true) (trace m g).
Proof.
  intros Hctx Hdrv Hgc m. subst m.
  destruct (lookup_lt_is_Some_2 _ _ Hgc) as [d Hd].
  set (ctx1 := if bool_decide (type ctx = OFONO_GPRS_CONTEXT_TYPE_MMS)
               then with_proxy_port 0 (with_proxy_host None ctx) else ctx).
  assert (Hi : (i < length (contexts g))%nat) by (by eapply lookup_lt_Some).
  assert (H1 : contexts (exec (pri_reset_context_settings i) g) !! i
               = Some ctx1).
  { rewrite (pri_reset_context_settings_exec g i ctx gc d) by done. simpl.
    by rewrite list_lookup_alter_eq, Hctx. }
  assert (Hd1 : context_driver ctx1 = Some gc).
  { unfold ctx1. by case_bool_decide. }
  destruct (release_context_bound i _ ctx1 gc H1 Hd1) as (Ht & Hc & Hds & _).
  rewrite !exec_bind, !trace_bind, pri_context_signal_active_exec.
  split_and!.
  - eexists. rewrite Hc.
    rewrite (pri_reset_context_settings_exec g i ctx gc d) by done. simpl.
    rewrite !list_alter_alter_eq. rewrite (alter_insert _ _ _ _ Hctx).
    split; [reflexivity|]. done.
  - rewrite Hds.
    rewrite (pri_reset_context_settings_exec g i ctx gc d) by done. simpl.
    by rewrite !length_alter.
  - unfold release_context. rewrite exec_bind, exec_get, result_get, H1, Hd1.
    runs. by rewrite (pri_reset_context_settings_exec g i ctx gc d) by done.
  - rewrite Ht. simpl. apply Forall_app. split.
    + apply pri_reset_context_settings_quiet.
    + unfold pri_context_signal_active. run_cases; repeat constructor.
Qed.

Lemma count_active_insert (l : list pri_context) (i : nat)
    (c c' : pri_context) :
  l !! i = Some c -> active c = true -> active c' = false ->
  S (length (filter (fun x => active x = true) (<[i := c']> l)))
  = length (filter (fun x => active x = true) l).
Proof.
  revert i. induction l as [|x l IH]; intros i Hl Hc Hc'; [done|].
  destruct i as [|i]; simpl in *.
  - inversion Hl; subst x. rewrite !filter_cons.
    destruct (decide (active c' = true)) as [E|_]; [congruence|].
    by destruct (decide (active c = true)).
  - rewrite !filter_cons. destruct (decide (active x = true)); simpl;
      by rewrite (IH i Hl Hc Hc').
Qed.

Lemma count_active_zero (g : ofono_gprs) :
  count_active g = 0%nat ->
  list_find (fun c => active c = true) (contexts g) = None
  /\ Forall (fun c => active c = false) (contexts g).
Proof.
  unfold count_active. intros H. apply length_zero_iff_nil in H.
  assert (Hall : Forall (fun c => active c = false) (contexts g)).
  { apply Forall_forall. intros c Hc.
    destruct (active c) eqn:Ha; [|done].
    assert (Hin : c ∈ filter (fun c => active c = true) (contexts g))
      by (by apply list_elem_of_filter).
    rewrite H in Hin. by apply not_elem_of_nil in Hin. }
  split; [|done]. apply list_find_None.
  eapply Forall_impl; [exact Hall|]. simpl. intros c Hc. by rewrite Hc.
Qed.

Lemma count_active_pos (g : ofono_gprs) (n : nat) :
  count_active g = S n ->
  exists i c, list_find (fun c => active c = true) (contexts g) = Some (i, c)
              /\ contexts g !! i = Some c /\ active c = true.
Proof.
  unfold count_active. intros H.
  destruct (list_find (fun c => active c = true) (contexts g))
    as [[i c]|] eqn:Hf.
  - exists i, c. apply list_find_Some in Hf as (Hl & Ha & _). done.
  - apply list_find_None in Hf.
    assert (Hnil : filter (fun c => active c = true) (contexts g) = []).
    { clear H. induction Hf as [|x l Hx _ IH]; [done|].
      rewrite filter_cons. by destruct (decide (active x = true)). }
    by rewrite Hnil in H.
Qed.

(* the chain of DeactivateAll once the request is recorded *)
Lemma deactivate_chain (n : nat) (g : ofono_gprs) (msg : DBusMessage) :
  pending g = Some msg -> actives_bound g -> count_active g = n ->
  let m := (gprs_deactivate_next ;; answer_deactivations n)%gprs in
  Forall (fun c => active c = false) (contexts (exec m g))
  /\ pending (exec m g) = None
  /\ filter is_pending_reply (trace m g)
     = [ofono_dbus_pending_reply msg method_return]
  /\ length (filter is_deactivate (trace m g)) = n.
Proof.
  revert g. induction n as [|n IH]; intros g Hp Hb Hn m; subst m.
  - destruct (count_active_zero g Hn) as [Hf Hall].
    unfold gprs_deactivate_next, gprs_pending_reply. runs.
    rewrite Hf. runs. rewrite Hp. runs. done.
  - destruct (count_active_pos g n Hn) as (i & c & Hf & Hl & Ha).
    destruct (Hb i c Hl Ha) as (gc & Hgc & Hlt).
    destruct (teardown_exec g i c gc Hl Hgc Hlt)
      as ((c' & Hc' & Ha') & Hlen & Hpend & Hq).
    set (t := (pri_reset_context_settings i ;; release_context i ;;
               pri_context_signal_active i)%gprs) in *.
    set (g' := exec t g) in *.
    assert (Hb' : actives_bound g').
    { intros j x Hj Hx. rewrite Hc' in Hj.
      destruct (decide (i = j)) as [<-|Hne].
      - rewrite list_lookup_insert_eq in Hj by (by eapply lookup_lt_Some).
        inversion Hj; subst x. by rewrite Ha' in Hx.
      - rewrite list_lookup_insert_ne in Hj by done.
        destruct (Hb j x Hj Hx) as (gc' & Hgc' & Hlt').
        exists gc'. by rewrite Hlen. }
    assert (Hn' : count_active g' = n).
    { unfold count_active in *. rewrite Hc'.
      pose proof (count_active_insert (contexts g) i c c' Hl Ha Ha').
      lia. }
    assert (Hp' : pending g' = Some msg) by (by rewrite Hpend).
    destruct (IH g' Hp' Hb' Hn') as (H1 & H2 & H3 & H4).
    destruct (quiet_filters _ Hq) as [Hq1 Hq2].
    assert (Hrun :
      forall k : M unit,
        exec (gprs_deactivate_next ;;
              (let* g0 := get in
               match list_find (fun c => active c = true) (contexts g0) with
               | Some (i0, _) => gprs_deactivate_for_all i0 true ;; k
               | None => ret tt
               end)) g
        = exec (gprs_deactivate_next ;; k) g'
        /\ trace (gprs_deactivate_next ;;
                  (let* g0 := get in
                   match list_find (fun c => active c = true) (contexts g0)
                   with
                   | Some (i0, _) => gprs_deactivate_for_all i0 true ;; k
                   | None => ret tt
                   end)) g
           = call_deactivate_primary gc (cid (context c))
               cb_gprs_deactivate_for_all i
             :: trace t g ++ trace (gprs_deactivate_next ;; k) g').
    { intros k. unfold gprs_deactivate_next at 1 3. runs.
      rewrite Hf, Hgc. runs. rewrite Hf. unfold gprs_deactivate_for_all.
      simpl. runs. unfold g', t. runs. split; [done|].
      by rewrite <- !app_assoc. }
    destruct (Hrun (answer_deactivations n)) as [He Ht].
    change (answer_deactivations (S n)) with
      (let* g0 := get in
       match list_find (fun c => active c = true) (contexts g0) with
       | Some (i0, _) =>
         gprs_deactivate_for_all i0 true ;; answer_deactivations n
       | None => ret tt
       end)%gprs.
    rewrite He, Ht. split_and!; try done.
    + rewrite filter_cons, filter_app, Hq1. simpl. exact H3.
    + rewrite filter_cons, filter_app, Hq2. simpl. by rewrite H4.
Qed.

(** X15. DeactivateAll, from the request to its reply.  While a request is
    pending on the manager or on a context, the answer is "busy" and nothing
    changes.  Otherwise, when every active context is bound and the driver
    answers each deactivation with success, one deactivation is requested
    per active context, all contexts end up inactive, and the request is
    answered exactly once, with a method return, after which no request is
    pending.  With no active context the reply is immediate and the manager
    is left as it was. *)
Theorem deactivate_all_outcome (msg : dbus_message) (g : ofono_gprs) :
  body msg = [] ->
  (pending g <> None
   \/ Exists (fun c => ctx_pending c <> None) (contexts g) ->
   gprs_deactivate_all msg g = (Some ofono_error_busy, g, []))
  /\ (pending g = None ->
      Forall (fun c => ctx_pending c = None) (contexts g) ->
      actives_bound g ->
      let m := (gprs_deactivate_all msg ;;
                answer_deactivations (count_active g))%gprs in
      result (gprs_deactivate_all msg) g = None
      /\ Forall (fun c => active c = false) (contexts (exec m g))
      /\ pending (exec m g) = None
      /\ filter is_pending_reply (trace m g)
         = [ofono_dbus_pending_reply (serial msg) method_return]
      /\ length (filter is_deactivate (trace m g)) = count_active g
      /\ (count_active g = 0%nat -> exec (gprs_deactivate_all msg) g = g)).
Proof.
  intros Hbody. split.
  - intros H. unfold gprs_deactivate_all, bind, get, ret.
    case_bool_decide as Hp; [done|].
    destruct H as [H|H]; [done|]. rewrite Hbody.
    assert (He : existsb (fun c => bool_decide (ctx_pending c <> None))
                   (contexts g) = true).
    { apply existsb_exists. apply Exists_exists in H as (c & Hin & Hc).
      exists c. split; [by apply list_elem_of_In|]. by apply bool_decide_eq_true. }
    by rewrite He.
  - intros Hp Hall Hb m.
    assert (He : existsb (fun c => bool_decide (ctx_pending c <> None))
                   (contexts g) = false).
    { apply not_true_iff_false. intros He.
      apply existsb_exists in He as (c & Hin & Hc).
      apply bool_decide_eq_true in Hc. apply list_elem_of_In in Hin.
      rewrite Forall_forall in Hall. by apply Hc, Hall. }
    set (g1 := with_pending (Some (serial msg)) g).
    assert (Hchain := deactivate_chain (count_active g) g1 (serial msg)
                        eq_refl Hb eq_refl).
    simpl in Hchain.
    assert (Hrun : forall k : M unit,
              exec (gprs_deactivate_all msg ;; k) g
              = exec (gprs_deactivate_next ;; k) g1
              /\ trace (gprs_deactivate_all msg ;; k) g
                 = trace (gprs_deactivate_next ;; k) g1).
    { intros k. unfold gprs_deactivate_all. runs.
      rewrite Hp, Hbody, He. simpl. by runs. }
    destruct (Hrun (answer_deactivations (count_active g))) as [Hx Ht].
    subst m. rewrite Hx, Ht.
    destruct Hchain as (H1 & H2 & H3 & H4).
    split_and!; try done.
    + unfold gprs_deactivate_all. runs. rewrite Hp, Hbody, He. simpl.
      by runs.
    + intros H0. destruct (count_active_zero g H0) as [Hf _].
      unfold gprs_deactivate_all. runs. rewrite Hp, Hbody, He. simpl. runs.
      unfold gprs_deactivate_next, gprs_pending_reply. runs.
      rewrite Hf. runs. destruct g. simpl in *. by subst.
Qed.

Lemma deactivate_all_outcome_witness :
  Forall (fun c => active c = false)
    (contexts
       (exec (gprs_deactivate_all (mk_message 9%nat []) ;;
              answer_deactivations (count_active active_state))
          active_state)).
Proof.
  refine (proj1 (proj2 (proj2 (deactivate_all_outcome (mk_message 9%nat [])
            active_state eq_refl) _ _ _))).
  - vm_compute. reflexivity.
  - vm_compute. by repeat constructor.
  - intros i c Hl Ha. destruct i as [|i]; vm_compute in Hl; [|done].
    inversion Hl; subst c. exists 0%nat. split; [reflexivity|].
    vm_compute. lia.
Defined.

(** *** ResetContexts *)

Lemma remove_non_active_context_run (g : ofono_gprs) (c : pri_context)
    (l : list pri_context) :
  contexts g = c :: l -> active c = false ->
  let m := remove_non_active_context 0 in
  contexts (exec m g) = l
  /\ stored (exec m g)
     = (powered g, roaming_allowed g,
        (fun kf => g_key_file_remove_group kf (key c)) <$> settings g)
  /\ pending (exec m g) = pending g
  /\ dbus_register_ok (exec m g) = dbus_register_ok g
  /\ filter (is_signal "ContextRemoved") (trace m g)
     = [g_dbus_emit_signal "ContextRemoved" (path c)]
  /\ filter (is_signal "ContextAdded") (trace m g) = [].
Proof.
  intros Hc Ha m. subst m.
  unfold remove_non_active_context, remove_context_group,
    context_dbus_unregister, contexts_remove, exec, trace, bind, get,
    modify, emit, when, ret.
  unfold stored, with_settings, with_used_pids, with_contexts.
  rewrite Hc. simpl.
  destruct (settings g) as [kf|] eqn:Hs; simpl; rewrite ?Hc; simpl;
    rewrite ?Ha; simpl; rewrite ?Hc, ?Hs; done.
Qed.

Lemma remove_all_contexts_run (l : list pri_context) (g : ofono_gprs) :
  contexts g = l -> Forall (fun c => active c = false) l ->
  let m := remove_all_contexts (length l) in
  contexts (exec m g) = []
  /\ powered (exec m g) = powered g
  /\ pending (exec m g) = pending g
  /\ dbus_register_ok (exec m g) = dbus_register_ok g
  /\ filter (is_signal "ContextRemoved") (trace m g)
     = (fun c => g_dbus_emit_signal "ContextRemoved" (path c)) <$> l
  /\ filter (is_signal "ContextAdded") (trace m g) = [].
Proof.
  revert g. induction l as [|c l IH]; intros g Hc Hall m; subst m.
  - simpl. by runs.
  - apply Forall_cons in Hall as [Ha Hall].
    destruct (remove_non_active_context_run g c l Hc Ha)
      as (H1 & H2 & H3 & H4 & H5 & H6).
    destruct (IH _ H1 Hall) as (I1 & I2 & I3 & I4 & I5 & I6).
    simpl. rewrite exec_bind, trace_bind, !filter_app.
    rewrite I1, I2, I3, I4, I5, I6, H3, H4, H5, H6.
    pose proof (f_equal (fun x => x.1.1) H2) as Hp. simpl in Hp.
    by rewrite Hp.
Qed.

(* a context as provisioning or AddContext creates it *)
Lemma pri_context_create_idle nm t ctx :
  pri_context_create nm t = Some ctx ->
  active ctx = false /\ ctx_pending ctx = None.
Proof.
  unfold pri_context_create. intros H.
  destruct (match nm with Some n => Some n | None => _ end); [|done].
  by inversion H.
Qed.

Lemma provision_context_run C ap g :
  let m := provision_context C ap in
  (contexts (exec m g) = contexts g
   \/ exists c, contexts (exec m g) = contexts g ++ [c]
                /\ active c = false /\ ctx_pending c = None)
  /\ powered (exec m g) = powered g
  /\ pending (exec m g) = pending g
  /\ dbus_register_ok (exec m g) = dbus_register_ok g
  /\ filter (is_signal "ContextRemoved") (trace m g) = []
  /\ filter (is_signal "ContextAdded") (trace m g) = [].
Proof.
  intros m. subst m. unfold provision_context.
  repeat (match goal with
          | |- context [if ?b then ret tt else _] =>
            destruct b; [by split_and!; [left|..]|]
          end).
  runs.
  destruct (Uintset.get_max _ <? _); [by split_and!; [left|..]|].
  destruct (pri_context_create _ _) as [ctx|] eqn:Hcreate;
    [|by split_and!; [left|..]].
  destruct (pri_context_create_idle _ _ _ Hcreate) as [Ha Hp].
  unfold context_dbus_register, store_context. runs.
  destruct (dbus_register_ok g) eqn:Hr; runs;
    [|by rewrite Hr; split_and!; [left|..]].
  destruct (settings g); runs; rewrite Hr.
  - split_and!; try done. right. eexists. split; [reflexivity|].
    by case_bool_decide.
  - split_and!; try done. right. eexists. split; [reflexivity|].
    by case_bool_decide.
Qed.

Lemma provision_all_run C l g :
  let m := provision_all C l in
  (exists new, contexts (exec m g) = contexts g ++ new
               /\ Forall (fun c => active c = false /\ ctx_pending c = None)
                    new
               /\ (length new <= length l)%nat)
  /\ powered (exec m g) = powered g
  /\ pending (exec m g) = pending g
  /\ dbus_register_ok (exec m g) = dbus_register_ok g
  /\ filter (is_signal "ContextRemoved") (trace m g) = []
  /\ filter (is_signal "ContextAdded") (trace m g) = [].
Proof.
  revert g. induction l as [|ap l IH]; intros g m; subst m; simpl.
  - runs. split_and!; try done. exists []. by rewrite app_nil_r.
  - destruct (provision_context_run C ap g) as (H1 & H2 & H3 & H4 & H5 & H6).
    destruct (IH (exec (provision_context C ap) g))
      as ((new & I1 & Inew & Ilen) & I2 & I3 & I4 & I5 & I6).
    rewrite exec_bind, trace_bind, !filter_app.
    rewrite I2, I3, I4, I5, I6, H2, H3, H4, H5, H6.
    split_and!; try done. rewrite I1.
    destruct H1 as [->|(c & -> & Ha & Hp)].
    + exists new. split_and!; try done. simpl. lia.
    + exists (c :: new). rewrite <- app_assoc. split_and!; try done.
      * by constructor.
      * simpl. lia.
Qed.

Lemma send_context_added_signals (l : list pri_context) (k : nat)
    (g : ofono_gprs) :
  drop k (contexts g) = l ->
  let m := for_each (seq k (length l)) send_context_added_signal in
  exec m g = g
  /\ trace m g = (fun c => g_dbus_emit_signal "ContextAdded" (path c)) <$> l.
Proof.
  revert k. induction l as [|c l IH]; intros k Hk m; subst m; simpl.
  - by runs.
  - assert (Hc : contexts g !! k = Some c).
    { rewrite <- (Nat.add_0_r k), <- lookup_drop, Hk. done. }
    assert (Hk' : drop (S k) (contexts g) = l).
    { rewrite <- (Nat.add_1_r k), <- drop_drop, Hk. done. }
    destruct (IH (S k) Hk') as [I1 I2].
    unfold send_context_added_signal at 1 3. runs. rewrite Hc. runs.
    by rewrite I1, I2.
Qed.

Lemma signals_filter (sig other : string) (l : list pri_context) :
  filter (is_signal sig)
    ((fun c => g_dbus_emit_signal other (path c)) <$> l)
  = if String.eqb other sig
    then (fun c => g_dbus_emit_signal other (path c)) <$> l else [].
Proof.
  induction l as [|c l IH]; [by destruct (String.eqb other sig)|].
  rewrite fmap_cons, filter_cons, IH. simpl.
  by destruct (String.eqb other sig).
Qed.

Lemma add_context_summary C nm t g :
  let m := add_context C nm t in
  (contexts (exec m g) = contexts g
   \/ exists c, contexts (exec m g) = contexts g ++ [c]
                /\ active c = false /\ ctx_pending c = None)
  /\ powered (exec m g) = powered g
  /\ pending (exec m g) = pending g
  /\ filter (is_signal "ContextRemoved") (trace m g) = []
  /\ filter (is_signal "ContextAdded") (trace m g) = [].
Proof.
  intros m. subst m.
  unfold exec, trace. rewrite (add_context_run C nm t g).
  destruct (Uintset.get_max (used_pids g) <? next_context_id g);
    [by split_and!; [left|..]|].
  destruct (pri_context_create nm t) as [ctx0|] eqn:Hcreate;
    [|by split_and!; [left|..]].
  destruct (pri_context_create_idle _ _ _ Hcreate) as [Ha Hp].
  destruct (dbus_register_ok g); [|by split_and!; [left|..]].
  simpl.
  destruct (settings g); (split_and!; try done; right; by eexists).
Qed.

Lemma provision_contexts_run C db g :
  let m := provision_contexts C db in
  (exists new, contexts (exec m g) = contexts g ++ new
               /\ Forall (fun c => active c = false /\ ctx_pending c = None)
                    new
               /\ (length new <= length (default [] db))%nat)
  /\ powered (exec m g) = powered g
  /\ pending (exec m g) = pending g
  /\ filter (is_signal "ContextRemoved") (trace m g) = []
  /\ filter (is_signal "ContextAdded") (trace m g) = [].
Proof.
  intros m. subst m. destruct db as [l|]; simpl.
  - destruct (provision_all_run C l g) as (H1 & H2 & H3 & _ & H5 & H6).
    done.
  - split_and!; try done. exists []. by rewrite app_nil_r.
Qed.

(** X16. ResetContexts.  While a request is pending on the manager or on a
    context the answer is "busy", before the arguments, Powered and the
    active contexts are looked at.  A request that is not answered with a
    method return changes nothing and calls nothing.  One that is answered
    with a method return signals ContextRemoved for every context there
    was, in list order, and ContextAdded for every context there is
    afterwards; these are idle and at most as many as provisioning offered,
    or the single default context. *)
Theorem reset_contexts_outcome (C : common) (msg : dbus_message)
    (db : option (list provision_db_entry)) (g : ofono_gprs) :
  let m := gprs_reset_contexts C msg db in
  (pending g <> None
   \/ Exists (fun c => ctx_pending c <> None) (contexts g) ->
   m g = (Some ofono_error_busy, g, []))
  /\ (result m g <> Some method_return ->
      result m g <> None /\ exec m g = g /\ trace m g = [])
  /\ (result m g = Some method_return ->
      filter (is_signal "ContextRemoved") (trace m g)
      = (fun c => g_dbus_emit_signal "ContextRemoved" (path c))
        <$> contexts g
      /\ filter (is_signal "ContextAdded") (trace m g)
         = (fun c => g_dbus_emit_signal "ContextAdded" (path c))
           <$> contexts (exec m g)
      /\ Forall (fun c => active c = false /\ ctx_pending c = None)
           (contexts (exec m g))
      /\ (length (contexts (exec m g))
          <= Nat.max 1 (length (default [] db)))%nat
      /\ powered (exec m g) = false).
Proof.
  intros m. subst m. split.
  { intros H. unfold gprs_reset_contexts, bind, get, ret.
    case_bool_decide as Hp; [done|].
    destruct H as [H|H]; [done|].
    assert (He : existsb (fun c => bool_decide (ctx_pending c <> None))
                   (contexts g) = true).
    { apply existsb_exists. apply Exists_exists in H as (c & Hin & Hc).
      exists c. split; [by apply list_elem_of_In|].
      by apply bool_decide_eq_true. }
    by rewrite He. }
  unfold gprs_reset_contexts. rewrite exec_bind, result_bind, trace_bind.
  rewrite exec_get, result_get, trace_get. simpl.
  case_bool_decide as Hp; [by split|].
  destruct (existsb _ (contexts g)); [by split|].
  destruct (body msg); [|by split].
  destruct (powered g) eqn:Hpow; [by split|].
  destruct (existsb active (contexts g)) eqn:Hact; [by split|].
  assert (Hall : Forall (fun c => active c = false) (contexts g)).
  { apply Forall_forall. intros c Hc. destruct (active c) eqn:Ha; [|done].
    assert (existsb active (contexts g) = true); [|congruence].
    apply existsb_exists. exists c. by split; [apply list_elem_of_In|]. }
  destruct (remove_all_contexts_run (contexts g) g eq_refl Hall)
    as (A1 & A2 & A3 & _ & A5 & A6).
  set (ga := exec (remove_all_contexts (length (contexts g))) g) in *.
  set (gb := with_last_context_id 0 ga).
  destruct (provision_contexts_run C db gb)
    as ((new & B1 & Bnew & Blen) & B2 & B3 & B5 & B6).
  set (gc := exec (provision_contexts C db) gb) in *.
  change (contexts gb) with (contexts ga) in B1. rewrite A1 in B1.
  simpl in B1.
  destruct (add_context_summary C None OFONO_GPRS_CONTEXT_TYPE_INTERNET gc)
    as (D1 & D2 & D3 & D5 & D6).
  set (gd := exec (when (bool_decide (contexts gc = []))
                     (add_context C None OFONO_GPRS_CONTEXT_TYPE_INTERNET ;;
                      ret tt)) gc).
  assert (Hd : (contexts gd = new /\ new <> [])
               \/ (new = [] /\ contexts gd = [])
               \/ (new = [] /\ exists c, contexts gd = [c]
                              /\ active c = false /\ ctx_pending c = None)).
  { unfold gd. rewrite exec_when. case_bool_decide as Hnil.
    - rewrite exec_bind, exec_ret. rewrite Hnil in B1. subst new.
      rewrite Hnil in D1. destruct D1 as [D1|(c & D1 & Ha & Hpc)].
      + right. by left.
      + right. right. split; [done|]. by exists c.
    - left. rewrite B1 in Hnil. by rewrite B1. }
  assert (Hpd : powered gd = false).
  { unfold gd. rewrite exec_when. case_bool_decide.
    - rewrite exec_bind, exec_ret, D2, B2. simpl. by rewrite A2.
    - rewrite B2. simpl. by rewrite A2. }
  assert (Htd : filter (is_signal "ContextRemoved")
                  (trace (when (bool_decide (contexts gc = []))
                            (add_context C None
                               OFONO_GPRS_CONTEXT_TYPE_INTERNET ;;
                             ret tt)) gc) = []
                /\ filter (is_signal "ContextAdded")
                     (trace (when (bool_decide (contexts gc = []))
                               (add_context C None
                                  OFONO_GPRS_CONTEXT_TYPE_INTERNET ;;
                                ret tt)) gc) = []).
  { rewrite trace_when. case_bool_decide; [|done].
    by rewrite trace_bind, trace_ret, app_nil_r. }
  destruct Htd as [Td5 Td6].
  destruct (send_context_added_signals (contexts gd) 0 gd eq_refl)
    as [S1 S2].
  split; [intros H; exfalso; apply H; by rewrite !result_bind, result_ret|].
  intros _.
  assert (Hexec :
    exec (remove_all_contexts (length (contexts g)) ;;
          modify (with_last_context_id 0) ;;
          provision_contexts C db ;;
          (let* g1 := get in
           when (bool_decide (contexts g1 = []))
             (add_context C None OFONO_GPRS_CONTEXT_TYPE_INTERNET ;; ret tt) ;;
           (let* g2 := get in
            for_each (seq 0 (length (contexts g2)))
              send_context_added_signal ;;
            ret (Some method_return)))) g = gd).
  { rewrite !exec_bind, exec_modify, !exec_get, !result_get, exec_ret.
    exact S1. }
  assert (Htrace :
    trace (remove_all_contexts (length (contexts g)) ;;
           modify (with_last_context_id 0) ;;
           provision_contexts C db ;;
           (let* g1 := get in
            when (bool_decide (contexts g1 = []))
              (add_context C None OFONO_GPRS_CONTEXT_TYPE_INTERNET ;; ret tt) ;;
            (let* g2 := get in
             for_each (seq 0 (length (contexts g2)))
               send_context_added_signal ;;
             ret (Some method_return)))) g
    = trace (remove_all_contexts (length (contexts g))) g
      ++ trace (provision_contexts C db) gb
      ++ trace (when (bool_decide (contexts gc = []))
                  (add_context C None OFONO_GPRS_CONTEXT_TYPE_INTERNET ;;
                   ret tt)) gc
      ++ ((fun c => g_dbus_emit_signal "ContextAdded" (path c))
          <$> contexts gd)).
  { rewrite !trace_bind, ?exec_bind, ?exec_modify, ?trace_modify,
      ?trace_get, ?exec_get, ?result_get, ?trace_ret. simpl.
    rewrite app_nil_r. do 3 f_equal. exact S2. }
  rewrite Hexec, Htrace, !filter_app, A5, A6, B5, B6, Td5, Td6,
    !signals_filter. simpl. rewrite app_nil_r.
  split_and!; try done.
  - destruct Hd as [[-> _]|[[_ ->]|[_ (c & -> & Ha & Hpc)]]];
      [done|done|by repeat constructor].
  - destruct Hd as [[-> _]|[[_ ->]|[_ (c & -> & Ha & Hpc)]]]; simpl; lia.
Qed.

Lemma reset_contexts_outcome_witness :
  filter (is_signal "ContextAdded")
    (trace (gprs_reset_contexts common_model (reset_msg 5) None)
       (exec (step common_model (ev_add_context (add_msg 1 "mms"))) created))
  = (fun c => g_dbus_emit_signal "ContextAdded" (path c))
    <$> contexts
          (exec (gprs_reset_contexts common_model (reset_msg 5) None)
             (exec (step common_model (ev_add_context (add_msg 1 "mms")))
                created)).
Proof.
  apply (proj2 (proj2 (reset_contexts_outcome common_model (reset_msg 5) None
                         (exec (step common_model
                                  (ev_add_context (add_msg 1 "mms")))
                            created)))).
  vm_compute. reflexivity.
Defined.

(** *** Deactivation reported by the driver *)

(* the manager after a successful activation of an idle context *)
Lemma activated_form (C : common) (g : ofono_gprs) (i n : nat)
    (ctx : pri_context) (f : context_settings -> context_settings) :
  contexts g !! i = Some ctx ->
  context_driver ctx = None ->
  (forall u, used_cids g = Some u -> Uintset.wf u) ->
  result (pri_set_property C i (set_active_msg n true)) g = None ->
  exists used gc d h q s,
    let c := Uintset.find_unused_min used in
    used_cids g = Some used
    /\ context_drivers g !! gc = Some d /\ inuse d = false
    /\ Uintset.contains used c = false
    /\ Uintset.umin used <= c <= Uintset.umax used
    /\ pending g = None /\ active ctx = false /\ ctx_pending ctx = None
    /\ flag_test (flags g) GPRS_FLAG_ATTACHING = false
    /\ (type ctx <> OFONO_GPRS_CONTEXT_TYPE_MMS ->
        h = proxy_host ctx /\ q = proxy_port ctx)
    /\ exec (pri_activate_callback i true)
         (exec (driver_reports i f)
            (exec (pri_set_property C i (set_active_msg n true)) g))
       = with_binding g i
           (with_proxy_host h
              (with_proxy_port q
                 (with_ctx_pending None
                    (with_active true
                       (with_context_driver (Some gc)
                          (with_context (with_cid c (context ctx)) ctx))))))
           gc (with_gc_settings s (with_inuse true d))
           (Some (Uintset.put used c)).
Proof.
  intros Hctx Hdrv Hwf Hres.
  destruct (pri_set_active_accepted C i n g ctx Hctx Hres)
    as (Hp & Hcp & Hact & Hatt & Hfl & Has & Hexec).
  destruct (assign_context_success _ _ _ Has)
    as (ctx' & used & gc & Hctx' & Hu & Hmax & Hgc).
  rewrite Hctx in Hctx'. inversion Hctx'; subst ctx'. clear Hctx'.
  destruct (find_avail_spec _ _ _ Hgc) as (d & drv & Hd & Hgd & Hin & _).
  simpl in Hmax.
  assert (Hfree : min_unused used (Uintset.find_unused_min used)).
  { apply find_unused_min_spec; [by apply Hwf|].
    apply Z.ltb_ge in Hmax. exact Hmax. }
  destruct Hfree as (Hc & Hrange & _).
  set (c := Uintset.find_unused_min used) in *.
  assert (Hi : (i < length (contexts g))%nat) by (by eapply lookup_lt_Some).
  assert (Hlgc : (gc < length (context_drivers g))%nat)
    by (by eapply lookup_lt_Some).
  set (cb := with_ctx_pending (Some n)
               (with_context_driver (Some gc)
                  (with_context (with_cid c (context ctx)) ctx))).
  set (db := with_gc_settings
               (alloc_settings (proto (context ctx)) (gc_settings d))
               (with_inuse true d)).
  assert (H1 : exec (pri_set_property C i (set_active_msg n true)) g
               = with_binding g i cb gc db (Some (Uintset.put used c))).
  { rewrite Hexec.
    rewrite (assign_context_exec i 0 g ctx used gc Hctx Hu Hmax Hgc).
    runs. rewrite list_alter_alter_eq.
    rewrite (alter_insert _ _ _ _ Hctx), (alter_insert _ _ _ _ Hd).
    unfold with_binding. destruct g. simpl. by norm_gprs. }
  assert (H2 : exec (driver_reports i f)
                 (exec (pri_set_property C i (set_active_msg n true)) g)
               = with_binding g i cb gc
                   (with_gc_settings (f (gc_settings db)) db)
                   (Some (Uintset.put used c))).
  { rewrite H1. unfold driver_reports, with_binding.
    destruct g; simpl in *. norm_gprs. by runs_ins Hi Hlgc. }
  destruct (pri_activate_callback_ok g i cb gc
              (with_gc_settings (f (gc_settings db)) db)
              (Some (Uintset.put used c)) n Hi Hlgc eq_refl eq_refl)
    as (h & q & s & Hmms & H3).
  rewrite <- H2 in H3.
  exists used, gc, d, h, q, s. split_and!; try done; by destruct Hrange.
Qed.

(* the teardown of the context gives back the manager as it was *)
Lemma teardown_restores g i ctx gc d used c h q s :
  contexts g !! i = Some ctx -> context_drivers g !! gc = Some d ->
  active ctx = false -> ctx_pending ctx = None ->
  context_driver ctx = None -> cid (context ctx) = 0 ->
  proxy_host ctx = None -> proxy_port ctx = 0 ->
  (type ctx <> OFONO_GPRS_CONTEXT_TYPE_MMS -> h = None /\ q = 0) ->
  inuse d = false -> gc_settings d = mk_context_settings None None ->
  used_cids g = Some used -> Uintset.wf used ->
  Uintset.umin used <= c <= Uintset.umax used ->
  Uintset.contains used c = false ->
  exec (pri_reset_context_settings i ;; release_context i)
    (with_binding g i
       (with_proxy_host h
          (with_proxy_port q
             (with_ctx_pending None
                (with_active true
                   (with_context_driver (Some gc)
                      (with_context (with_cid c (context ctx)) ctx))))))
       gc (with_gc_settings s (with_inuse true d))
       (Some (Uintset.put used c)))
  = g.
Proof.
  intros Hctx Hd Hact Hcp Hdrv Hcid Hph Hpp Hmms Hin Hs Hu Hwf Hrange Hfree.
  assert (Hi : (i < length (contexts g))%nat) by (by eapply lookup_lt_Some).
  assert (Hgc : (gc < length (context_drivers g))%nat)
    by (by eapply lookup_lt_Some).
  unfold with_binding. rewrite exec_bind.
  destruct g; simpl in *. norm_gprs.
  erewrite pri_reset_context_settings_exec;
    [|simpl; by apply list_lookup_insert_eq|done
     |simpl; by apply list_lookup_insert_eq].
  simpl. norm_gprs. runs_ins Hi Hgc.
  assert (Hq : type ctx <> OFONO_GPRS_CONTEXT_TYPE_MMS ->
               with_proxy_host h (with_proxy_port q ctx) = ctx).
  { intros Hm. destruct (Hmms Hm) as [-> ->].
    destruct ctx. simpl in *. by subst. }
  case_bool_decide as Hm;
    unfold release_context; runs_ins Hi Hgc;
    rewrite put_take_free by done;
    (f_equal;
     [rewrite <- (list_insert_id _ _ _ Hctx) at 2; f_equal
     |done
     |rewrite <- (list_insert_id _ _ _ Hd) at 2; f_equal;
      destruct d; simpl in *; by subst]).
  - destruct ctx as [? ? ? ? ? ? ? ? ? ? ? pc ?]. destruct pc.
    simpl in *. by subst.
  - specialize (Hq Hm).
    destruct ctx as [? ? ? ? ? ? ? ? ? ? ? pc ?]. destruct pc.
    simpl in *. subst. by inversion Hq.
Qed.

Lemma context_deactivated_loop_skip (l : list nat) (c : Z) (g : ofono_gprs) :
  (forall j x, In j l -> contexts g !! j = Some x -> cid (context x) <> c) ->
  context_deactivated_loop l c g = (tt, g, []).
Proof.
  induction l as [|j l IH]; intros H; [done|].
  cbn [context_deactivated_loop]. unfold bind, get at 1.
  destruct (contexts g !! j) as [x|] eqn:Hx; [|done].
  destruct (Z.eqb_spec (cid (context x)) c) as [E|_].
  - exfalso. by apply (H j x); [left|..].
  - simpl. rewrite IH; [done|]. intros k y Hk. apply H. by right.
Qed.

Lemma context_deactivated_loop_app (l1 l2 : list nat) (c : Z)
    (g : ofono_gprs) :
  Forall (fun j => exists x, contexts g !! j = Some x
                             /\ cid (context x) <> c) l1 ->
  context_deactivated_loop (l1 ++ l2) c g = context_deactivated_loop l2 c g.
Proof.
  induction 1 as [|j l (x & Hx & Hc) _ IH]; [done|].
  cbn [app context_deactivated_loop]. unfold bind at 1, get at 1.
  rewrite Hx. destruct (Z.eqb_spec (cid (context x)) c) as [E|_]; [done|].
  simpl. rewrite IH.
  by destruct (context_deactivated_loop l2 c g) as [[[] ?] ?].
Qed.

(* the loop of ofono_gprs_context_deactivated when context [i] is the only
   one with the cid *)
Lemma context_deactivated_loop_at (g3 g : ofono_gprs) (i n : nat)
    (c3 : pri_context) (c : Z) :
  contexts g3 !! i = Some c3 -> cid (context c3) = c -> active c3 = true ->
  (forall j, (j < i)%nat ->
     exists x, contexts g3 !! j = Some x /\ cid (context x) <> c) ->
  exec (pri_reset_context_settings i ;; release_context i) g3 = g ->
  (forall j x, contexts g !! j = Some x -> cid (context x) <> c) ->
  (i < n)%nat ->
  exec (context_deactivated_loop (seq 0 n) c) g3 = g
  /\ trace (context_deactivated_loop (seq 0 n) c) g3
     = trace (pri_reset_context_settings i ;; release_context i) g3
       ++ [ofono_dbus_signal_property_changed (path c3)
             OFONO_CONNECTION_CONTEXT_INTERFACE "Active"
             (DBUS_TYPE_BOOLEAN false)].
Proof.
  intros Hc3 Hcid Hact Hbefore Hdown Hafter Hn.
  replace n with (i + S (n - S i))%nat by lia.
  rewrite seq_app. simpl.
  assert (Hpre : Forall (fun j => exists x, contexts g3 !! j = Some x
                                            /\ cid (context x) <> c)
                   (seq 0 i)).
  { apply Forall_forall. intros j Hj. apply elem_of_seq in Hj.
    apply Hbefore. lia. }
  unfold exec at 1, trace at 1.
  rewrite (context_deactivated_loop_app _ _ c g3 Hpre).
  fold (exec (context_deactivated_loop (i :: seq (S i) (n - S i)) c) g3).
  fold (trace (context_deactivated_loop (i :: seq (S i) (n - S i)) c) g3).
  cbn [context_deactivated_loop].
  rewrite exec_bind, trace_bind, exec_get, result_get, trace_get.
  rewrite Hc3, Hcid, Z.eqb_refl, Hact. simpl.
  rewrite exec_bind in Hdown.
  rewrite !exec_bind, !trace_bind, exec_emit, trace_emit, Hdown.
  unfold exec at 1, trace at 3.
  rewrite context_deactivated_loop_skip by (intros j x _; apply Hafter).
  simpl. by rewrite <- !app_assoc.
Qed.


